(** * Video Analysis & Quiz Generator: a shallow embedding

    The development follows the repository file by file:
      - [Py]            the fragment of Python's str / int / exception
                        behaviour the sources rely on;
      - [Utils]         src/utils.py (AppConfig and its typed getters over
                        configparser.ConfigParser);
      - [StreamlitApp]  src/streamlit_app.py (validation, clean-up, the two
                        retry loops, the page script and the session);
      - [Batch]         the batch scripts (Version 1.py / Version 2.py).

    Python [str] values are modelled by [string]; every [ascii] stands for
    one code point in the range 0..255. *)

From Stdlib Require Import ZArith QArith String Ascii List Bool Lia.
From stdpp Require Import gmap strings list fin_maps.
Close Scope Q_scope.
Import ListNotations.
Local Open Scope string_scope.

(* ===================================================================== *)
(** * Python preliminaries *)
(* ===================================================================== *)

Module Py.

(** [str.lower()] on code points below 256: A-Z and the Latin-1 capitals
    U+00C0..U+00DE (except the multiplication sign U+00D7) move up by 32,
    everything else is unchanged. *)
Definition lower_char (c : ascii) : ascii :=
  let n := N_of_ascii c in
  if ((65 <=? n) && (n <=? 90) ||
      (192 <=? n) && (n <=? 222) && negb (n =? 215))%N
  then ascii_of_N (n + 32) else c.

Fixpoint lower (s : string) : string :=
  match s with
  | EmptyString => EmptyString
  | String c s' => String (lower_char c) (lower s')
  end.

(** [str.isspace()] for one code point below 256: TAB..CR, FS..US, SPACE,
    NEL (U+0085) and NBSP (U+00A0). *)
Definition isspace (c : ascii) : bool :=
  let n := N_of_ascii c in
  ((9 <=? n) && (n <=? 13) || (28 <=? n) && (n <=? 32) ||
   (n =? 133) || (n =? 160))%N.

Fixpoint lstrip (s : string) : string :=
  match s with
  | EmptyString => EmptyString
  | String c s' => if isspace c then lstrip s' else s
  end.

Fixpoint rstrip (s : string) : string :=
  match s with
  | EmptyString => EmptyString
  | String c s' =>
      match rstrip s' with
      | EmptyString => if isspace c then EmptyString else String c EmptyString
      | r => String c r
      end
  end.

(** [s.strip()] *)
Definition strip (s : string) : string := rstrip (lstrip s).

(** [len(s)] *)
Definition len (s : string) : Z := Z.of_nat (String.length s).

(** Truthiness of a [str]: [not s] is [True] exactly for the empty string. *)
Definition truthy (s : string) : bool :=
  match s with EmptyString => false | _ => true end.

(** [s.split(sep)] for a one-character separator; the result is never
    empty. *)
Fixpoint split (sep : ascii) (s : string) : list string :=
  match s with
  | EmptyString => [EmptyString]
  | String c s' =>
      if Ascii.eqb c sep then EmptyString :: split sep s'
      else match split sep s' with
           | [] => [String c EmptyString]
           | piece :: pieces => String c piece :: pieces
           end
  end.

(** [l[-1]] on a list of strings known to be non-empty. *)
Definition last_item (l : list string) : string := List.last l EmptyString.

(** [x in l] for a list of strings. *)
Definition contains (l : list string) (x : string) : bool :=
  existsb (String.eqb x) l.

(** [sep.join(l)] *)
Definition join (sep : string) (l : list string) : string :=
  String.concat sep l.

(** [s.startswith(p)] *)
Definition startswith (s p : string) : bool := String.prefix p s.

(** ['c' in s] *)
Fixpoint has_char (c : ascii) (s : string) : bool :=
  match s with
  | EmptyString => false
  | String d s' => Ascii.eqb d c || has_char c s'
  end.


(** ** Exceptions *)

(** The exception classes the sources raise, catch or let through.
    [StopException] and [RerunException] are Streamlit's script-control
    exceptions (raised by [st.stop()] and [st.rerun()]) and [SystemExit]
    is raised by [exit()]; the three derive from [BaseException] directly,
    so an [except Exception] clause does not catch them. *)
Inductive exc_class : Type :=
| Exception_                      (* any other subclass of Exception *)
| ValueError
| NameError
| AttributeError
| OSError
| NoSectionError                  (* configparser *)
| NoOptionError
| InterpolationSyntaxError
| InterpolationMissingOptionError
| InterpolationDepthError
| StopException
| RerunException
| SystemExit.

Definition exc_class_eqb (a b : exc_class) : bool :=
  match a, b with
  | Exception_, Exception_ | ValueError, ValueError | NameError, NameError
  | AttributeError, AttributeError | OSError, OSError
  | NoSectionError, NoSectionError | NoOptionError, NoOptionError
  | InterpolationSyntaxError, InterpolationSyntaxError
  | InterpolationMissingOptionError, InterpolationMissingOptionError
  | InterpolationDepthError, InterpolationDepthError
  | StopException, StopException | RerunException, RerunException
  | SystemExit, SystemExit => true
  | _, _ => false
  end.

Record exn : Type := mk_exn { exn_class : exc_class; exn_msg : string }.

(** [isinstance(e, Exception)] *)
Definition is_Exception (c : exc_class) : bool :=
  match c with
  | StopException | RerunException | SystemExit => false
  | _ => true
  end.

(** [except (C1, ..., Cn)]: the classes here have no subclass relation
    among the ones listed in the sources' except clauses. *)
Definition one_of (cs : list exc_class) (c : exc_class) : bool :=
  existsb (exc_class_eqb c) cs.

(** The result of running a piece of Python: a value, a raised exception,
    or [Diverge] when the fuel given to a [while] loop ran out. *)
Inductive outcome (A : Type) : Type :=
| Return (a : A)
| Raise (e : exn)
| Diverge.
Arguments Return {A} a.
Arguments Raise {A} e.
Arguments Diverge {A}.

(** try: body / except <classes>: handler, for code without state. *)
Definition catch {A} (catches : exc_class -> bool) (body : outcome A)
    (handler : exn -> outcome A) : outcome A :=
  match body with
  | Raise e => if catches (exn_class e) then handler e else Raise e
  | r => r
  end.

Definition obind {A B} (m : outcome A) (k : A -> outcome B) : outcome B :=
  match m with
  | Return a => k a
  | Raise e => Raise e
  | Diverge => Diverge
  end.

(** ** State and exceptions *)

(** Statements that read and write a store [S]; a raised exception keeps
    the writes made so far. *)
Definition M (S A : Type) : Type := S -> outcome A * S.

Definition ret {S A} (a : A) : M S A := fun s => (Return a, s).

Definition bind {S A B} (m : M S A) (k : A -> M S B) : M S B :=
  fun s =>
    match m s with
    | (Return a, s') => k a s'
    | (Raise e, s') => (Raise e, s')
    | (Diverge, s') => (Diverge, s')
    end.

Definition raise {S A} (c : exc_class) (msg : string) : M S A :=
  fun s => (Raise (mk_exn c msg), s).

Definition lift {S A} (o : outcome A) : M S A := fun s => (o, s).

Definition gets {S A} (f : S -> A) : M S A := fun s => (Return (f s), s).

Definition modify {S} (f : S -> S) : M S unit := fun s => (Return tt, f s).

(** try: body / except <classes> as e: handler e *)
Definition try_except {S A} (catches : exc_class -> bool) (body : M S A)
    (handler : exn -> M S A) : M S A :=
  fun s =>
    match body s with
    | (Raise e, s') =>
        if catches (exn_class e) then handler e s' else (Raise e, s')
    | r => r
    end.

(** ** [int(s)] for a [str] argument, base 10 *)

(** The blanks [int] skips at both ends: TAB..CR and SPACE, and the
    non-ASCII spaces NEL and NBSP (which it first maps to SPACE).  The
    separators FS..US, although [isspace], are not skipped. *)
Definition int_blank (c : ascii) : bool :=
  let n := N_of_ascii c in
  ((9 <=? n) && (n <=? 13) || (n =? 32) || (n =? 133) || (n =? 160))%N.

Fixpoint lstrip_by (p : ascii -> bool) (s : string) : string :=
  match s with
  | EmptyString => EmptyString
  | String c s' => if p c then lstrip_by p s' else s
  end.

Fixpoint rstrip_by (p : ascii -> bool) (s : string) : string :=
  match s with
  | EmptyString => EmptyString
  | String c s' =>
      match rstrip_by p s' with
      | EmptyString => if p c then EmptyString else String c EmptyString
      | r => String c r
      end
  end.

Definition digit_val (c : ascii) : option Z :=
  let n := N_of_ascii c in
  if ((48 <=? n) && (n <=? 57))%N then Some (Z.of_N n - 48)%Z else None.

(** Digits, with single underscores allowed between two digits. *)
Fixpoint parse_digits (acc : Z) (after_digit : bool) (s : string)
  : option Z :=
  match s with
  | EmptyString => if after_digit then Some acc else None
  | String c s' =>
      match digit_val c with
      | Some d => parse_digits (10 * acc + d)%Z true s'
      | None =>
          if Ascii.eqb c "_" && after_digit
          then parse_digits acc false s'
          else None
      end
  end.

(** [int(s)]: [None] stands for the [ValueError] it raises. *)
Definition int (s : string) : option Z :=
  match rstrip_by int_blank (lstrip_by int_blank s) with
  | String "+" r => parse_digits 0 false r
  | String "-" r => option_map Z.opp (parse_digits 0 false r)
  | t => parse_digits 0 false t
  end.

End Py.

Declare Scope py_scope.
Delimit Scope py_scope with py.
Notation "x <- m ;; k" := (Py.bind m (fun x => k))
  (at level 100, m at next level, k at level 200, right associativity)
  : py_scope.
Notation "m ;; k" := (Py.bind m (fun _ => k))
  (at level 100, k at level 200, right associativity) : py_scope.

(* ===================================================================== *)
(** * src/utils.py *)
(* ===================================================================== *)

(** ** configparser.ConfigParser, as far as AppConfig's getters use it *)

Module ConfigParser.
Import Py.

(** The parser's content: [_sections] and [_defaults] (the DEFAULT
    section).  Values are strings (allow_no_value is off). *)
Record t : Type := Build {
  sections : gmap string (gmap string string);
  defaults : gmap string string
}.

Definition default_section : string := "DEFAULT".
Definition MAX_INTERPOLATION_DEPTH : nat := 10.

(** [optionxform]: option names are looked up in lower case. *)
Definition optionxform (opt : string) : string := lower opt.

(** [_unify_values(section, vars=None)]: the section's own options chained
    in front of the defaults; a missing section other than DEFAULT raises
    NoSectionError. *)
Definition unify_values (cp : t) (section : string)
  : outcome (gmap string string) :=
  match sections cp !! section with
  | Some sectiondict => Return (sectiondict ∪ defaults cp)
  | None =>
      if String.eqb section default_section
      then Return (defaults cp)
      else Raise (mk_exn NoSectionError section)
  end.

(** [rest.find("%")]: the text before the first percent sign and, when
    there is one, the text after it. *)
Fixpoint break_percent (rest : string) : string * option string :=
  match rest with
  | EmptyString => (EmptyString, None)
  | String c rest' =>
      if Ascii.eqb c "%" then (EmptyString, Some rest')
      else let '(before, after) := break_percent rest' in
           (String c before, after)
  end.

(** [_KEYCRE = r"%\(([^)]+)\)s"] matched at the start of ["%(" ++ s]:
    a non-empty name up to the first closing parenthesis, then an [s].
    Returns the name and what follows the match. *)
Fixpoint until_paren (s : string) : option (string * string) :=
  match s with
  | EmptyString => None
  | String c s' =>
      if Ascii.eqb c ")" then Some (EmptyString, s')
      else match until_paren s' with
           | Some (name, after) => Some (String c name, after)
           | None => None
           end
  end.

Definition match_key (s : string) : option (string * string) :=
  match until_paren s with
  | Some (String c name, String "s" after) => Some (String c name, after)
  | _ => None
  end.

(** [BasicInterpolation._interpolate_some]: [depth_left] counts the
    nesting levels still allowed (the source raises
    InterpolationDepthError once depth exceeds 10); the inner loop is the
    [while rest:] loop, whose every round consumes part of [rest]. *)
Fixpoint interpolate_some (depth_left : nat) (opt : string)
    (map : gmap string string) (rest : string) : outcome string :=
  match depth_left with
  | O => Raise (mk_exn InterpolationDepthError opt)
  | S depth_left' =>
      (fix while_rest (rounds : nat) (rest : string) : outcome string :=
         match rounds with
         | O => Return EmptyString
         | S rounds' =>
             match break_percent rest with
             | (before, None) => Return before
             | (before, Some after) =>
                 match after with
                 | String "%" rest' =>
                     obind (while_rest rounds' rest') (fun tail =>
                     Return (before ++ "%" ++ tail))
                 | String "(" after_paren =>
                     match match_key after_paren with
                     | None =>
                         Raise (mk_exn InterpolationSyntaxError
                                  "bad interpolation variable reference")
                     | Some (name, rest') =>
                         match map !! optionxform name with
                         | None =>
                             Raise (mk_exn InterpolationMissingOptionError
                                      (optionxform name))
                         | Some v =>
                             obind (if has_char "%" v
                                    then interpolate_some depth_left' opt
                                           map v
                                    else Return v) (fun expansion =>
                             obind (while_rest rounds' rest') (fun tail =>
                             Return (before ++ expansion ++ tail)))
                         end
                     end
                 | _ =>
                     Raise (mk_exn InterpolationSyntaxError
                              "'%' must be followed by '%' or '('")
                 end
             end
         end) (S (String.length rest)) rest
  end.

(** [BasicInterpolation.before_get] *)
Definition before_get (opt value : string) (map : gmap string string)
  : outcome string :=
  interpolate_some MAX_INTERPOLATION_DEPTH opt map value.

(** What [get] hands back: the stored value, or the very object passed as
    [fallback]. *)
Inductive got (V F : Type) : Type :=
| Value (v : V)
| Fallback (f : F).
Arguments Value {V F} v.
Arguments Fallback {V F} f.

(** [ConfigParser.get(section, option, fallback=...)]; [fallback = None]
    stands for the keyword being left out (_UNSET). *)
Definition get {F} (cp : t) (section opt : string) (fallback : option F)
  : outcome (got string F) :=
  match unify_values cp section with
  | Raise e =>
      match fallback with
      | None => Raise e
      | Some f => Return (Fallback f)
      end
  | Diverge => Diverge
  | Return d =>
      let opt := optionxform opt in
      match d !! opt with
      | None =>
          match fallback with
          | None => Raise (mk_exn NoOptionError opt)
          | Some f => Return (Fallback f)
          end
      | Some value =>
          obind (before_get opt value d) (fun v => Return (Value v))
      end
  end.

(** [_get_conv]: [conv(self.get(section, option))], where only
    NoSectionError and NoOptionError are turned into the fallback. *)
Definition get_conv {V F} (cp : t) (section opt : string)
    (conv : string -> outcome V) (fallback : option F)
  : outcome (got V F) :=
  catch (one_of [NoSectionError; NoOptionError])
    (obind (get (F := Empty_set) cp section opt None) (fun g =>
     match g with
     | Value s => obind (conv s) (fun v => Return (Value v))
     | Fallback f => match f with end
     end))
    (fun e => match fallback with
              | None => Raise e
              | Some f => Return (Fallback f)
              end).

Definition conv_int (s : string) : outcome Z :=
  match Py.int s with
  | Some z => Return z
  | None => Raise (mk_exn ValueError "invalid literal for int() with base 10")
  end.

(** BOOLEAN_STATES and [_convert_to_boolean] *)
Definition BOOLEAN_STATES : list (string * bool) :=
  [("1", true); ("yes", true); ("true", true); ("on", true);
   ("0", false); ("no", false); ("false", false); ("off", false)].

Fixpoint assoc (k : string) (l : list (string * bool)) : option bool :=
  match l with
  | [] => None
  | (k', v) :: l' => if String.eqb k k' then Some v else assoc k l'
  end.

Definition convert_to_boolean (value : string) : outcome bool :=
  match assoc (lower value) BOOLEAN_STATES with
  | Some b => Return b
  | None => Raise (mk_exn ValueError "Not a boolean")
  end.

Definition getint {F} cp section opt (fallback : option F) :=
  get_conv (F := F) cp section opt conv_int fallback.

Definition getboolean {F} cp section opt (fallback : option F) :=
  get_conv (F := F) cp section opt convert_to_boolean fallback.

End ConfigParser.

(** ** AppConfig *)

Module AppConfig.
Import Py.
Import ConfigParser (got, Value, Fallback).

(** [self.config]; the file name plays no part in the getters. *)
Record t : Type := Build { config : ConfigParser.t }.

(** The sections written by [create_default_config]. *)
Definition default_sections : gmap string (gmap string string) :=
  list_to_map
    [("app", list_to_map
        [("max_file_size_mb", "500");
         ("supported_formats", "mp4,avi,mov,mkv,webm,flv,m4v");
         ("session_timeout_minutes", "30");
         ("max_retry_attempts", "3");
         ("cache_ttl_seconds", "3600")]);
     ("performance", list_to_map
        [("enable_caching", "true");
         ("enable_progress_tracking", "true");
         ("enable_background_processing", "false")]);
     ("security", list_to_map
        [("validate_api_keys", "true");
         ("log_sensitive_info", "false")]);
     ("api", list_to_map
        [("gemini_model", "gemini-2.0-flash-lite");
         ("groq_model", "llama-3.3-70b-versatile");
         ("request_timeout", "300")]);
     ("ui", list_to_map
        [("page_layout", "wide");
         ("show_usage_tips", "false");
         ("enable_dark_mode", "false");
         ("show_system_status", "true")]);
     ("logging", list_to_map
        [("log_level", "INFO");
         ("log_file_path", EmptyString);
         ("enable_detailed_errors", "true")])].

Definition create_default_config : t :=
  Build (ConfigParser.Build default_sections ∅).

(** get, lines 73-78 *)
Definition get {F} (self : t) (section key : string) (fallback : F)
  : outcome (got string F) :=
  catch (one_of [NoSectionError; NoOptionError])
    (ConfigParser.get (config self) section key (Some fallback))
    (fun _ => Return (Fallback fallback)).

(** get_int, lines 80-85 *)
Definition get_int {F} (self : t) (section key : string) (fallback : F)
  : outcome (got Z F) :=
  catch (one_of [NoSectionError; NoOptionError; ValueError])
    (ConfigParser.getint (config self) section key (Some fallback))
    (fun _ => Return (Fallback fallback)).

(** get_bool, lines 87-92 *)
Definition get_bool {F} (self : t) (section key : string) (fallback : F)
  : outcome (got bool F) :=
  catch (one_of [NoSectionError; NoOptionError; ValueError])
    (ConfigParser.getboolean (config self) section key (Some fallback))
    (fun _ => Return (Fallback fallback)).

(** [[item.strip() for item in value.split(',') if item.strip()]] *)
Definition split_items (value : string) : list string :=
  List.map strip
    (List.filter (fun item => truthy (strip item)) (split "," value)).

(** get_list, lines 94-103.  In [fallback] and in the result, [None] is
    Python's [None] (also the parameter's default), which line 96-97
    replaces by a fresh empty list. *)
Definition get_list (self : t) (section key : string)
    (fallback : option (list string))
  : outcome (got (list string) (option (list string))) :=
  let fallback := match fallback with None => Some [] | Some l => Some l end in
  catch (one_of [NoSectionError; NoOptionError])
    (obind (ConfigParser.get (F := Empty_set) (config self) section key None)
       (fun g =>
          match g with
          | Value value => Return (Value (split_items value))
          | Fallback f => match f with end
          end))
    (fun _ => Return (Fallback fallback)).

(** Two of the convenience properties. *)
Definition max_file_size_mb (self : t) := get_int self "app" "max_file_size_mb" 500%Z.
Definition max_retry_attempts (self : t) := get_int self "app" "max_retry_attempts" 3%Z.
Definition supported_formats (self : t) :=
  get_list self "app" "supported_formats"
    (Some ["mp4"; "avi"; "mov"; "mkv"; "webm"]).

End AppConfig.

(* ===================================================================== *)
(** * src/streamlit_app.py *)
(* ===================================================================== *)

Module UploadedFile.
(** What the page reads off Streamlit's uploaded-file handle. *)
Record t : Type := Build {
  name : string;             (* uploaded_file.name *)
  size : Z;                  (* uploaded_file.size, in bytes *)
  getvalue : list Byte.byte  (* uploaded_file.getvalue() *)
}.
End UploadedFile.

Module StreamlitApp.
Import Py.
Local Open Scope py_scope.

(** ** Constants, lines 33-35 *)

Definition MAX_FILE_SIZE_MB : Z := 500.
Definition SUPPORTED_VIDEO_FORMATS : list string :=
  ["mp4"; "avi"; "mov"; "mkv"; "webm"; "flv"; "m4v"].
Definition SESSION_TIMEOUT_MINUTES : Z := 30.

(** ** Session state *)

(** [st.session_state] as the browser session keeps it from one run of the
    page to the next; [None] in a field: the key is not in the store. *)
Record stored_state : Type := {
  stored_analysis_results : option (option string);
  stored_quiz_results : option (option string);
  stored_processed_file_hash : option (option string);
  stored_api_keys_validated : option bool;
  stored_processing_status : option string
}.

Definition empty_store : stored_state :=
  {| stored_analysis_results := None;
     stored_quiz_results := None;
     stored_processed_file_hash := None;
     stored_api_keys_validated := None;
     stored_processing_status := None |}.

(** The five keys once [initialize_session_state] has run; the page reads
    and writes them only after that call (line 126).  In a field, [None]
    is Python's [None]. *)
Record session_state : Type := {
  analysis_results : option string;
  quiz_results : option string;
  processed_file_hash : option string;
  api_keys_validated : bool;
  processing_status : string
}.

(** initialize_session_state, lines 38-49: a key that is absent gets its
    default, a key that is present keeps its value. *)
Definition initialize_session_state (st : stored_state) : session_state :=
  {| analysis_results :=
       match stored_analysis_results st with None => None | Some v => v end;
     quiz_results :=
       match stored_quiz_results st with None => None | Some v => v end;
     processed_file_hash :=
       match stored_processed_file_hash st with None => None | Some v => v end;
     api_keys_validated :=
       match stored_api_keys_validated st with None => false | Some v => v end;
     processing_status :=
       match stored_processing_status st with None => "idle" | Some v => v end
  |}.

(** What a finished run leaves in the store. *)
Definition store_of (s : session_state) : stored_state :=
  {| stored_analysis_results := Some (analysis_results s);
     stored_quiz_results := Some (quiz_results s);
     stored_processed_file_hash := Some (processed_file_hash s);
     stored_api_keys_validated := Some (api_keys_validated s);
     stored_processing_status := Some (processing_status s) |}.

(** ** validate_api_keys, lines 51-68 *)

Definition validate_api_keys (gemini_key groq_key : string)
  : bool * string :=
  if negb (truthy gemini_key) || negb (truthy groq_key)
  then (false, "Both API keys are required")
  else if negb (startswith gemini_key "AI") || (len gemini_key <? 30)%Z
  then (false, "Invalid Gemini API key format")
  else if negb (startswith groq_key "gsk_") || (len groq_key <? 40)%Z
  then (false, "Invalid Groq API key format")
  else (true, "API keys validated successfully").

(** ** validate_video_file, lines 74-97 *)

(** The second component of the pair [validate_video_file] returns.  The
    f-string of the size message interpolates [file_size_mb]; it is kept
    as data instead of being rendered. *)
Inductive message : Type :=
| NoFileUploaded                         (* "No file uploaded" *)
| FileSizeExceeds (file_size_mb : Q)     (* f"File size ({file_size_mb:.1f} MB) exceeds maximum allowed size (500 MB)" *)
| UnsupportedFormat (supported : string) (* f"Unsupported file format. Supported formats: {', '.join(...)}" *)
| FileIsEmpty                            (* "File is empty" *)
| ValidationSuccessful.                  (* "File validation successful" *)

(** [uploaded_file.size / (1024 * 1024)].  Python's true division of an
    int by 2^20 is exact in binary floating point for every size below
    2^53 and monotone above, so comparing the float with 500 and comparing
    the exact quotient with 500 agree. *)
Definition file_size_mb (f : UploadedFile.t) : Q :=
  (inject_Z (UploadedFile.size f) / inject_Z (1024 * 1024))%Q.

(** [uploaded_file.name.split('.')[-1].lower()] *)
Definition file_extension (f : UploadedFile.t) : string :=
  lower (last_item (split "." (UploadedFile.name f))).

(** [a > b] on the quotient. *)
Definition Qgtb (a b : Q) : bool := negb (Qle_bool a b).

(** With a [str] name and an [int] size no statement of the [try] body
    can raise, so the [except] arm is unreachable and the function is
    pure. *)
Definition validate_video_file (uploaded_file : option UploadedFile.t)
  : bool * message :=
  match uploaded_file with
  | None => (false, NoFileUploaded)
  | Some f =>
      if Qgtb (file_size_mb f) (inject_Z MAX_FILE_SIZE_MB)
      then (false, FileSizeExceeds (file_size_mb f))
      else if negb (contains SUPPORTED_VIDEO_FORMATS (file_extension f))
      then (false, UnsupportedFormat (join ", " SUPPORTED_VIDEO_FORMATS))
      else if (UploadedFile.size f =? 0)%Z
      then (false, FileIsEmpty)
      else (true, ValidationSuccessful)
  end.

(** ** The outside world *)

(** What a call into a library or a service does: it returns, or it raises
    some subclass of Exception with the given text. *)
Inductive call_result (A : Type) : Type :=
| Returns (a : A)
| Throws (msg : string).
Arguments Returns {A} a.
Arguments Throws {A} msg.

(** A Python object held in [response.content]. *)
Inductive pyobj : Type :=
| PyNone
| PyStr (s : string)
| PyOther (is_truthy : bool).   (* any object that is not a str: no .strip() *)

Definition obj_truthy (o : pyobj) : bool :=
  match o with
  | PyNone => false
  | PyStr s => truthy s
  | PyOther b => b
  end.

(** The object an agent's [run] returns. *)
Record RunOutput : Type := {
  has_content : bool;   (* hasattr(response, 'content') *)
  content : pyobj;      (* response.content *)
  as_str : string       (* str(response) *)
}.

(** The groups of Streamlit calls of the processing block that sit outside
    the inner try statements. *)
Inductive ui_point : Type :=
| UiBeforeSave       (* lines 309-310 *)
| UiBeforeLoad       (* lines 319-320 *)
| UiBeforeAnalysis   (* lines 338-339 *)
| UiAfterAnalysis    (* lines 422-431 *)
| UiAfterQuiz        (* lines 501-506 *)
| UiFinal            (* lines 512-513 *)
| UiDownloads.       (* lines 519-538 *)

(** Everything one run of the page takes from outside. *)
Record env : Type := {
  (** CPython up to 3.13 evaluates the annotation of a module-level
      annotated assignment when the statement runs; from 3.14 on
      (PEP 649) it does not. *)
  eager_annotations : bool;
  (** [hashlib.md5(content).hexdigest()] *)
  md5_hexdigest : list Byte.byte -> string;
  (** [tempfile.NamedTemporaryFile(delete=False, suffix=...)]: the name of
      the file it creates *)
  NamedTemporaryFile : string -> call_result string;
  (** [tmp_file.write(...)] *)
  tmp_file_write : call_result unit;
  (** [open(video_path, "rb")] and [f.read()] *)
  open_read : string -> call_result unit;
  (** building the agent and [video_agent.run(prompt, videos=[video_obj])],
      by attempt *)
  gemini_run : nat -> call_result RunOutput;
  (** [quiz_agent.run(quiz_prompt)], by the text placed in the prompt and
      by attempt *)
  groq_run : string -> nat -> call_result RunOutput;
  (** [os.unlink(path)] *)
  os_unlink : string -> call_result unit;
  st_calls : ui_point -> call_result unit
}.

Inductive error_site : Type :=
| KeysRejected | EnvironRejected | FileRejected (m : message)
| LoadFailed | AnalysisFailed | QuizFailed | Unexpected.

(** What a run does that can be seen from outside. *)
Inductive event : Type :=
| VideoAgentRun (attempt : nat)                        (* line 389 *)
| QuizAgentRun (knowledge_text : string) (attempt : nat) (* line 475 *)
| Sleep (seconds : Z)                                  (* time.sleep *)
| CleanupTempFiles (file_paths : list string)          (* a call of cleanup_temp_files *)
| LogInfo (file_path : string)                         (* line 121 *)
| LogWarning (file_path : string) (e : exn)            (* line 123 *)
| StError (site : error_site) (detail : string)        (* st.error *)
| StWarningKeys                                        (* line 193 *)
| ShowCached (analysis quiz : option string)           (* lines 241, 244 *)
| ShowAnalysis (knowledge_text : string)               (* line 427 *)
| ShowQuiz (quiz_content : string).                    (* line 506 *)

(** The store of one run. *)
Record world : Type := {
  session : session_state;
  temp_files : list string;
  disk : gmap string (list Byte.byte);
  trace : list event
}.

Definition with_session (f : session_state -> session_state) (w : world)
  : world :=
  {| session := f (session w); temp_files := temp_files w;
     disk := disk w; trace := trace w |}.

Definition with_temp_files (l : list string) (w : world) : world :=
  {| session := session w; temp_files := l;
     disk := disk w; trace := trace w |}.

Definition with_disk (d : gmap string (list Byte.byte)) (w : world)
  : world :=
  {| session := session w; temp_files := temp_files w;
     disk := d; trace := trace w |}.

Definition with_event (e : event) (w : world) : world :=
  {| session := session w; temp_files := temp_files w;
     disk := disk w; trace := trace w ++ [e] |}.

Definition set_analysis_results v (s : session_state) : session_state :=
  {| analysis_results := v; quiz_results := quiz_results s;
     processed_file_hash := processed_file_hash s;
     api_keys_validated := api_keys_validated s;
     processing_status := processing_status s |}.

Definition set_quiz_results v (s : session_state) : session_state :=
  {| analysis_results := analysis_results s; quiz_results := v;
     processed_file_hash := processed_file_hash s;
     api_keys_validated := api_keys_validated s;
     processing_status := processing_status s |}.

Definition set_processed_file_hash v (s : session_state) : session_state :=
  {| analysis_results := analysis_results s;
     quiz_results := quiz_results s;
     processed_file_hash := v;
     api_keys_validated := api_keys_validated s;
     processing_status := processing_status s |}.

Definition set_api_keys_validated v (s : session_state) : session_state :=
  {| analysis_results := analysis_results s;
     quiz_results := quiz_results s;
     processed_file_hash := processed_file_hash s;
     api_keys_validated := v;
     processing_status := processing_status s |}.

Definition set_processing_status v (s : session_state) : session_state :=
  {| analysis_results := analysis_results s;
     quiz_results := quiz_results s;
     processed_file_hash := processed_file_hash s;
     api_keys_validated := api_keys_validated s;
     processing_status := v |}.

Definition emit (e : event) : M world unit := modify (with_event e).
Definition assign (f : session_state -> session_state) : M world unit :=
  modify (with_session f).

Definition st_stop {A} : M world A := raise StopException EmptyString.
Definition st_rerun {A} : M world A := raise RerunException EmptyString.

(** A library call that may raise. *)
Definition call {A} (r : call_result A) : M world A :=
  match r with
  | Returns a => ret a
  | Throws msg => raise Exception_ msg
  end.

(** ** get_file_hash, lines 70-72 *)
Definition get_file_hash (E : env) (file_content : list Byte.byte) : string :=
  md5_hexdigest E file_content.

(** ** cleanup_temp_files, lines 115-123 *)

Definition os_path_exists (file_path : string) : M world bool :=
  gets (fun w => bool_decide (is_Some (disk w !! file_path))).

Definition unlink (E : env) (file_path : string) : M world unit :=
  match os_unlink E file_path with
  | Returns _ => modify (fun w => with_disk (delete file_path (disk w)) w)
  | Throws msg => raise OSError msg
  end.

Fixpoint for_file_path (E : env) (file_paths : list string) : M world unit :=
  match file_paths with
  | [] => ret tt
  | file_path :: rest =>
      try_except is_Exception
        (present <- os_path_exists file_path ;;
         if present
         then (unlink E file_path ;; emit (LogInfo file_path))
         else ret tt)
        (fun e => emit (LogWarning file_path e)) ;;
      for_file_path E rest
  end.

(** The first event records the call and its argument; the function itself
    logs nothing on entry. *)
Definition cleanup_temp_files (E : env) (file_paths : list string)
  : M world unit :=
  emit (CleanupTempFiles file_paths) ;;
  for_file_path E file_paths.


(** ** The processing block, lines 293-567 *)

Definition max_retries : nat := 3.   (* line 341 *)

(** Lines 312-316.  The file exists on disk as soon as NamedTemporaryFile
    returns; its name joins [temp_files] once the write has returned. *)
Definition save_upload (E : env) (f : UploadedFile.t) : M world string :=
  let file_extension := last_item (split "." (UploadedFile.name f)) in
  video_path <- call (NamedTemporaryFile E ("." ++ file_extension)) ;;
  modify (fun w => with_disk (<[video_path := []]> (disk w)) w) ;;
  call (tmp_file_write E) ;;
  modify (fun w =>
    with_disk (<[video_path := UploadedFile.getvalue f]> (disk w)) w) ;;
  modify (fun w => with_temp_files (temp_files w ++ [video_path]) w) ;;
  ret video_path.

(** Lines 322-335: the body of the inner try. *)
Definition load_video (E : env) (video_path : string)
  : M world (list Byte.byte) :=
  call (open_read E video_path) ;;
  stored <- gets (fun w => disk w !! video_path) ;;
  match stored with
  | None => raise OSError "No such file or directory"
  | Some [] => raise ValueError "The video file is empty after reading."
  | Some video_bytes => ret video_bytes
  end.

(** Lines 397-400: what the first loop takes as [knowledge_text]. *)
Definition description_of (response : RunOutput) : pyobj :=
  if has_content response && obj_truthy (content response)
  then content response
  else PyStr (as_str response).

(** Line 478: what the second loop takes as [quiz_content]. *)
Definition quiz_of (quiz_response : RunOutput) : pyobj :=
  if has_content quiz_response
  then content quiz_response
  else PyStr (as_str quiz_response).

(** Lines 402-403 and 480-481: [not text or len(text.strip()) < floor]
    raises ValueError; a truthy object that is not a str has no [strip]. *)
Definition checked (floor : Z) (complaint : string) (text : pyobj)
  : outcome string :=
  match text with
  | PyStr s =>
      if negb (truthy s) || (len (strip s) <? floor)%Z
      then Raise (mk_exn ValueError complaint)
      else Return s
  | PyNone => Raise (mk_exn ValueError complaint)
  | PyOther true =>
      Raise (mk_exn AttributeError "object has no attribute 'strip'")
  | PyOther false => Raise (mk_exn ValueError complaint)
  end.

(** One pass through the try body of the first loop, lines 346-406, after
    the agent has been asked: the annotated assignment of line 389 (the
    name RunResponse is not bound in this file), the choice of
    [knowledge_text] and the length check. *)
Definition analysis_attempt (E : env) (attempt : nat) : outcome string :=
  match gemini_run E attempt with
  | Throws msg => Raise (mk_exn Exception_ msg)
  | Returns response =>
      if eager_annotations E
      then Raise (mk_exn NameError "name 'RunResponse' is not defined")
      else checked 50 "Analysis returned insufficient content"
             (description_of response)
  end.

(** The same for the second loop, lines 437-484. *)
Definition quiz_attempt (E : env) (knowledge_text : string) (attempt : nat)
  : outcome string :=
  match groq_run E knowledge_text attempt with
  | Throws msg => Raise (mk_exn Exception_ msg)
  | Returns quiz_response =>
      checked 100 "Quiz generation returned insufficient content"
        (quiz_of quiz_response)
  end.

(** The two while loops, lines 345-418 and 436-496, differ in the agent
    they ask, in what they check and in the text of the error; the loop
    itself is the same.  [result] is [None] while the success flag is
    False.  [fuel] bounds the number of rounds. *)
Section RetryLoop.
Variable E : env.
Variable site : error_site.
Variable run_event : nat -> event.
Variable attempt : nat -> outcome string.

Fixpoint retry_loop (fuel retry_count : nat) (result : option string)
  : M world (option string) :=
  match fuel with
  | O => lift Diverge
  | S fuel' =>
      if (retry_count <? max_retries)%nat && negb (bool_decide (is_Some result))
      then
        vars <- try_except is_Exception
          (emit (run_event retry_count) ;;
           text <- lift (attempt retry_count) ;;
           ret (retry_count, Some text))
          (fun e =>
             let retry_count := S retry_count in
             (if (max_retries <=? retry_count)%nat
              then
                emit (StError site (exn_msg e)) ;;
                file_paths <- gets temp_files ;;
                cleanup_temp_files E file_paths ;;
                assign (set_processing_status "idle") ;;
                st_stop
              else ret tt) ;;
             emit (Sleep 2) ;;
             ret (retry_count, None)) ;;
        retry_loop fuel' (fst vars) (snd vars)
      else ret result
  end.
End RetryLoop.

(** Reading the variable a loop assigns on success. *)
Definition read_variable (name : string) (v : option string)
  : M world string :=
  match v with
  | Some text => ret text
  | None => raise NameError name
  end.

Definition ui (E : env) (p : ui_point) : M world unit := call (st_calls E p).

Definition processing (E : env) (f : UploadedFile.t) (file_hash : string)
  : M world unit :=
  assign (set_processing_status "processing") ;;
  modify (with_temp_files []) ;;
  try_except is_Exception
    (ui E UiBeforeSave ;;
     video_path <- save_upload E f ;;
     ui E UiBeforeLoad ;;
     try_except is_Exception
       (load_video E video_path ;; ret tt)
       (fun e =>
          emit (StError LoadFailed (exn_msg e)) ;;
          file_paths <- gets temp_files ;;
          cleanup_temp_files E file_paths ;;
          assign (set_processing_status "idle") ;;
          st_stop) ;;
     ui E UiBeforeAnalysis ;;
     found <- retry_loop E AnalysisFailed VideoAgentRun (analysis_attempt E)
                (S max_retries) 0 None ;;
     knowledge_text <- read_variable "knowledge_text" found ;;
     assign (set_analysis_results (Some knowledge_text)) ;;
     ui E UiAfterAnalysis ;;
     emit (ShowAnalysis knowledge_text) ;;
     found <- retry_loop E QuizFailed (QuizAgentRun knowledge_text)
                (quiz_attempt E knowledge_text) (S max_retries) 0 None ;;
     quiz_content <- read_variable "quiz_content" found ;;
     assign (set_quiz_results (Some quiz_content)) ;;
     assign (set_processed_file_hash (Some file_hash)) ;;
     ui E UiAfterQuiz ;;
     emit (ShowQuiz quiz_content) ;;
     file_paths <- gets temp_files ;;
     cleanup_temp_files E file_paths ;;
     ui E UiFinal ;;
     assign (set_processing_status "idle") ;;
     ui E UiDownloads)
    (fun e =>
       emit (StError Unexpected (exn_msg e)) ;;
       file_paths <- gets temp_files ;;
       cleanup_temp_files E file_paths ;;
       assign (set_processing_status "idle")).

(** ** The page script, top to bottom *)

(** The widget values of one run. *)
Record inputs : Type := {
  gemini_api_key : string;
  groq_api_key : string;
  uploaded_file : option UploadedFile.t;
  analyze_clicked : bool;     (* the button of line 291 *)
  reprocess_clicked : bool    (* the button of line 249 *)
}.

Definition opt_truthy (v : option string) : bool :=
  match v with
  | None => false
  | Some s => truthy s
  end.

Definition hash_is (v : option string) (file_hash : string) : bool :=
  match v with
  | None => false
  | Some h => String.eqb h file_hash
  end.

(** Lines 161-170 *)
Definition sidebar (inp : inputs) : M world unit :=
  if truthy (gemini_api_key inp) && truthy (groq_api_key inp)
  then
    let '(is_valid, message) :=
      validate_api_keys (gemini_api_key inp) (groq_api_key inp) in
    if is_valid
    then assign (set_api_keys_validated true)
    else (emit (StError KeysRejected message) ;;
          assign (set_api_keys_validated false))
  else assign (set_api_keys_validated false).

(** Lines 197-202: [os.environ[...] = key] raises ValueError on a NUL. *)
Definition set_environ (inp : inputs) : M world unit :=
  if has_char zero (gemini_api_key inp) || has_char zero (groq_api_key inp)
  then (emit (StError EnvironRejected "embedded null byte") ;; st_stop)
  else ret tt.

(** The cached-results branch, lines 229-273. *)
Definition cached_results (inp : inputs) : M world unit :=
  s <- gets session ;;
  emit (ShowCached (analysis_results s) (quiz_results s)) ;;
  (if reprocess_clicked inp
   then
     assign (set_analysis_results None) ;;
     assign (set_quiz_results None) ;;
     assign (set_processed_file_hash None) ;;
     st_rerun
   else ret tt) ;;
  st_stop.

Definition page (E : env) (inp : inputs) : M world unit :=
  sidebar inp ;;
  validated <- gets (fun w => api_keys_validated (session w)) ;;
  (if negb validated then (emit StWarningKeys ;; st_stop) else ret tt) ;;
  set_environ inp ;;
  (* lines 216-222 *)
  match uploaded_file inp with
  | Some f =>
      let '(is_valid_file, validation_message) :=
        validate_video_file (Some f) in
      if negb is_valid_file
      then (emit (StError (FileRejected validation_message) EmptyString) ;; st_stop)
      else ret tt
  | None => ret tt
  end ;;
  (* lines 225-273 *)
  match uploaded_file inp with
  | Some f =>
      let file_hash := get_file_hash E (UploadedFile.getvalue f) in
      s <- gets session ;;
      if hash_is (processed_file_hash s) file_hash
         && opt_truthy (analysis_results s)
         && opt_truthy (quiz_results s)
      then cached_results inp
      else ret tt
  | None => ret tt
  end ;;
  (* lines 275-570 *)
  match uploaded_file inp with
  | Some f =>
      let file_hash := get_file_hash E (UploadedFile.getvalue f) in
      status <- gets (fun w => processing_status (session w)) ;;
      let button_disabled := String.eqb status "processing" in
      if analyze_clicked inp && negb button_disabled
      then processing E f file_hash
      else ret tt
  | None => ret tt
  end.

(** ** A browser session *)

(** What survives from one run to the next: the store and the files left
    in the temporary directory. *)
Record browser : Type := {
  store : stored_state;
  files : gmap string (list Byte.byte)
}.

Definition start (b : browser) : world :=
  {| session := initialize_session_state (store b);
     temp_files := [];
     disk := files b;
     trace := [] |}.

(** A button reads True only in the run its click triggers. *)
Definition without_clicks (inp : inputs) : inputs :=
  {| gemini_api_key := gemini_api_key inp;
     groq_api_key := groq_api_key inp;
     uploaded_file := uploaded_file inp;
     analyze_clicked := false;
     reprocess_clicked := false |}.

(** One user interaction: the page runs; [st.rerun()] makes it run once
    more from the top with the same widget values. *)
Definition run_script (E : env) (inp : inputs) (b : browser)
  : outcome unit * world :=
  match page E inp (start b) with
  | (Raise e, w) =>
      match exn_class e with
      | RerunException => page E (without_clicks inp) w
      | _ => (Raise e, w)
      end
  | r => r
  end.

Definition step (E : env) (inp : inputs) (b : browser) : browser :=
  let w := snd (run_script E inp b) in
  {| store := store_of (session w); files := disk w |}.

Inductive reachable : browser -> Prop :=
| reachable_start (tmp : gmap string (list Byte.byte)) :
    reachable {| store := empty_store; files := tmp |}
| reachable_step (E : env) (inp : inputs) (b : browser) :
    reachable b -> reachable (step E inp b).

End StreamlitApp.

(* ===================================================================== *)
(** * The batch scripts: Version 2.py (src/unnamed/part_000, lines 151-283) *)
(* ===================================================================== *)

Module Batch.
Import Py.
Local Open Scope py_scope.

(** The objects a script binds to its module-level names. *)
Inductive value : Type :=
| VStr (s : string)
| VBytes (b : list Byte.byte)
| VPath (p : string)
| VResponse (content : string)   (* a RunResponse *)
| VObject (what : string).       (* an imported name, an agent, a Video *)

Inductive call_result (A : Type) : Type :=
| Returns (a : A)
| Throws (msg : string).
Arguments Returns {A} a.
Arguments Throws {A} msg.

Record env : Type := {
  eager_annotations : bool;                      (* as in the page script *)
  import_agno : call_result unit;                (* lines 152-159 *)
  stdin : nat -> string;                         (* what input() returns, call after call *)
  is_file : string -> bool;                      (* Path.is_file() *)
  read_file : string -> call_result (list Byte.byte);
  video_agent_run : call_result string;          (* video_agent.run(...) *)
  pprint_run_response : call_result unit;
  print_response : string -> call_result unit    (* quiz_agent.print_response(quiz_prompt) *)
}.

Inductive event : Type :=
| Print (text : string)
| VideoAgentRun
| PrettyPrinted (content : string)   (* line 239 has returned *)
| QuizRequested (quiz_prompt : string).

(** The module namespace (the script's globals), the number of lines read
    from standard input and what the script has done so far. *)
Record state : Type := {
  globals : gmap string value;
  lines_read : nat;
  out : list event
}.

Definition initial : state :=
  {| globals := ∅; lines_read := 0; out := [] |}.

(** [name = v] at module level *)
Definition store_name (name : string) (v : value) : M state unit :=
  modify (fun s => {| globals := <[name := v]> (globals s);
                      lines_read := lines_read s; out := out s |}).

(** Reading a module-level name: a name nobody bound raises NameError. *)
Definition load_name (name : string) : M state value :=
  g <- gets globals ;;
  match g !! name with
  | Some v => ret v
  | None => raise NameError ("name '" ++ name ++ "' is not defined")
  end.

Definition emit (e : event) : M state unit :=
  modify (fun s => {| globals := globals s; lines_read := lines_read s;
                      out := out s ++ [e] |}).

Definition call {A} (r : call_result A) : M state A :=
  match r with
  | Returns a => ret a
  | Throws msg => raise Exception_ msg
  end.

Definition input (E : env) : M state string :=
  n <- gets lines_read ;;
  modify (fun s => {| globals := globals s; lines_read := S n;
                      out := out s |}) ;;
  ret (stdin E n).

Definition as_path (v : value) : string :=
  match v with
  | VPath p => p
  | VStr s => s
  | _ => EmptyString
  end.

Definition as_text (v : value) : string :=
  match v with
  | VStr s => s
  | VResponse c => c
  | VPath p => p
  | _ => "<object>"
  end.

(** The from-imports, lines 152-159. *)
Definition imported_names : list string :=
  ["Path"; "Video"; "Groq"; "Gemini"; "Document"; "Agent"; "RunResponse";
   "DuckDuckGoTools"; "pprint_run_response"].

Fixpoint bind_imports (names : list string) : M state unit :=
  match names with
  | [] => ret tt
  | name :: rest => store_name name (VObject name) ;; bind_imports rest
  end.

(** Lines 162-169: [while True] with a [break]. *)
Fixpoint ask_for_path (E : env) (fuel : nat) : M state unit :=
  match fuel with
  | O => lift Diverge
  | S fuel' =>
      line <- input E ;;
      store_name "user_video_path" (VStr line) ;;
      load_name "Path" ;;
      user_video_path <- load_name "user_video_path" ;;
      store_name "video_path" (VPath (as_path user_video_path)) ;;
      video_path <- load_name "video_path" ;;
      if is_file E (as_path video_path)
      then emit (Print "Video file found")
      else (emit (Print "Error: File not found") ;; ask_for_path E fuel')
  end.

(** The f-string of lines 254-279, with the one name it interpolates. *)
Definition quiz_prompt_text (knowledge_text : string) : string :=
  "--- START VIDEO DESCRIPTION TEXT ---" ++ knowledge_text ++
  "--- END VIDEO DESCRIPTION TEXT ---".

Definition version_2 (E : env) (fuel : nat) : M state unit :=
  call (import_agno E) ;;
  bind_imports imported_names ;;
  ask_for_path E fuel ;;
  (* lines 173-174 *)
  video_path <- load_name "video_path" ;;
  (if negb (is_file E (as_path video_path))
   then raise Exception_ "Video file not found"
   else ret tt) ;;
  (* lines 178-179 *)
  store_name "MDB_CONNECTION_STRING"
    (VStr "mongodb://localhost:51083/?directConnection=true") ;;
  store_name "DB_COLLECTION_NAME" (VStr "Video_Summarization") ;;
  (* lines 181-188 *)
  try_except is_Exception
    (video_path <- load_name "video_path" ;;
     video_bytes <- call (read_file E (as_path video_path)) ;;
     store_name "f" (VObject "file") ;;
     store_name "video_bytes" (VBytes video_bytes) ;;
     match video_bytes with
     | [] => raise ValueError "The video file is empty."
     | _ => ret tt
     end)
    (fun e =>
       store_name "e" (VObject "exception") ;;
       emit (Print "Failed to load video content") ;;
       raise SystemExit EmptyString) ;;
  (* line 190 *)
  load_name "Video" ;;
  video_bytes <- load_name "video_bytes" ;;
  store_name "video_obj" (VObject "Video") ;;
  (* lines 195-202 *)
  load_name "video_path" ;;
  emit (Print "--- Step 1: Analyzing Video ---") ;;
  load_name "Agent" ;; load_name "Gemini" ;; load_name "DuckDuckGoTools" ;;
  store_name "video_agent" (VObject "Agent") ;;
  (* lines 205-232 *)
  store_name "video_description_prompt" (VStr "**Objective:** ...") ;;
  (* lines 234-237 *)
  load_name "video_agent" ;;
  load_name "video_description_prompt" ;;
  load_name "video_obj" ;;
  emit VideoAgentRun ;;
  content <- call (video_agent_run E) ;;
  store_name "response" (VResponse content) ;;
  (if eager_annotations E then load_name "RunResponse" ;; ret tt else ret tt) ;;
  (* line 239 *)
  load_name "pprint_run_response" ;;
  response <- load_name "response" ;;
  call (pprint_run_response E) ;;
  emit (PrettyPrinted (as_text response)) ;;
  (* line 242 *)
  convert_test <- load_name "convert_test" ;;
  store_name "knowledge_text" convert_test ;;
  (* lines 245-251 *)
  emit (Print "--- Step 2: Generating Quiz Questions based on Video Description ---") ;;
  load_name "Agent" ;; load_name "Groq" ;;
  store_name "quiz_agent" (VObject "Agent") ;;
  (* lines 254-279 *)
  knowledge_text <- load_name "knowledge_text" ;;
  store_name "quiz_prompt" (VStr (quiz_prompt_text (as_text knowledge_text))) ;;
  (* lines 281-283 *)
  emit (Print "--- Generating Quiz Questions ---") ;;
  load_name "quiz_agent" ;;
  quiz_prompt <- load_name "quiz_prompt" ;;
  call (print_response E (as_text quiz_prompt)) ;;
  emit (QuizRequested (as_text quiz_prompt)).

End Batch.

(* ===================================================================== *)
(** * Vocabulary of the statements *)
(* ===================================================================== *)

Module ConfigSpec.
Import Py.

(** The text stored for [key] in [section], as [get] finds it: in the
    section itself or else among the defaults; [None] when the section or
    the key is missing. *)
Definition stored_value (cp : ConfigParser.t) (section key : string)
  : option string :=
  match ConfigParser.unify_values cp section with
  | Return d => d !! ConfigParser.optionxform key
  | _ => None
  end.

(** The text after interpolation, when the parser hands one over. *)
Definition retrieved (cp : ConfigParser.t) (section key : string)
    (v : string) : Prop :=
  exists d raw,
    ConfigParser.unify_values cp section = Return d /\
    d !! ConfigParser.optionxform key = Some raw /\
    ConfigParser.before_get (ConfigParser.optionxform key) raw d = Return v.

Definition not_an_int (v : string) : Prop := Py.int v = None.
Definition not_a_boolean (v : string) : Prop :=
  ConfigParser.assoc (lower v) ConfigParser.BOOLEAN_STATES = None.

(** A settings file whose [app] section has a key but no list of
    formats. *)
Definition sparse_config : AppConfig.t :=
  AppConfig.Build
    (ConfigParser.Build {[ "app" := {[ "max_file_size_mb" := "500" ]} ]} ∅).

(** A settings file with a percent sign in a value, as
    [max_file_size_mb = 50%] read from disk gives. *)
Definition percent_config : AppConfig.t :=
  AppConfig.Build
    (ConfigParser.Build {[ "app" := {[ "max_file_size_mb" := "50%" ]} ]} ∅).
End ConfigSpec.


Module ValidationSpec.
Import Py StreamlitApp.

(** The three reasons for which [validate_video_file] refuses a file. *)
Definition too_large (f : UploadedFile.t) : Prop :=
  (inject_Z MAX_FILE_SIZE_MB < file_size_mb f)%Q.
Definition extension_refused (f : UploadedFile.t) : Prop :=
  ~ In (file_extension f) SUPPORTED_VIDEO_FORMATS.
Definition empty_file (f : UploadedFile.t) : Prop :=
  UploadedFile.size f = 0%Z.

(** [', '.join(SUPPORTED_VIDEO_FORMATS)], as the message of line 88 shows
    it. *)
Definition supported_text : string := "mp4, avi, mov, mkv, webm, flv, m4v".

End ValidationSpec.

Module AppSpec.
Import Py StreamlitApp.

Definition add_events (evs : list event) (w : world) : world :=
  {| session := session w; temp_files := temp_files w;
     disk := disk w; trace := trace w ++ evs |}.

(** What the loop of cleanup_temp_files does to the files on disk ... *)
Fixpoint cleaned_disk (E : env) (file_paths : list string)
    (d : gmap string (list Byte.byte)) : gmap string (list Byte.byte) :=
  match file_paths with
  | [] => d
  | p :: rest =>
      cleaned_disk E rest
        (if bool_decide (is_Some (d !! p))
         then match os_unlink E p with
              | Returns _ => delete p d
              | Throws _ => d
              end
         else d)
  end.

(** ... and what it logs. *)
Fixpoint cleanup_log (E : env) (file_paths : list string)
    (d : gmap string (list Byte.byte)) : list event :=
  match file_paths with
  | [] => []
  | p :: rest =>
      if bool_decide (is_Some (d !! p))
      then match os_unlink E p with
           | Returns _ => LogInfo p :: cleanup_log E rest (delete p d)
           | Throws msg =>
               LogWarning p (mk_exn OSError msg) :: cleanup_log E rest d
           end
      else cleanup_log E rest d
  end.

Definition cleaned (E : env) (file_paths : list string) (w : world) : world :=
  {| session := session w;
     temp_files := temp_files w;
     disk := cleaned_disk E file_paths (disk w);
     trace := trace w ++ cleanup_log E file_paths (disk w) |}.

Definition is_log (e : event) : bool :=
  match e with
  | LogInfo _ | LogWarning _ _ => true
  | _ => false
  end.

(** An attempt fails when its try body raises. *)
Definition fails (o : outcome string) : Prop := exists e, o = Raise e.

(** Attempt [k] is the first one that gets through, with [text]. *)
Definition succeeds_at (attempt : nat -> outcome string) (k : nat)
    (text : string) : Prop :=
  (k < max_retries)%nat /\ attempt k = Return text /\
  forall i, (i < k)%nat -> fails (attempt i).

(** Rounds [0 .. k]: every round but the last one failed and was followed
    by the two-second sleep. *)
Fixpoint rounds_from (run_event : nat -> event) (first failed : nat)
  : list event :=
  match failed with
  | O => [run_event first]
  | S failed' =>
      run_event first :: Sleep 2 :: rounds_from run_event (S first) failed'
  end.

Definition stop : exn := mk_exn StopException EmptyString.

(** The world after a loop has used up its attempts: the three rounds, the
    error shown, the clean-up and the status reset. *)
Definition exhausted (E : env) (site : error_site) (run_event : nat -> event)
    (e : exn) (w : world) : world :=
  {| session := set_processing_status "idle" (session w);
     temp_files := temp_files w;
     disk := cleaned_disk E (temp_files w) (disk w);
     trace := trace w ++
              [run_event 0%nat; Sleep 2; run_event 1%nat; Sleep 2;
               run_event 2%nat; StError site (exn_msg e);
               CleanupTempFiles (temp_files w)] ++
              cleanup_log E (temp_files w) (disk w) |}.

(** The suffix handed to NamedTemporaryFile, line 313. *)
Definition suffix_of (f : UploadedFile.t) : string :=
  "." ++ last_item (split "." (UploadedFile.name f)).

(** The upload was written to the temporary file [p]: lines 309-316 ran
    to the end. *)
Definition saved (E : env) (f : UploadedFile.t) (p : string) : Prop :=
  st_calls E UiBeforeSave = Returns tt /\
  NamedTemporaryFile E (suffix_of f) = Returns p /\
  tmp_file_write E = Returns tt.

(** The run gets as far as the first loop. *)
Definition reaches_analysis (E : env) (f : UploadedFile.t) (p : string)
  : Prop :=
  saved E f p /\
  st_calls E UiBeforeLoad = Returns tt /\
  open_read E p = Returns tt /\
  UploadedFile.getvalue f <> [] /\
  st_calls E UiBeforeAnalysis = Returns tt.

(** Both steps complete: the description [a] and the quiz [q] come out of
    the two loops. *)
Definition completes (E : env) (f : UploadedFile.t) (a q : string) : Prop :=
  (exists p, reaches_analysis E f p) /\
  (exists k, succeeds_at (analysis_attempt E) k a) /\
  st_calls E UiAfterAnalysis = Returns tt /\
  (exists j, succeeds_at (quiz_attempt E a) j q).

(** What a processing run may leave in the three result fields. *)
Definition results_after (E : env) (f : UploadedFile.t) (file_hash : string)
    (s s' : session_state) : Prop :=
  (exists a q, completes E f a q /\
     analysis_results s' = Some a /\ quiz_results s' = Some q /\
     processed_file_hash s' = Some file_hash) \/
  ((~ exists a q, completes E f a q) /\
   quiz_results s' = quiz_results s /\
   processed_file_hash s' = processed_file_hash s /\
   (analysis_results s' = analysis_results s \/
    exists k a, succeeds_at (analysis_attempt E) k a /\
                analysis_results s' = Some a)).

(** The state a session is in between two runs of the page. *)
Definition consistent (s : session_state) : Prop :=
  processed_file_hash s <> None ->
  analysis_results s <> None /\ quiz_results s <> None.

Definition settled (s : session_state) : Prop :=
  processing_status s = "idle" /\ consistent s.

(** The test of lines 229-231. *)
Definition cache_hit (E : env) (f : UploadedFile.t) (s : session_state)
  : bool :=
  hash_is (processed_file_hash s)
    (get_file_hash E (UploadedFile.getvalue f))
  && opt_truthy (analysis_results s)
  && opt_truthy (quiz_results s).

(** The keys pass the sidebar and the environment assignment. *)
Definition keys_accepted (inp : inputs) : Prop :=
  (exists message,
     validate_api_keys (gemini_api_key inp) (groq_api_key inp)
     = (true, message)) /\
  has_char zero (gemini_api_key inp) = false /\
  has_char zero (groq_api_key inp) = false.

(** A run in which the file [f] is uploaded and gets past the checks of
    lines 192-222. *)
Definition submits (inp : inputs) (f : UploadedFile.t) : Prop :=
  keys_accepted inp /\
  uploaded_file inp = Some f /\
  validate_video_file (Some f) = (true, ValidationSuccessful).

Definition rerun : exn := mk_exn RerunException EmptyString.

(** The first loop and the second loop as the processing block runs
    them. *)
Definition analysis_loop (E : env) : M world (option string) :=
  retry_loop E AnalysisFailed VideoAgentRun (analysis_attempt E)
    (S max_retries) 0 None.

Definition quiz_loop (E : env) (knowledge_text : string)
  : M world (option string) :=
  retry_loop E QuizFailed (QuizAgentRun knowledge_text)
    (quiz_attempt E knowledge_text) (S max_retries) 0 None.





End AppSpec.


Module BatchSpec.
Import Py Batch.

Definition is_quiz_request (e : event) : bool :=
  match e with
  | QuizRequested _ => true
  | _ => false
  end.

Definition is_pretty_printed (e : event) : bool :=
  match e with
  | PrettyPrinted _ => true
  | _ => false
  end.

(** The exception Python raises when line 242 reads [convert_test]. *)
Definition undefined_convert_test : exn :=
  mk_exn NameError "name 'convert_test' is not defined".

(** Line 239 has returned: the next statement is line 242, where the text
    for the quiz prompt is picked up. *)
Definition reaches_the_quiz_step (s : state) : Prop :=
  existsb is_pretty_printed (out s) = true.

(** How a run of Version 2.py ends. *)
Definition ends_before_the_quiz (r : outcome unit) (s : state) : Prop :=
  globals s !! "convert_test" = None /\
  globals s !! "knowledge_text" = None /\
  existsb is_quiz_request (out s) = false /\
  r <> Return tt /\
  (reaches_the_quiz_step s -> r = Raise undefined_convert_test).

(** The state of the script up to line 239. *)
Definition before_the_quiz_step (s : state) : Prop :=
  globals s !! "convert_test" = None /\
  globals s !! "knowledge_text" = None /\
  existsb is_quiz_request (out s) = false /\
  existsb is_pretty_printed (out s) = false.

(** A user who types the path of a readable video at the second try, and
    services that answer. *)
Definition second_try : env :=
  {| eager_annotations := true;
     import_agno := Returns tt;
     stdin := fun n => match n with O => "talk.mpg" | _ => "talk.mp4" end;
     is_file := fun p => String.eqb p "talk.mp4";
     read_file := fun _ => Returns [Byte.x52; Byte.x49; Byte.x46; Byte.x46];
     video_agent_run := Returns "Main Topics Covered: merge sort.";
     pprint_run_response := Returns tt;
     print_response := fun _ => Returns tt |}.

End BatchSpec.

Module Logic.
Import Py.

(** [wp m Q s]: running [m] from the store [s] ends in an outcome and a
    store that satisfy [Q]. *)
Inductive wp {S A} (m : M S A) (Q : outcome A -> S -> Prop) (s : S) : Prop :=
| wp_intro : Q (fst (m s)) (snd (m s)) -> wp m Q s.

(** What is left to do once the body of a try statement has ended. *)
Definition after_try {S A B} (catches : exc_class -> bool)
    (handler : exn -> M S A) (k : A -> M S B)
    (Q : outcome B -> S -> Prop) : outcome A -> S -> Prop :=
  fun r s' =>
    match r with
    | Return a => wp (k a) Q s'
    | Raise e => if catches (exn_class e)
                 then wp (bind (handler e) k) Q s'
                 else Q (Raise e) s'
    | Diverge => Q Diverge s'
    end.
End Logic.



(* ===================================================================== *)
(** * Concrete sessions *)
(* ===================================================================== *)

Module Examples.
Import Py StreamlitApp.

(** A four-byte upload with an allowed extension. *)
Definition lecture : UploadedFile.t :=
  UploadedFile.Build "lecture.mp4" 4 [Byte.x52; Byte.x49; Byte.x46; Byte.x46].

(** An upload without a dot in its name. *)
Definition clip : UploadedFile.t :=
  UploadedFile.Build "clip" 4 [Byte.x52; Byte.x49; Byte.x46; Byte.x46].

Definition gemini_key : string := "AIzaSyA0123456789abcdefghijklmnop".
Definition groq_key : string := "gsk_0123456789abcdefghijklmnopqrstuvwxyzAB".

(** Seventy-odd characters of description, a hundred-odd of quiz. *)
Definition description : string :=
  "Main Topics Covered: merge sort. Detailed Summary: split, sort, merge.".
Definition quiz : string :=
  "1. What does merge sort do first? A. Merge B. Split the input in halves C. Swap D. Nothing. 2. Is it stable? A. Yes".

(** Stands for the digest: the bytes written out as characters. *)
Definition digest (content : list Byte.byte) : string :=
  string_of_list_byte content.

Definition answer (text : string) : RunOutput :=
  {| has_content := true; content := PyStr text; as_str := text |}.

(** Every service answers and nothing fails. *)
Definition calm : env :=
  {| eager_annotations := false;
     md5_hexdigest := digest;
     NamedTemporaryFile := fun suffix => Returns ("/tmp/tmpk3" ++ suffix);
     tmp_file_write := Returns tt;
     open_read := fun _ => Returns tt;
     gemini_run := fun _ => Returns (answer description);
     groq_run := fun _ _ => Returns (answer quiz);
     os_unlink := fun _ => Returns tt;
     st_calls := fun _ => Returns tt |}.

(** The description service answers, the quiz service is down. *)
Definition quiz_down : env :=
  {| eager_annotations := false;
     md5_hexdigest := digest;
     NamedTemporaryFile := fun suffix => Returns ("/tmp/tmpk3" ++ suffix);
     tmp_file_write := Returns tt;
     open_read := fun _ => Returns tt;
     gemini_run := fun _ => Returns (answer description);
     groq_run := fun _ _ => Throws "503 Service Unavailable";
     os_unlink := fun _ => Returns tt;
     st_calls := fun _ => Returns tt |}.

(** The description service is down. *)
Definition gemini_down : env :=
  {| eager_annotations := false;
     md5_hexdigest := digest;
     NamedTemporaryFile := fun suffix => Returns ("/tmp/tmpk3" ++ suffix);
     tmp_file_write := Returns tt;
     open_read := fun _ => Returns tt;
     gemini_run := fun _ => Throws "429 Too Many Requests";
     groq_run := fun _ _ => Returns (answer quiz);
     os_unlink := fun _ => Returns tt;
     st_calls := fun _ => Returns tt |}.


(** The temporary directory refuses deletions. *)
Definition read_only : env :=
  {| eager_annotations := false;
     md5_hexdigest := digest;
     NamedTemporaryFile := fun suffix => Returns ("/tmp/tmpk3" ++ suffix);
     tmp_file_write := Returns tt;
     open_read := fun _ => Returns tt;
     gemini_run := fun _ => Returns (answer description);
     groq_run := fun _ _ => Returns (answer quiz);
     os_unlink := fun _ => Throws "Permission denied";
     st_calls := fun _ => Returns tt |}.

(** The temporary directory is full: the file is created, the write
    fails. *)
Definition disk_full : env :=
  {| eager_annotations := false;
     md5_hexdigest := digest;
     NamedTemporaryFile := fun suffix => Returns ("/tmp/tmpk3" ++ suffix);
     tmp_file_write := Throws "No space left on device";
     open_read := fun _ => Returns tt;
     gemini_run := fun _ => Returns (answer description);
     groq_run := fun _ _ => Returns (answer quiz);
     os_unlink := fun _ => Returns tt;
     st_calls := fun _ => Returns tt |}.

(** Every service answers, under CPython 3.13 or older. *)
Definition cpython_3_13 : env :=
  {| eager_annotations := true;
     md5_hexdigest := digest;
     NamedTemporaryFile := fun suffix => Returns ("/tmp/tmpk3" ++ suffix);
     tmp_file_write := Returns tt;
     open_read := fun _ => Returns tt;
     gemini_run := fun _ => Returns (answer description);
     groq_run := fun _ _ => Returns (answer quiz);
     os_unlink := fun _ => Returns tt;
     st_calls := fun _ => Returns tt |}.

Definition upload_and_analyze : inputs :=
  {| gemini_api_key := gemini_key; groq_api_key := groq_key;
     uploaded_file := Some lecture;
     analyze_clicked := true; reprocess_clicked := false |}.

Definition upload_again : inputs :=
  {| gemini_api_key := gemini_key; groq_api_key := groq_key;
     uploaded_file := Some lecture;
     analyze_clicked := false; reprocess_clicked := false |}.

Definition upload_and_reprocess : inputs :=
  {| gemini_api_key := gemini_key; groq_api_key := groq_key;
     uploaded_file := Some lecture;
     analyze_clicked := false; reprocess_clicked := true |}.

Definition new_session : browser := {| store := empty_store; files := ∅ |}.

End Examples.

(* ===================================================================== *)
(** * Further vocabulary for the page and the scripts *)
(* ===================================================================== *)

Module PageSpec.
Import Py StreamlitApp.

(** A call of one of the two agents. *)
Definition is_agent_run (e : event) : bool :=
  match e with
  | VideoAgentRun _ | QuizAgentRun _ _ => true
  | _ => false
  end.

(** What the page shows when it refuses the keys: the error of line 167
    with validate_api_keys's message when both keys were typed, then the
    warning of line 193. *)
Definition keys_refused_events (gemini_key groq_key : string) : list event :=
  (if truthy gemini_key && truthy groq_key
   then [StError KeysRejected (snd (validate_api_keys gemini_key groq_key))]
   else []) ++ [StWarningKeys].

(** No agent is called in [evs]. *)
Definition asks_no_agent (evs : list event) : Prop :=
  forallb (fun e => negb (is_agent_run e)) evs = true.

End PageSpec.

Module Cases.
Import Py StreamlitApp Examples.

(** The upload and a click on the analyze button, but no keys. *)
Definition no_keys : inputs :=
  {| gemini_api_key := EmptyString; groq_api_key := EmptyString;
     uploaded_file := Some lecture;
     analyze_clicked := true; reprocess_clicked := false |}.

(** A key of the wrong shape for Gemini. *)
Definition short_key : inputs :=
  {| gemini_api_key := "AIza"; groq_api_key := groq_key;
     uploaded_file := Some lecture;
     analyze_clicked := true; reprocess_clicked := false |}.

(** A text file sent with valid keys. *)
Definition notes : UploadedFile.t :=
  UploadedFile.Build "notes.txt" 4 [Byte.x52; Byte.x49; Byte.x46; Byte.x46].

Definition upload_notes : inputs :=
  {| gemini_api_key := gemini_key; groq_api_key := groq_key;
     uploaded_file := Some notes;
     analyze_clicked := true; reprocess_clicked := false |}.

End Cases.

Module ScriptSpec.
Import Py Batch.

(** Line [k] counted from the next one to be read is the first that names
    a file. *)
Definition first_file_at (E : env) (next k : nat) : Prop :=
  (forall i, (i < k)%nat -> is_file E (stdin E (next + i)) = false) /\
  is_file E (stdin E (next + k)) = true.

(** The two names bound to a line that was read (lines 163-164), and the
    line counted. *)
Definition answer_line (line : string) (s : state) : state :=
  {| globals := <["video_path" := VPath line]>
                  (<["user_video_path" := VStr line]> (globals s));
     lines_read := S (lines_read s);
     out := out s |}.

Definition printed (text : string) (s : state) : state :=
  {| globals := globals s; lines_read := lines_read s;
     out := out s ++ [Print text] |}.

(** The state after [k] lines that name no file and one that does. *)
Fixpoint asked (E : env) (k : nat) (s : state) : state :=
  match k with
  | O => printed "Video file found" (answer_line (stdin E (lines_read s)) s)
  | S k' =>
      asked E k'
        (printed "Error: File not found"
           (answer_line (stdin E (lines_read s)) s))
  end.

(** The namespace after the from-imports. *)
Fixpoint imported (names : list string) (s : state) : state :=
  match names with
  | [] => s
  | name :: rest =>
      imported rest
        {| globals := <[name := VObject name]> (globals s);
           lines_read := lines_read s; out := out s |}
  end.

(** [open(video_path, "rb")] or [f.read()] raises, or the file is empty. *)
Definition unreadable (E : env) (p : string) : Prop :=
  read_file E p = Returns [] \/ exists msg, read_file E p = Throws msg.

(** A user who never types the name of a file. *)
Definition lost : env :=
  {| eager_annotations := true;
     import_agno := Returns tt;
     stdin := fun _ => "talk.mpg";
     is_file := fun p => String.eqb p "talk.mp4";
     read_file := fun _ => Returns [Byte.x52; Byte.x49; Byte.x46; Byte.x46];
     video_agent_run := Returns "Main Topics Covered: merge sort.";
     pprint_run_response := Returns tt;
     print_response := fun _ => Returns tt |}.

(** The file is found at the second try and turns out to be empty. *)
Definition empty_video : env :=
  {| eager_annotations := true;
     import_agno := Returns tt;
     stdin := fun n => match n with O => "talk.mpg" | _ => "talk.mp4" end;
     is_file := fun p => String.eqb p "talk.mp4";
     read_file := fun _ => Returns [];
     video_agent_run := Returns "Main Topics Covered: merge sort.";
     pprint_run_response := Returns tt;
     print_response := fun _ => Returns tt |}.

End ScriptSpec.

Module SettingsSpec.
Import Py.

(** An item as get_list hands it out: not empty, nothing to strip, no
    comma. *)
Definition clean_item (item : string) : Prop :=
  item <> EmptyString /\ strip item = item /\ has_char "," item = false.

(** A value the parser hands over as it is stored. *)
Definition plain (value : string) : Prop := has_char "%" value = false.

(** A settings file with a DEFAULT section next to [app]. *)
Definition app_section : gmap string string :=
  {[ "max_file_size_mb" := " 2_000 ";
     "supported_formats" := "mp4, ,MOV ,, webm" ]}.

Definition layered_config : AppConfig.t :=
  AppConfig.Build
    (ConfigParser.Build
       {[ "app" := app_section ]}
       {[ "max_file_size_mb" := "500"; "enable_caching" := "Yes" ]}).

(** A name that can stand between [%(] and [)s]. *)
Definition reference_name (name : string) : Prop :=
  name <> EmptyString /\ has_char ")" name = false.

(** A settings file whose values hold percent signs. *)
Definition percent_signs_config : AppConfig.t :=
  AppConfig.Build
    (ConfigParser.Build
       {[ "logging" := {[ "log_file_path" := "%(Home)s/app.log";
                          "rotate_at" := "90%% full";
                          "archive" := "%(backup)s/old" ]} ]}
       {[ "home" := "/srv/video" ]}).

End SettingsSpec.

Module CacheSpec.
Import Py StreamlitApp Examples.

(** A run of the page made without pressing the analyze button or the
    reprocess button. *)
Definition without_click (run : env * inputs) : Prop :=
  analyze_clicked (snd run) = false /\ reprocess_clicked (snd run) = false.

(** The session after a series of runs. *)
Definition runs_of (runs : list (env * inputs)) (b : browser) : browser :=
  fold_left (fun b run => step (fst run) (snd run) b) runs b.

(** A second video. *)
Definition seminar : UploadedFile.t :=
  UploadedFile.Build "seminar.mkv" 4 [Byte.x1a; Byte.x45; Byte.xdf; Byte.xa3].

Definition seminar_description : string :=
  "Main Topics Covered: heaps. Detailed Summary: sift up, sift down, build.".

Definition upload_seminar : inputs :=
  {| gemini_api_key := gemini_key; groq_api_key := groq_key;
     uploaded_file := Some seminar;
     analyze_clicked := true; reprocess_clicked := false |}.

Definition look_at_seminar : inputs :=
  {| gemini_api_key := gemini_key; groq_api_key := groq_key;
     uploaded_file := Some seminar;
     analyze_clicked := false; reprocess_clicked := false |}.

(** The description service answers about the second video, the quiz
    service is down. *)
Definition seminar_quiz_down : env :=
  {| eager_annotations := false;
     md5_hexdigest := digest;
     NamedTemporaryFile := fun suffix => Returns ("/tmp/tmpk3" ++ suffix);
     tmp_file_write := Returns tt;
     open_read := fun _ => Returns tt;
     gemini_run := fun _ => Returns (answer seminar_description);
     groq_run := fun _ _ => Throws "503 Service Unavailable";
     os_unlink := fun _ => Returns tt;
     st_calls := fun _ => Returns tt |}.

End CacheSpec.

(* ===================================================================== *)
(** * Vocabulary for interpolation errors *)
(* ===================================================================== *)

Module InterpolationSpec.
Import Py.

(** The classes of the exceptions interpolation raises; none of them is a
    NoSectionError, a NoOptionError or a ValueError. *)
Definition interpolation_error (c : exc_class) : bool :=
  match c with
  | InterpolationSyntaxError | InterpolationMissingOptionError
  | InterpolationDepthError => true
  | _ => false
  end.

(** The section and the key are there, and interpolation of the stored
    text raises [e]. *)
Definition interpolation_fails (cp : ConfigParser.t) (section key : string)
    (e : exn) : Prop :=
  exists d raw,
    ConfigParser.unify_values cp section = Return d /\
    d !! ConfigParser.optionxform key = Some raw /\
    ConfigParser.before_get (ConfigParser.optionxform key) raw d = Raise e.

End InterpolationSpec.

(* ===================================================================== *)
(** * Version 1.py (src/unnamed/part_000, lines 1-148) *)
(* ===================================================================== *)

Module Batch1.
Import Py Batch.
Local Open Scope py_scope.

(** What Version 1.py takes from outside beyond what Version 2.py does:
    the constructors it calls (by class name), the text of the response
    and the loading of the knowledge base into MongoDB. *)
Record env : Type := {
  script : Batch.env;
  construct : string -> call_result unit;
  get_content_as_string : call_result string;   (* line 84 *)
  knowledge_base_load : call_result unit        (* line 111 *)
}.

(** The from-imports, lines 2-12. *)
Definition imported_names : list string :=
  ["Path"; "Video"; "Groq"; "Gemini"; "Document"; "MongoDb"; "Agent";
   "RunResponse"; "GeminiEmbedder"; "DuckDuckGoTools";
   "pprint_run_response"; "DocumentKnowledgeBase"].

Definition version_1 (E : env) (fuel : nat) : M state unit :=
  call (import_agno (script E)) ;;
  bind_imports imported_names ;;
  (* lines 15-22 *)
  ask_for_path (script E) fuel ;;
  (* lines 25-26 *)
  video_path <- load_name "video_path" ;;
  (if negb (is_file (script E) (as_path video_path))
   then raise Exception_ "Video file not found"
   else ret tt) ;;
  (* lines 28-31 *)
  load_name "Video" ;;
  video_path <- load_name "video_path" ;;
  call (read_file (script E) (as_path video_path)) ;;
  call (construct E "Video") ;;
  store_name "video" (VObject "Video") ;;
  (* lines 34-35 *)
  store_name "MDB_CONNECTION_STRING"
    (VStr "mongodb://localhost:51083/?directConnection=true") ;;
  store_name "DB_COLLECTION_NAME" (VStr "Video_Summarization") ;;
  (* line 38 *)
  load_name "video_path" ;;
  emit (Print "--- Step 1: Analyzing Video ---") ;;
  (* lines 39-45 *)
  load_name "Agent" ;;
  load_name "Gemini" ;; call (construct E "Gemini") ;;
  load_name "DuckDuckGoTools" ;; call (construct E "DuckDuckGoTools") ;;
  call (construct E "Agent") ;;
  store_name "video_agent" (VObject "Agent") ;;
  (* lines 48-75 *)
  store_name "video_description_prompt" (VStr "**Objective:** ...") ;;
  (* lines 77-80 *)
  load_name "video_agent" ;;
  load_name "video_description_prompt" ;;
  load_name "video" ;;
  emit VideoAgentRun ;;
  content <- call (video_agent_run (script E)) ;;
  store_name "response" (VResponse content) ;;
  (if eager_annotations (script E)
   then load_name "RunResponse" ;; ret tt
   else ret tt) ;;
  (* line 82 *)
  load_name "pprint_run_response" ;;
  response <- load_name "response" ;;
  call (pprint_run_response (script E)) ;;
  emit (PrettyPrinted (as_text response)) ;;
  (* line 84 *)
  load_name "response" ;;
  text <- call (get_content_as_string E) ;;
  store_name "convert_test" (VStr text) ;;
  (* line 87 *)
  load_name "DB_COLLECTION_NAME" ;;
  emit (Print "--- Step 2: Storing Description in MongoDB ---") ;;
  (* line 90 *)
  load_name "Document" ;;
  load_name "convert_test" ;;
  call (construct E "Document") ;;
  store_name "description_document" (VObject "Document") ;;
  (* lines 93-99 *)
  load_name "MongoDb" ;;
  load_name "DB_COLLECTION_NAME" ;;
  load_name "MDB_CONNECTION_STRING" ;;
  load_name "GeminiEmbedder" ;; call (construct E "GeminiEmbedder") ;;
  call (construct E "MongoDb") ;;
  store_name "mongo_vector_db" (VObject "MongoDb") ;;
  (* lines 103-106 *)
  load_name "DocumentKnowledgeBase" ;;
  load_name "description_document" ;;
  load_name "mongo_vector_db" ;;
  call (construct E "DocumentKnowledgeBase") ;;
  store_name "knowledge_base" (VObject "DocumentKnowledgeBase") ;;
  (* lines 109-115 *)
  try_except is_Exception
    (emit (Print "Loading knowledge base into MongoDB...") ;;
     load_name "knowledge_base" ;;
     call (knowledge_base_load E) ;;
     emit (Print "Knowledge base loaded successfully."))
    (fun e =>
       store_name "e" (VObject "exception") ;;
       emit (Print "Error loading knowledge base into MongoDB") ;;
       raise SystemExit EmptyString) ;;
  (* line 119 *)
  emit (Print "--- Step 3: Generating Quiz Questions based on Video Description ---") ;;
  (* lines 122-127 *)
  load_name "Agent" ;;
  load_name "Groq" ;; call (construct E "Groq") ;;
  load_name "knowledge_base" ;;
  call (construct E "Agent") ;;
  store_name "quiz_agent" (VObject "Agent") ;;
  (* lines 130-143 *)
  store_name "quiz_prompt"
    (VStr "Generate 10-20 multiple-choice quiz questions ...") ;;
  (* line 145 *)
  load_name "quiz_prompt" ;;
  emit (Print "--- Asking Quiz Agent ---") ;;
  (* line 147 *)
  load_name "quiz_agent" ;;
  quiz_prompt <- load_name "quiz_prompt" ;;
  call (print_response (script E) (as_text quiz_prompt)) ;;
  emit (QuizRequested (as_text quiz_prompt)).

End Batch1.

Module Script1Spec.
Import Py Batch Batch1 BatchSpec ScriptSpec.

Definition loading : event := Print "Loading knowledge base into MongoDB...".
Definition loaded : event := Print "Knowledge base loaded successfully.".
Definition not_loaded : event :=
  Print "Error loading knowledge base into MongoDB".

(** How a run of Version 1.py can end: normally exactly when the quiz was
    requested; the quiz is requested only after the knowledge base was
    loaded, with [convert_test] bound to the text of the response; no name
    is read before it is bound; and a failure of the loading ends the
    script through exit(). *)
Definition ends_in_order (E : Batch1.env) (r : outcome unit) (s : state)
  : Prop :=
  (r = Return tt <-> existsb is_quiz_request (out s) = true) /\
  (existsb is_quiz_request (out s) = true ->
     knowledge_base_load E = Returns tt /\ In loaded (out s) /\
     exists text, get_content_as_string E = Returns text /\
                  globals s !! "convert_test" = Some (VStr text)) /\
  (forall e, r = Raise e -> exn_class e <> NameError) /\
  (forall msg, knowledge_base_load E = Throws msg -> In loading (out s) ->
     r = Raise (mk_exn SystemExit EmptyString) /\ In not_loaded (out s)).

(** Every service answers; the file is found at the second try. *)
Definition all_fine : Batch1.env :=
  {| script := second_try;
     construct := fun _ => Returns tt;
     get_content_as_string := Returns "Main Topics Covered: merge sort.";
     knowledge_base_load := Returns tt |}.

(** MongoDB is not running. *)
Definition no_mongo : Batch1.env :=
  {| script := second_try;
     construct := fun _ => Returns tt;
     get_content_as_string := Returns "Main Topics Covered: merge sort.";
     knowledge_base_load := Throws "localhost:51083: Connection refused" |}.

End Script1Spec.

(* ===================================================================== *)
(** * Facts about the Python fragment *)
(* ===================================================================== *)

Module PyFacts.
Import Py.

Lemma contains_In (l : list string) (x : string) :
  contains l x = true <-> In x l.
Proof.
  unfold contains. rewrite existsb_exists. split.
  - intros [y [Hy Heq]]. apply String.eqb_eq in Heq. now subst.
  - intros H. exists x. split; [assumption | apply String.eqb_refl].
Qed.

Lemma contains_not_In (l : list string) (x : string) :
  contains l x = false <-> ~ In x l.
Proof.
  rewrite <- contains_In. destruct (contains l x); split; congruence.
Qed.

(** A string without the separator is its own single piece. *)
Lemma split_without_sep (sep : ascii) (s : string) :
  has_char sep s = false -> split sep s = [s].
Proof.
  induction s as [|c s IH]; simpl; [reflexivity|].
  intros H. apply orb_false_iff in H as [Hc Hs].
  rewrite Hc, (IH Hs). reflexivity.
Qed.

Lemma split_not_nil (sep : ascii) (s : string) : split sep s <> [].
Proof.
  destruct s as [|c s]; simpl; [discriminate|].
  destruct (Ascii.eqb c sep); [discriminate|].
  destruct (split sep s); discriminate.
Qed.

End PyFacts.

(* ===================================================================== *)
(** * validate_video_file *)
(* ===================================================================== *)

Module ValidationFacts.
Import Py PyFacts StreamlitApp ValidationSpec.

(** The size test in bytes: more than 500 * 1024 * 1024. *)
Lemma size_test_in_bytes (f : UploadedFile.t) :
  Qgtb (file_size_mb f) (inject_Z MAX_FILE_SIZE_MB)
  = (MAX_FILE_SIZE_MB * 1024 * 1024 <? UploadedFile.size f)%Z.
Proof.
  unfold Qgtb, file_size_mb, MAX_FILE_SIZE_MB.
  destruct (Z.ltb_spec (500 * 1024 * 1024) (UploadedFile.size f)) as [H|H].
  - apply negb_true_iff. apply not_true_iff_false. intros Hle.
    apply Qle_bool_iff in Hle. unfold Qle, Qdiv, Qmult, Qinv in Hle.
    simpl in Hle. lia.
  - apply negb_false_iff. apply Qle_bool_iff.
    unfold Qle, Qdiv, Qmult, Qinv. simpl. lia.
Qed.

Lemma size_test_Qlt (f : UploadedFile.t) :
  Qgtb (file_size_mb f) (inject_Z MAX_FILE_SIZE_MB) = true
  <-> (inject_Z MAX_FILE_SIZE_MB < file_size_mb f)%Q.
Proof.
  unfold Qgtb. rewrite negb_true_iff, <- not_true_iff_false, Qle_bool_iff.
  split; [apply Qnot_le_lt | apply Qlt_not_le].
Qed.

(** C3.  A missing file is refused with "No file uploaded".  An uploaded
    file is refused exactly when its size in megabytes exceeds 500, or its
    lower-cased extension is not in the allow-list, or its size is zero,
    and accepted otherwise; the size test comes first, then the extension
    test, then the emptiness test, and the first test that fails decides
    the message. *)
Theorem validate_video_file_decision (f : UploadedFile.t) :
  validate_video_file None = (false, NoFileUploaded) /\
  (fst (validate_video_file (Some f)) = false
     <-> too_large f \/ extension_refused f \/ empty_file f) /\
  (validate_video_file (Some f) = (true, ValidationSuccessful)
     <-> ~ (too_large f \/ extension_refused f \/ empty_file f)) /\
  (validate_video_file (Some f) = (false, FileSizeExceeds (file_size_mb f))
     <-> too_large f) /\
  (validate_video_file (Some f) = (false, UnsupportedFormat supported_text)
     <-> ~ too_large f /\ extension_refused f) /\
  (validate_video_file (Some f) = (false, FileIsEmpty)
     <-> ~ too_large f /\ ~ extension_refused f /\ empty_file f).
Proof.
  unfold too_large, extension_refused, empty_file.
  rewrite <- size_test_Qlt, <- contains_not_In.
  unfold validate_video_file.
  destruct (Qgtb (file_size_mb f) (inject_Z MAX_FILE_SIZE_MB)) eqn:Hs;
    destruct (contains SUPPORTED_VIDEO_FORMATS (file_extension f)) eqn:He;
    destruct (Z.eqb_spec (UploadedFile.size f) 0) as [Hz|Hz];
    cbn [negb fst];
    repeat split; try intros; try congruence; try tauto;
    try (intuition congruence).
Qed.

Lemma lower_of_supported (x : string) :
  In x SUPPORTED_VIDEO_FORMATS -> lower x = x.
Proof.
  unfold SUPPORTED_VIDEO_FORMATS. cbn [In].
  intros [<- | [<- | [<- | [<- | [<- | [<- | [<- | []]]]]]]]; reflexivity.
Qed.

(** C10.  For a file whose name has no dot, the extension the check looks
    at is the whole name in lower case; when the size test lets the file
    through, the file is refused by the extension test exactly when that
    lower-cased name is not one of the allowed formats, so a name that is
    itself an allowed format passes the test. *)
Theorem dotless_name_is_its_own_extension (f : UploadedFile.t) :
  has_char "." (UploadedFile.name f) = false ->
  file_extension f = lower (UploadedFile.name f) /\
  (~ too_large f ->
   (validate_video_file (Some f) = (false, UnsupportedFormat supported_text)
    <-> ~ In (lower (UploadedFile.name f)) SUPPORTED_VIDEO_FORMATS)) /\
  (In (UploadedFile.name f) SUPPORTED_VIDEO_FORMATS ->
   ~ extension_refused f).
Proof.
  intros Hdot.
  assert (Hext : file_extension f = lower (UploadedFile.name f)).
  { unfold file_extension. now rewrite (split_without_sep _ _ Hdot). }
  split; [exact Hext|]. split.
  - intros Hsize. rewrite <- Hext, <- contains_not_In.
    unfold too_large in Hsize. rewrite <- size_test_Qlt in Hsize.
    apply not_true_is_false in Hsize.
    unfold validate_video_file. rewrite Hsize.
    destruct (contains SUPPORTED_VIDEO_FORMATS (file_extension f));
      cbn [negb]; [|now split].
    split; [|discriminate].
    destruct (UploadedFile.size f =? 0)%Z; discriminate.
  - intros Hin. unfold extension_refused.
    rewrite Hext, (lower_of_supported _ Hin). tauto.
Qed.

Lemma dotless_name_is_its_own_extension_witness :
  file_extension Examples.clip = "clip" /\
  validate_video_file (Some Examples.clip)
  = (false, UnsupportedFormat supported_text) /\
  file_extension (UploadedFile.Build "MKV" 9 []) = "mkv".
Proof.
  destruct (dotless_name_is_its_own_extension Examples.clip eq_refl)
    as (H1 & H2 & _).
  destruct (dotless_name_is_its_own_extension (UploadedFile.Build "MKV" 9 [])
              eq_refl) as (H3 & _).
  split; [exact H1|]. split; [|exact H3].
  apply H2.
  - unfold too_large. vm_compute. discriminate.
  - vm_compute. intuition discriminate.
Defined.


End ValidationFacts.

(* ===================================================================== *)
(** * Facts about src/utils.py *)
(* ===================================================================== *)

Module ConfigFacts.
Import Py ConfigParser ConfigSpec.

Lemma unify_values_total cp section : unify_values cp section <> Diverge.
Proof.
  unfold unify_values. destruct (sections cp !! section); [discriminate|].
  destruct (String.eqb section default_section); discriminate.
Qed.

Lemma get_missing {F} cp section key (fb : F) :
  stored_value cp section key = None ->
  ConfigParser.get cp section key (Some fb) = Return (Fallback fb).
Proof.
  unfold stored_value, ConfigParser.get.
  destruct (unify_values cp section) as [d|e|] eqn:Hu; [|reflexivity|].
  - intros ->. reflexivity.
  - now apply unify_values_total in Hu.
Qed.

Lemma unify_values_raises cp section e :
  unify_values cp section = Raise e -> exn_class e = NoSectionError.
Proof.
  unfold unify_values. destruct (sections cp !! section); [discriminate|].
  destruct (String.eqb section default_section); [discriminate|].
  now intros [= <-].
Qed.

Lemma get_unset_missing cp section key :
  stored_value cp section key = None ->
  exists e, ConfigParser.get (F := Empty_set) cp section key None = Raise e /\
            one_of [NoSectionError; NoOptionError] (exn_class e) = true.
Proof.
  unfold stored_value, ConfigParser.get.
  destruct (unify_values cp section) as [d|e|] eqn:Hu.
  - intros ->. eexists. split; reflexivity.
  - intros _. exists e. split; [reflexivity|].
    now rewrite (unify_values_raises _ _ _ Hu).
  - now apply unify_values_total in Hu.
Qed.

Lemma get_unset_retrieved cp section key v :
  retrieved cp section key v ->
  ConfigParser.get (F := Empty_set) cp section key None = Return (Value v).
Proof.
  intros (d & raw & Hu & Hd & Hv). unfold ConfigParser.get.
  rewrite Hu, Hd, Hv. reflexivity.
Qed.

Lemma get_conv_missing {V F} cp section key (conv : string -> outcome V)
    (fb : F) :
  stored_value cp section key = None ->
  get_conv cp section key conv (Some fb) = Return (Fallback fb).
Proof.
  intros H. unfold get_conv.
  destruct (get_unset_missing cp section key H) as (e & -> & He).
  cbn [obind catch]. now rewrite He.
Qed.

Lemma get_conv_value_error {V F} cp section key (conv : string -> outcome V)
    (fb : F) v msg :
  retrieved cp section key v ->
  conv v = Raise (mk_exn ValueError msg) ->
  get_conv cp section key conv (Some fb) = Raise (mk_exn ValueError msg).
Proof.
  intros Hr Hc. unfold get_conv. rewrite (get_unset_retrieved _ _ _ _ Hr).
  cbn [obind]. rewrite Hc. reflexivity.
Qed.

(** Where the getters do fall back.  When the section or the key is
    missing, [get], [get_int] and [get_bool] return the very fallback they
    were given and [get_list] returns the list it was given, or an empty
    list when it was given None.  When the parser hands the value over and
    it does not convert to the requested type, [get_int] and [get_bool]
    return the very fallback they were given.  None of these lookups
    raises. *)
Theorem getters_fall_back (self : AppConfig.t) (section key : string) :
  (stored_value (AppConfig.config self) section key = None ->
     (forall F (fb : F),
        AppConfig.get self section key fb = Return (Fallback fb) /\
        AppConfig.get_int self section key fb = Return (Fallback fb) /\
        AppConfig.get_bool self section key fb = Return (Fallback fb)) /\
     (forall l,
        AppConfig.get_list self section key (Some l)
        = Return (Fallback (Some l))) /\
     AppConfig.get_list self section key None
     = Return (Fallback (Some []))) /\
  (forall v, retrieved (AppConfig.config self) section key v ->
     (not_an_int v -> forall F (fb : F),
        AppConfig.get_int self section key fb = Return (Fallback fb)) /\
     (not_a_boolean v -> forall F (fb : F),
        AppConfig.get_bool self section key fb = Return (Fallback fb))).
Proof.
  split.
  - intros Hm. repeat split.
    + unfold AppConfig.get. now rewrite (get_missing _ _ _ _ Hm).
    + unfold AppConfig.get_int, getint.
      now rewrite (get_conv_missing _ _ _ _ _ Hm).
    + unfold AppConfig.get_bool, getboolean.
      now rewrite (get_conv_missing _ _ _ _ _ Hm).
    + intros l. unfold AppConfig.get_list.
      destruct (get_unset_missing _ _ _ Hm) as (e & -> & He).
      cbn [obind catch]. now rewrite He.
    + unfold AppConfig.get_list.
      destruct (get_unset_missing _ _ _ Hm) as (e & -> & He).
      cbn [obind catch]. now rewrite He.
  - intros v Hr. split.
    + intros Hi F fb. unfold AppConfig.get_int, getint.
      erewrite get_conv_value_error; [reflexivity | exact Hr |].
      unfold conv_int. unfold not_an_int in Hi. now rewrite Hi.
    + intros Hb F fb. unfold AppConfig.get_bool, getboolean.
      erewrite get_conv_value_error; [reflexivity | exact Hr |].
      unfold convert_to_boolean. unfold not_a_boolean in Hb. now rewrite Hb.
Qed.

Lemma getters_fall_back_witness :
  AppConfig.get_int sparse_config "app" "supported_formats" 7%Z
    = Return (Fallback 7%Z) /\
  AppConfig.get_bool sparse_config "app" "max_file_size_mb" false
    = Return (Fallback false).
Proof.
  split.
  - apply (proj1 (getters_fall_back sparse_config "app" "supported_formats")).
    vm_compute. reflexivity.
  - apply (proj2 (getters_fall_back sparse_config "app" "max_file_size_mb")
             "500").
    + exists {[ "max_file_size_mb" := "500" ]}, "500".
      repeat split; vm_compute; reflexivity.
    + vm_compute. reflexivity.
Defined.

(** A stored value with a stray percent sign is not an integer, and
    [get_int] lets the parser's InterpolationSyntaxError through. *)
Remark get_int_lets_interpolation_errors_through :
  stored_value (AppConfig.config percent_config) "app" "max_file_size_mb"
    = Some "50%" /\
  not_an_int "50%" /\
  AppConfig.get_int percent_config "app" "max_file_size_mb" 500%Z
    = Raise (mk_exn InterpolationSyntaxError
               "'%' must be followed by '%' or '('").
Proof. repeat split; vm_compute; reflexivity. Qed.

End ConfigFacts.

Module LogicFacts.
Import Py Logic.

Section Rules.
Context {S : Type}.

Lemma wp_elim {A} (m : M S A) (Q : outcome A -> S -> Prop) s :
  wp m Q s -> Q (fst (m s)) (snd (m s)).
Proof. now intros []. Qed.

Lemma wp_mono {A} (m : M S A) (Q Q' : outcome A -> S -> Prop) s :
  wp m Q s -> (forall r s', Q r s' -> Q' r s') -> wp m Q' s.
Proof. intros [H] HQ. constructor. auto. Qed.

Lemma wp_world {A} (m : M S A) (Q : outcome A -> S -> Prop) s s' :
  s' = s -> wp m Q s' -> wp m Q s.
Proof. now intros ->. Qed.

Lemma wp_last {A} (m : M S A) (Q : outcome A -> S -> Prop) s :
  wp (bind m ret) Q s -> wp m Q s.
Proof.
  intros [H]. constructor. unfold bind, ret in H.
  destruct (m s) as [[a|e|] s']; exact H.
Qed.

Lemma wp_unlast {A} (m : M S A) (Q : outcome A -> S -> Prop) s :
  wp m Q s -> wp (bind m ret) Q s.
Proof.
  intros [H]. constructor. unfold bind, ret.
  destruct (m s) as [[a|e|] s']; exact H.
Qed.

Lemma wp_bind {A B} (m : M S A) (k : A -> M S B)
    (Q : outcome B -> S -> Prop) s :
  wp m (fun r s' => match r with
                    | Return a => wp (k a) Q s'
                    | Raise e => Q (Raise e) s'
                    | Diverge => Q Diverge s'
                    end) s ->
  wp (bind m k) Q s.
Proof.
  intros [H]. constructor. unfold bind.
  destruct (m s) as [[a|e|] s']; cbn [fst snd] in *; auto.
  now destruct H.
Qed.

Lemma wp_bind_assoc {A B C} (m : M S A) (k1 : A -> M S B)
    (k2 : B -> M S C) (Q : outcome C -> S -> Prop) s :
  wp (bind m (fun a => bind (k1 a) k2)) Q s ->
  wp (bind (bind m k1) k2) Q s.
Proof.
  intros [H]. constructor. unfold bind in *.
  destruct (m s) as [[a|e|] s']; exact H.
Qed.

Lemma wp_ret {A} (a : A) (Q : outcome A -> S -> Prop) s :
  Q (Return a) s -> wp (ret a) Q s.
Proof. now constructor. Qed.

Lemma wp_ret_bind {A B} (a : A) (k : A -> M S B)
    (Q : outcome B -> S -> Prop) s :
  wp (k a) Q s -> wp (bind (ret a) k) Q s.
Proof. intros [H]. now constructor. Qed.

Lemma wp_raise_bind {A B} c msg (k : A -> M S B)
    (Q : outcome B -> S -> Prop) s :
  Q (Raise (mk_exn c msg)) s -> wp (bind (raise c msg) k) Q s.
Proof. now constructor. Qed.

Lemma wp_lift_bind {A B} (o : outcome A) (k : A -> M S B)
    (Q : outcome B -> S -> Prop) s :
  match o with
  | Return a => wp (k a) Q s
  | Raise e => Q (Raise e) s
  | Diverge => Q Diverge s
  end ->
  wp (bind (lift o) k) Q s.
Proof.
  intros H. constructor. unfold bind, lift.
  destruct o; [now destruct H | exact H | exact H].
Qed.

Lemma wp_modify_bind {B} (f : S -> S) (k : unit -> M S B)
    (Q : outcome B -> S -> Prop) s s' :
  s' = f s -> wp (k tt) Q s' -> wp (bind (modify f) k) Q s.
Proof. intros -> [H]. now constructor. Qed.

Lemma wp_gets_bind {A B} (f : S -> A) (k : A -> M S B)
    (Q : outcome B -> S -> Prop) s a :
  a = f s -> wp (k a) Q s -> wp (bind (gets f) k) Q s.
Proof. intros -> [H]. now constructor. Qed.

Lemma wp_try_bind {A B} (catches : exc_class -> bool)
    (body : M S A) (handler : exn -> M S A) (k : A -> M S B)
    (Q : outcome B -> S -> Prop) s :
  wp body (after_try catches handler k Q) s ->
  wp (bind (try_except catches body handler) k) Q s.
Proof.
  intros [H]. constructor. unfold after_try in H.
  unfold bind, try_except in *.
  destruct (body s) as [[a|e|] s']; cbn [fst snd] in *.
  - now destruct H.
  - destruct (catches (exn_class e)); [now destruct H | exact H].
  - exact H.
Qed.
End Rules.

End LogicFacts.

(* ===================================================================== *)
(** * Facts about src/streamlit_app.py *)
(* ===================================================================== *)

Module AppFacts.
Import Py StreamlitApp AppSpec Logic LogicFacts Examples.
Local Open Scope py_scope.

(** *** cleanup_temp_files *)

Lemma for_file_path_returns E l w :
  for_file_path E l w = (Return tt, cleaned E l w).
Proof.
  revert w. induction l as [|p l IH]; intros w.
  - destruct w. unfold cleaned. cbn. now rewrite app_nil_r.
  - cbn [for_file_path]. unfold bind at 1. unfold try_except.
    unfold bind at 1. unfold os_path_exists at 1. unfold gets.
    unfold cleaned. cbn [cleaned_disk cleanup_log].
    destruct (bool_decide (is_Some (disk w !! p))).
    + unfold unlink, bind. destruct (os_unlink E p); cbn.
      * rewrite IH. unfold cleaned. cbn. now rewrite <- app_assoc.
      * rewrite IH. unfold cleaned. cbn. now rewrite <- app_assoc.
    + cbn. apply IH.
Qed.

Lemma cleanup_temp_files_returns E l w :
  cleanup_temp_files E l w
  = (Return tt, cleaned E l (with_event (CleanupTempFiles l) w)).
Proof.
  unfold cleanup_temp_files, bind, emit, modify.
  apply for_file_path_returns.
Qed.

Lemma cleanup_log_is_log E l d : forallb is_log (cleanup_log E l d) = true.
Proof.
  revert d. induction l as [|p l IH]; intros d; [reflexivity|].
  cbn [cleanup_log].
  destruct (bool_decide _); [destruct (os_unlink E p)|]; cbn; auto.
Qed.

(** *** The retry loop *)

Section Loop.
Variables (E : env) (site : error_site) (ev : nat -> event).
Variable attempt : nat -> outcome string.
Hypothesis attempt_exc :
  forall i e, attempt i = Raise e -> is_Exception (exn_class e) = true.
Hypothesis attempt_total : forall i, attempt i <> Diverge.

Let loop := retry_loop E site ev attempt (S max_retries) 0 None.

Ltac run_round H :=
  cbn -[retry_loop cleanup_temp_files];
  unfold bind, try_except, emit, modify, lift, ret, gets, assign, st_stop,
    raise;
  rewrite H;
  try (rewrite (attempt_exc _ _ H)).

Ltac same_world :=
  cbn; unfold add_events, with_event, exhausted, cleaned, with_session;
  cbn; rewrite <- ?app_assoc; reflexivity.

Lemma loop_first_try w text :
  attempt 0%nat = Return text ->
  loop w = (Return (Some text), add_events [ev 0%nat] w).
Proof.
  intros H0. unfold loop, max_retries. cbn [retry_loop].
  run_round H0. reflexivity.
Qed.

Lemma loop_second_try w e0 text :
  attempt 0%nat = Raise e0 -> attempt 1%nat = Return text ->
  loop w = (Return (Some text),
            add_events [ev 0%nat; Sleep 2; ev 1%nat] w).
Proof.
  intros H0 H1. unfold loop, max_retries. cbn [retry_loop].
  run_round H0. run_round H1. same_world.
Qed.

Lemma loop_third_try w e0 e1 text :
  attempt 0%nat = Raise e0 -> attempt 1%nat = Raise e1 ->
  attempt 2%nat = Return text ->
  loop w = (Return (Some text),
            add_events [ev 0%nat; Sleep 2; ev 1%nat; Sleep 2; ev 2%nat] w).
Proof.
  intros H0 H1 H2. unfold loop, max_retries. cbn [retry_loop].
  run_round H0. run_round H1. run_round H2. same_world.
Qed.

Lemma loop_gives_up w e0 e1 e2 :
  attempt 0%nat = Raise e0 -> attempt 1%nat = Raise e1 ->
  attempt 2%nat = Raise e2 ->
  loop w = (Raise stop, exhausted E site ev e2 w).
Proof.
  intros H0 H1 H2. unfold loop, max_retries. cbn [retry_loop].
  run_round H0. run_round H1. run_round H2.
  cbn -[cleanup_temp_files]. rewrite cleanup_temp_files_returns.
  unfold stop. f_equal. same_world.
Qed.

(** The loop in closed form. *)
Lemma loop_cases w :
  (exists k text, succeeds_at attempt k text /\
     loop w = (Return (Some text), add_events (rounds_from ev 0 k) w)) \/
  (exists e, attempt 2%nat = Raise e /\
     (forall i, (i < max_retries)%nat -> fails (attempt i)) /\
     loop w = (Raise stop, exhausted E site ev e w)).
Proof.
  destruct (attempt 0%nat) as [t0|e0|] eqn:H0;
    [ | | now apply attempt_total in H0].
  { left. exists 0%nat, t0. split; [|now apply loop_first_try].
    split; [unfold max_retries; lia|]. split; [assumption|].
    intros i Hi. lia. }
  destruct (attempt 1%nat) as [t1|e1|] eqn:H1;
    [ | | now apply attempt_total in H1].
  { left. exists 1%nat, t1. split; [|now apply loop_second_try with e0].
    split; [unfold max_retries; lia|]. split; [assumption|].
    intros i Hi. assert (i = 0%nat) as -> by lia. now exists e0. }
  destruct (attempt 2%nat) as [t2|e2|] eqn:H2;
    [ | | now apply attempt_total in H2].
  { left. exists 2%nat, t2. split; [|now apply loop_third_try with e0 e1].
    split; [unfold max_retries; lia|]. split; [assumption|].
    intros i Hi. assert (i = 0 \/ i = 1)%nat as [-> | ->] by lia;
      [now exists e0 | now exists e1]. }
  right. exists e2. split; [reflexivity|].
  split; [|now apply loop_gives_up with e0 e1].
  unfold max_retries. intros i Hi.
  assert (i = 0 \/ i = 1 \/ i = 2)%nat as [-> | [-> | ->]] by lia;
    [now exists e0 | now exists e1 | now exists e2].
Qed.
End Loop.

(** *** The two try bodies *)

Lemma checked_exc floor complaint text e :
  checked floor complaint text = Raise e ->
  is_Exception (exn_class e) = true.
Proof.
  unfold checked. destruct text as [|s|[|]]; try (intros [= <-]; reflexivity).
  destruct (negb (truthy s) || (len (strip s) <? floor)%Z);
    [intros [= <-]; reflexivity | discriminate].
Qed.

Lemma checked_total floor complaint text :
  checked floor complaint text <> Diverge.
Proof.
  unfold checked. destruct text as [|s|[|]]; try discriminate.
  destruct (negb (truthy s) || (len (strip s) <? floor)%Z); discriminate.
Qed.

Lemma checked_returns floor complaint text s :
  checked floor complaint text = Return s ->
  text = PyStr s /\ truthy s = true /\ (floor <= len (strip s))%Z.
Proof.
  unfold checked. destruct text as [|s'|[|]]; try discriminate.
  destruct (negb (truthy s') || (len (strip s') <? floor)%Z) eqn:Hc;
    [discriminate|].
  intros [= <-]. apply orb_false_iff in Hc as [Ht Hl].
  apply negb_false_iff in Ht. apply Z.ltb_ge in Hl. auto.
Qed.

Lemma analysis_attempt_exc E i e :
  analysis_attempt E i = Raise e -> is_Exception (exn_class e) = true.
Proof.
  unfold analysis_attempt.
  destruct (gemini_run E i) as [r|msg]; [|intros [= <-]; reflexivity].
  destruct (eager_annotations E); [intros [= <-]; reflexivity|].
  apply checked_exc.
Qed.

Lemma analysis_attempt_total E i : analysis_attempt E i <> Diverge.
Proof.
  unfold analysis_attempt.
  destruct (gemini_run E i) as [r|msg]; [|discriminate].
  destruct (eager_annotations E); [discriminate|].
  apply checked_total.
Qed.

(** What a successful first-loop attempt has checked. *)
Lemma analysis_attempt_returns E i text :
  analysis_attempt E i = Return text ->
  truthy text = true /\ (50 <= len (strip text))%Z.
Proof.
  unfold analysis_attempt.
  destruct (gemini_run E i) as [r|msg]; [|discriminate].
  destruct (eager_annotations E); [discriminate|].
  intros H. now apply checked_returns in H.
Qed.

Lemma quiz_attempt_exc E kt i e :
  quiz_attempt E kt i = Raise e -> is_Exception (exn_class e) = true.
Proof.
  unfold quiz_attempt.
  destruct (groq_run E kt i) as [r|msg]; [|intros [= <-]; reflexivity].
  apply checked_exc.
Qed.

Lemma quiz_attempt_total E kt i : quiz_attempt E kt i <> Diverge.
Proof.
  unfold quiz_attempt.
  destruct (groq_run E kt i) as [r|msg]; [|discriminate].
  apply checked_total.
Qed.

Lemma quiz_attempt_returns E kt i text :
  quiz_attempt E kt i = Return text ->
  truthy text = true /\ (100 <= len (strip text))%Z.
Proof.
  unfold quiz_attempt.
  destruct (groq_run E kt i) as [r|msg]; [|discriminate].
  intros H. now apply checked_returns in H.
Qed.

Lemma succeeds_at_unique attempt k a k' a' :
  succeeds_at attempt k a -> succeeds_at attempt k' a' -> k = k' /\ a = a'.
Proof.
  intros (Hk & Ha & Hb) (Hk' & Ha' & Hb').
  assert (k = k') as <-.
  { destruct (Nat.lt_total k k') as [H|[H|H]]; [|assumption|].
    - destruct (Hb' k H) as [e He]. congruence.
    - destruct (Hb k' H) as [e He]. congruence. }
  split; congruence.
Qed.

Lemma succeeds_not_all_fail attempt k a :
  succeeds_at attempt k a ->
  (forall i, (i < max_retries)%nat -> fails (attempt i)) -> False.
Proof.
  intros (Hk & Ha & _) Hall. destruct (Hall k Hk) as [e He]. congruence.
Qed.

Lemma rounds_from_first ev first k : In (ev first) (rounds_from ev first k).
Proof. destruct k; cbn; auto. Qed.

(** *** Stepping through a block *)

Lemma wp_call_bind {A B} (r : call_result A) (k : A -> M world B)
    (Q : outcome B -> world -> Prop) w :
  (forall a, r = Returns a -> wp (k a) Q w) ->
  (forall msg, r = Throws msg -> Q (Raise (mk_exn Exception_ msg)) w) ->
  wp (bind (call r) k) Q w.
Proof.
  intros H1 H2. destruct r as [a|msg].
  - destruct (H1 a eq_refl) as [H]. now constructor.
  - constructor. now apply H2.
Qed.

Lemma wp_cleanup_bind {B} E l (k : unit -> M world B)
    (Q : outcome B -> world -> Prop) w w' :
  w' = cleaned E l (with_event (CleanupTempFiles l) w) ->
  wp (k tt) Q w' ->
  wp (bind (cleanup_temp_files E l) k) Q w.
Proof.
  intros -> [H]. constructor. unfold bind.
  now rewrite cleanup_temp_files_returns.
Qed.

Lemma wp_loop_bind {B} E site ev attempt
    (Hexc : forall i e, attempt i = Raise e ->
                        is_Exception (exn_class e) = true)
    (Htot : forall i, attempt i <> Diverge)
    (k : option string -> M world B)
    (Q : outcome B -> world -> Prop) w :
  (forall n text, succeeds_at attempt n text ->
     wp (k (Some text)) Q (add_events (rounds_from ev 0 n) w)) ->
  (forall e, attempt 2%nat = Raise e ->
     (forall i, (i < max_retries)%nat -> fails (attempt i)) ->
     Q (Raise stop) (exhausted E site ev e w)) ->
  wp (bind (retry_loop E site ev attempt (S max_retries) 0 None) k) Q w.
Proof.
  intros Hs Hf. constructor. unfold bind.
  destruct (loop_cases E site ev attempt Hexc Htot w)
    as [(n & text & Hn & ->) | (e & He & Hall & ->)]; cbn [fst snd].
  - now destruct (Hs n text Hn).
  - now apply Hf.
Qed.

(** Worlds are kept as record literals all along. *)
Ltac wnorm :=
  cbn [fst snd exn_class exn_msg session temp_files disk trace
       with_session with_temp_files with_disk with_event add_events
       exhausted cleaned app
       processing_status api_keys_validated analysis_results
       quiz_results processed_file_hash
       set_processing_status set_api_keys_validated
       set_analysis_results set_quiz_results set_processed_file_hash].

Ltac wp_side := wnorm; reflexivity.

Ltac wp_step :=
  lazymatch goal with
  | |- wp (bind (processing _ _ _) ret) _ _ => apply wp_unlast
  | |- wp (bind (bind _ _) _) _ _ => apply wp_bind_assoc
  | |- wp (bind (ret _) _) _ _ => apply wp_ret_bind
  | |- wp (bind (read_variable _ (Some _)) _) _ _ => apply wp_ret_bind
  | |- wp (bind (raise _ _) _) _ _ => apply wp_raise_bind
  | |- wp (bind st_stop _) _ _ => apply wp_raise_bind
  | |- wp (bind st_rerun _) _ _ => apply wp_raise_bind
  | |- wp (bind (modify _) _) _ _ => eapply wp_modify_bind; [wp_side|]
  | |- wp (bind (emit _) _) _ _ => eapply wp_modify_bind; [wp_side|]
  | |- wp (bind (assign _) _) _ _ => eapply wp_modify_bind; [wp_side|]
  | |- wp (bind (gets _) _) _ _ => eapply wp_gets_bind; [wp_side|]
  | |- wp (bind (ui _ _) _) _ _ =>
      apply wp_call_bind; [intros [] ? | intros ? ?]
  | |- wp (bind (call _) _) _ _ =>
      apply wp_call_bind; [intros ? ? | intros ? ?]
  | |- wp (bind (try_except _ _ _) _) _ _ => apply wp_try_bind
  | |- wp (bind (cleanup_temp_files _ _) _) _ _ =>
      eapply wp_cleanup_bind; [wp_side|]
  | |- wp (bind (retry_loop ?E _ _ (analysis_attempt _) _ _ _) _) _ _ =>
      apply (wp_loop_bind E _ _ _ (analysis_attempt_exc E)
               (analysis_attempt_total E));
      [ intros ? ? ?; eapply wp_world; [wp_side|]
      | intros ? ? ? ]
  | |- wp (bind (retry_loop ?E _ _ (quiz_attempt _ ?kt) _ _ _) _) _ _ =>
      apply (wp_loop_bind E _ _ _ (quiz_attempt_exc E kt)
               (quiz_attempt_total E kt));
      [ intros ? ? ?; eapply wp_world; [wp_side|]
      | intros ? ? ? ]
  | |- wp (bind (match (<[?k:=?v]> ?m !! ?k) with _ => _ end) _) _ _ =>
      rewrite (lookup_insert_eq m k v); cbn iota
  | |- wp (bind (if ?b then _ else _) _) _ _ => destruct b eqn:?
  | |- wp (bind (match ?x with _ => _ end) _) _ _ => destruct x eqn:?
  | |- wp (ret _) _ _ => apply wp_ret
  | |- wp (processing _ _ _) _ _ => fail
  | |- wp (bind (processing _ _ _) ret) _ _ => apply wp_unlast
  | |- wp (bind _ _) _ _ => fail
  | |- wp _ _ _ => apply wp_last
  | |- after_try _ _ _ _ _ _ =>
      unfold after_try at 1;
      cbn beta iota delta [exn_class is_Exception stop]
  end; cbn beta zeta iota delta [negb andb orb].

Ltac wp_run := repeat wp_step.

Ltac enter w :=
  destruct w as [[?ar ?qr ?ph ?kv ?ps] ?tf ?d ?tr].

(** *** The processing block *)

Ltac units :=
  repeat match goal with u : unit |- _ => destruct u end.

Ltac prove_completes :=
  units; unfold completes, reaches_analysis, saved, suffix_of;
  split;
  [ eexists;
    split; [split; [eassumption | split; eassumption]|];
    split; [eassumption|]; split; [eassumption|];
    split; [congruence | eassumption]
  | split; [eexists; eassumption|];
    split; [eassumption | eexists; eassumption] ].

Ltac refute_completes :=
  unfold completes, reaches_analysis, saved, suffix_of;
  intros (? & ? & (? & (? & ? & ?) & ? & ? & ? & ?) & (? & ?) & ? & (? & ?));
  units;
  first
    [ congruence
    | match goal with
      | H1 : succeeds_at ?att _ _,
        H2 : forall i, (i < max_retries)%nat -> fails (?att i) |- _ =>
          exact (succeeds_not_all_fail _ _ _ H1 H2)
      end
    | match goal with
      | H1 : succeeds_at (analysis_attempt ?E) _ ?a,
        H2 : succeeds_at (analysis_attempt ?E) _ ?b |- _ =>
          destruct (succeeds_at_unique _ _ _ _ _ H1 H2) as [? ?]; subst;
          match goal with
          | H1 : succeeds_at ?att _ _,
            H2 : forall i, (i < max_retries)%nat -> fails (?att i) |- _ =>
              exact (succeeds_not_all_fail _ _ _ H1 H2)
          end
      end ].

Ltac solve_results :=
  unfold results_after; wnorm;
  first
    [ left; do 2 eexists; split; [prove_completes | repeat split; reflexivity]
    | right; split;
      [ refute_completes
      | repeat split; try reflexivity;
        first [left; reflexivity | right; eauto] ] ].

(** Whatever happens, the block ends with the status back to "idle" and
    with the results either all stored or the quiz and the hash
    untouched. *)
Lemma processing_session E f h w :
  wp (processing E f h)
     (fun r w' =>
        (r = Return tt \/ r = Raise stop) /\
        processing_status (session w') = "idle" /\
        api_keys_validated (session w') = api_keys_validated (session w) /\
        results_after E f h (session w) (session w')) w.
Proof.
  enter w.
  unfold processing, save_upload, load_video.
  wp_run.
  all: wnorm.
  all: split; [auto|]; split; [reflexivity|]; split; [reflexivity|].
  all: solve_results.
Qed.

Ltac in_trace :=
  lazymatch goal with
  | |- In (?ev ?first) (rounds_from ?ev ?first _) => apply rounds_from_first
  | |- In _ (_ ++ _)%list =>
      apply in_or_app; first [left; in_trace | right; in_trace]
  | |- In _ (_ :: _) => first [left; reflexivity | right; in_trace]
  end.

(** Whatever happens, the block calls cleanup_temp_files with the list it
    tracked; the list holds the temporary file once the upload has been
    written to it; and the first agent is asked as soon as the video has
    been loaded. *)
Lemma processing_trace E f h w :
  wp (processing E f h)
     (fun r w' =>
        exists evs, trace w' = (trace w ++ evs)%list /\
          In (CleanupTempFiles (temp_files w')) evs /\
          (forall p, saved E f p -> temp_files w' = [p]) /\
          (forall p, reaches_analysis E f p -> In (VideoAgentRun 0) evs)) w.
Proof.
  enter w.
  unfold processing, save_upload, load_video.
  wp_run.
  all: wnorm.
  all: eexists; split; [rewrite <- ?app_assoc; reflexivity|].
  all: split; [in_trace|].
  all: unfold reaches_analysis, saved, suffix_of.
  all: split;
    [ intros ? (? & ? & ?); congruence
    | intros ? ((? & ? & ?) & ? & ? & ? & ?); try congruence ].
  all: in_trace.
Qed.


(** *** The page *)

Lemma results_after_consistent E f h s s' :
  results_after E f h s s' -> consistent s -> consistent s'.
Proof.
  unfold consistent.
  intros [(a & q & _ & -> & -> & _) | (_ & -> & -> & [-> | (k & a & _ & ->)])]
    Hs Hh; auto.
  split; [discriminate | now apply Hs].
Qed.

Lemma page_settled E inp w :
  settled (session w) ->
  wp (page E inp) (fun _ w' => settled (session w')) w.
Proof.
  enter w. unfold settled, consistent. wnorm. intros [-> Hc].
  unfold page, sidebar, set_environ, cached_results.
  wp_run.
  all: wnorm.
  all: try (split; [reflexivity
                   | first [exact Hc
                           | intros Hn; exfalso; apply Hn; reflexivity]]).
  all: eapply wp_mono; [apply processing_session|].
  all: cbn beta; wnorm.
  all: intros r w' (_ & Hst & _ & Hres); split; [exact Hst|].
  all: exact (results_after_consistent _ _ _ _ _ Hres Hc).
Qed.


Lemma validate_api_keys_truthy g q message :
  validate_api_keys g q = (true, message) ->
  truthy g && truthy q = true.
Proof.
  unfold validate_api_keys.
  destruct (truthy g), (truthy q); cbn; try discriminate. reflexivity.
Qed.

Ltac page_setup w :=
  enter w;
  match goal with
  | H : submits _ _ |- _ =>
      destruct H as (((?message & ?Hkeys) & ?Hg & ?Hq) & ?Hup & ?Hvalid);
      pose proof (validate_api_keys_truthy _ _ _ Hkeys)
  end;
  unfold cache_hit in *; wnorm; cbn [session] in *; intros;
  unfold page, sidebar, set_environ, cached_results.

Ltac use_conditions :=
  progress
    (cbn [session analysis_results quiz_results processed_file_hash
          api_keys_validated processing_status
          with_session set_api_keys_validated];
     repeat match goal with
     | H : ?x = _ |- context [?x] => rewrite H
     end;
     cbn beta zeta iota delta [negb andb orb String.eqb Ascii.eqb Bool.eqb]).

Ltac page_run := repeat first [use_conditions | wp_step].

(** A cache miss with the button pressed: the page runs the processing
    block. *)
Lemma page_processes E inp f w (Q : outcome unit -> world -> Prop) :
  submits inp f ->
  cache_hit E f (session w) = false ->
  analyze_clicked inp = true ->
  processing_status (session w) = "idle" ->
  wp (processing E f (get_file_hash E (UploadedFile.getvalue f))) Q
     (with_session (set_api_keys_validated true) w) ->
  wp (page E inp) Q w.
Proof.
  intros Hs. page_setup w. subst. page_run. assumption.
Qed.

(** A cache hit: the stored pair is shown and nothing else happens, unless
    the reprocess button was pressed, which clears the three fields and
    asks for a rerun. *)
Lemma page_serves_cache E inp f w :
  submits inp f ->
  cache_hit E f (session w) = true ->
  wp (page E inp)
     (fun r w' =>
        let shown :=
          with_event (ShowCached (analysis_results (session w))
                                 (quiz_results (session w)))
            (with_session (set_api_keys_validated true) w) in
        if reprocess_clicked inp
        then r = Raise rerun /\
             w' = with_session
                    (fun s => set_processed_file_hash None
                                (set_quiz_results None
                                   (set_analysis_results None s))) shown
        else r = Raise stop /\ w' = shown) w.
Proof.
  intros Hs. page_setup w. subst. page_run.
  - split; reflexivity.
  - split; reflexivity.
Qed.

(** A cache miss without a click on the analyze button: the page only
    records that the keys are valid. *)
Lemma page_waits E inp f w :
  submits inp f ->
  cache_hit E f (session w) = false ->
  analyze_clicked inp = false ->
  wp (page E inp)
     (fun r w' =>
        r = Return tt /\
        w' = with_session (set_api_keys_validated true) w) w.
Proof.
  intros Hs. page_setup w. subst. page_run.
  all: split; reflexivity.
Qed.

(** *** What the two retry loops do *)

Lemma loop_exhausted_trace E site ev e w :
  trace (exhausted E site ev e w)
  = (trace w ++
     [ev 0%nat; Sleep 2; ev 1%nat; Sleep 2; ev 2%nat;
      StError site (exn_msg e); CleanupTempFiles (temp_files w)] ++
     cleanup_log E (temp_files w) (disk w))%list.
Proof. reflexivity. Qed.

(** Both loops, when every attempt fails and when one gets through. *)
Lemma loop_attempts E site ev attempt w
    (Hexc : forall i e, attempt i = Raise e ->
                        is_Exception (exn_class e) = true)
    (Htot : forall i, attempt i <> Diverge) :
  let loop := retry_loop E site ev attempt (S max_retries) 0 None in
  ((forall i, (i < max_retries)%nat -> fails (attempt i)) ->
     exists e, attempt 2%nat = Raise e /\
       loop w = (Raise stop, exhausted E site ev e w)) /\
  (forall k text, succeeds_at attempt k text ->
     loop w = (Return (Some text), add_events (rounds_from ev 0 k) w)).
Proof.
  cbv zeta. split.
  - intros Hall.
    destruct (loop_cases E site ev attempt Hexc Htot w)
      as [(k & text & Hk & _) | (e & He & _ & Hl)].
    + destruct (succeeds_not_all_fail _ _ _ Hk Hall).
    + eauto.
  - intros k text Hk.
    destruct (loop_cases E site ev attempt Hexc Htot w)
      as [(k' & text' & Hk' & Hl) | (e & He & Hall & _)].
    + destruct (succeeds_at_unique _ _ _ _ _ Hk Hk') as [-> ->]. exact Hl.
    + destruct (succeeds_not_all_fail _ _ _ Hk Hall).
Qed.

(** C2.  In either loop: when all of the first three attempts fail, the
    agent is asked exactly three times, with a two-second sleep after the
    first and after the second attempt and none after the third, and only
    then is the failure shown (followed by the clean-up and [st.stop()]);
    when attempt [k] is the first to succeed, the loop ends right after it:
    [k] failed rounds, each followed by its sleep, then the successful call
    and nothing more. *)
Theorem retry_loops_attempts (E : env) (knowledge_text : string) (w : world) :
  ((forall i, (i < max_retries)%nat -> fails (analysis_attempt E i)) ->
     exists e, analysis_attempt E 2 = Raise e /\
       fst (analysis_loop E w) = Raise stop /\
       trace (snd (analysis_loop E w))
       = (trace w ++
          [VideoAgentRun 0; Sleep 2; VideoAgentRun 1; Sleep 2;
           VideoAgentRun 2; StError AnalysisFailed (exn_msg e);
           CleanupTempFiles (temp_files w)] ++
          cleanup_log E (temp_files w) (disk w))%list) /\
  (forall k text, succeeds_at (analysis_attempt E) k text ->
     analysis_loop E w
     = (Return (Some text), add_events (rounds_from VideoAgentRun 0 k) w)) /\
  ((forall i, (i < max_retries)%nat ->
      fails (quiz_attempt E knowledge_text i)) ->
     exists e, quiz_attempt E knowledge_text 2 = Raise e /\
       fst (quiz_loop E knowledge_text w) = Raise stop /\
       trace (snd (quiz_loop E knowledge_text w))
       = (trace w ++
          [QuizAgentRun knowledge_text 0; Sleep 2;
           QuizAgentRun knowledge_text 1; Sleep 2;
           QuizAgentRun knowledge_text 2; StError QuizFailed (exn_msg e);
           CleanupTempFiles (temp_files w)] ++
          cleanup_log E (temp_files w) (disk w))%list) /\
  (forall k text, succeeds_at (quiz_attempt E knowledge_text) k text ->
     quiz_loop E knowledge_text w
     = (Return (Some text),
        add_events (rounds_from (QuizAgentRun knowledge_text) 0 k) w)) /\
  (forall file_paths d, forallb is_log (cleanup_log E file_paths d) = true).
Proof.
  pose proof (loop_attempts E AnalysisFailed VideoAgentRun (analysis_attempt E)
                w (analysis_attempt_exc E) (analysis_attempt_total E))
    as [Ha1 Ha2].
  pose proof (loop_attempts E QuizFailed (QuizAgentRun knowledge_text)
                (quiz_attempt E knowledge_text) w
                (quiz_attempt_exc E knowledge_text)
                (quiz_attempt_total E knowledge_text))
    as [Hq1 Hq2].
  unfold analysis_loop, quiz_loop.
  split; [|split; [exact Ha2 | split; [|split; [exact Hq2|]]]].
  - intros Hall. destruct (Ha1 Hall) as (e & He & ->).
    exists e. split; [exact He|]. split; [reflexivity|].
    apply loop_exhausted_trace.
  - intros Hall. destruct (Hq1 Hall) as (e & He & ->).
    exists e. split; [exact He|]. split; [reflexivity|].
    apply loop_exhausted_trace.
  - apply cleanup_log_is_log.
Qed.

Lemma retry_loops_attempts_witness :
  (exists e, analysis_attempt gemini_down 2 = Raise e /\
     fst (analysis_loop gemini_down (start new_session)) = Raise stop /\
     trace (snd (analysis_loop gemini_down (start new_session)))
     = ([] ++
        [VideoAgentRun 0; Sleep 2; VideoAgentRun 1; Sleep 2;
         VideoAgentRun 2; StError AnalysisFailed (exn_msg e);
         CleanupTempFiles []] ++
        cleanup_log gemini_down [] ∅)%list) /\
  quiz_loop calm description (start new_session)
  = (Return (Some quiz),
     add_events (rounds_from (QuizAgentRun description) 0 0)
       (start new_session)).
Proof.
  split.
  - apply (proj1 (retry_loops_attempts gemini_down description
                    (start new_session))).
    intros i _. eexists. reflexivity.
  - apply (proj1 (proj2 (proj2 (proj2
               (retry_loops_attempts calm description (start new_session)))))).
    split; [unfold max_retries; lia|]. split; [reflexivity|].
    intros i Hi. lia.
Defined.


(** *** A short answer and a failed call *)








(** *** Temporary files *)




(** *** What a processing run stores *)




(** *** Sessions *)

Lemma wp_conj {A} (m : M world A) (Q1 Q2 : outcome A -> world -> Prop) w :
  wp m Q1 w -> wp m Q2 w -> wp m (fun r w' => Q1 r w' /\ Q2 r w') w.
Proof. intros [H1] [H2]. constructor. now split. Qed.

Lemma initialize_store_of s : initialize_session_state (store_of s) = s.
Proof. now destruct s. Qed.

Lemma session_after_step E inp b :
  session (start (step E inp b)) = session (snd (run_script E inp b)).
Proof. unfold step, start. cbn [session store]. apply initialize_store_of. Qed.

Lemma run_script_without_rerun E inp b :
  fst (page E inp (start b)) = Return tt \/
  fst (page E inp (start b)) = Raise stop ->
  run_script E inp b = page E inp (start b).
Proof.
  unfold run_script. destruct (page E inp (start b)) as [[u|e|] w]; cbn [fst].
  - reflexivity.
  - intros [H | H]; [discriminate|]. injection H as ->. reflexivity.
  - reflexivity.
Qed.

Lemma run_script_with_rerun E inp b w :
  page E inp (start b) = (Raise rerun, w) ->
  run_script E inp b = page E (without_clicks inp) w.
Proof. unfold run_script. now intros ->. Qed.

Lemma run_script_settled E inp b :
  settled (session (start b)) -> settled (session (snd (run_script E inp b))).
Proof.
  intros Hs. unfold run_script.
  pose proof (wp_elim _ _ _ (page_settled E inp (start b) Hs)) as H1.
  destruct (page E inp (start b)) as [[u|e|] w]; cbn [fst snd] in *; auto.
  destruct (exn_class e); cbn [snd]; auto.
  exact (wp_elim _ _ _ (page_settled E (without_clicks inp) w H1)).
Qed.

Lemma reachable_settled b : reachable b -> settled (session (start b)).
Proof.
  induction 1 as [tmp | E inp b _ IH].
  - split; [reflexivity|]. intros H. now destruct H.
  - rewrite session_after_step. now apply run_script_settled.
Qed.

(** C9.  In every state a session can reach, a stored file hash comes with
    a stored description and a stored quiz. *)
Theorem stored_hash_has_both_results (b : browser) :
  reachable b ->
  processed_file_hash (initialize_session_state (store b)) <> None ->
  analysis_results (initialize_session_state (store b)) <> None /\
  quiz_results (initialize_session_state (store b)) <> None.
Proof.
  intros Hb. destruct (reachable_settled b Hb) as [_ Hc]. exact Hc.
Qed.

Lemma stored_hash_has_both_results_witness :
  analysis_results
    (initialize_session_state
       (store (step calm upload_and_analyze new_session))) <> None /\
  quiz_results
    (initialize_session_state
       (store (step calm upload_and_analyze new_session))) <> None.
Proof.
  apply (stored_hash_has_both_results (step calm upload_and_analyze new_session)).
  - apply reachable_step. apply (reachable_start ∅).
  - vm_compute. discriminate.
Defined.


(** *** The cache *)

Lemma completes_unique E f a q a' q' :
  completes E f a q -> completes E f a' q' -> a = a' /\ q = q'.
Proof.
  intros (_ & (k & Hk) & _ & (j & Hj)) (_ & (k' & Hk') & _ & (j' & Hj')).
  destruct (succeeds_at_unique _ _ _ _ _ Hk Hk') as [_ <-].
  destruct (succeeds_at_unique _ _ _ _ _ Hj Hj') as [_ <-].
  now split.
Qed.

Lemma completes_truthy E f a q :
  completes E f a q -> truthy a = true /\ truthy q = true.
Proof.
  intros (_ & (k & _ & Hk & _) & _ & (j & _ & Hj & _)).
  apply analysis_attempt_returns in Hk. apply quiz_attempt_returns in Hj.
  tauto.
Qed.

Lemma submits_without_clicks inp f :
  submits inp f -> submits (without_clicks inp) f.
Proof. intros H. exact H. Qed.

(** A run that processes the upload and completes stores the pair under the
    hash of the bytes. *)
Lemma run_that_completes E inp f b a q :
  settled (session (start b)) ->
  submits inp f -> analyze_clicked inp = true ->
  cache_hit E f (session (start b)) = false ->
  completes E f a q ->
  analysis_results (session (snd (run_script E inp b))) = Some a /\
  quiz_results (session (snd (run_script E inp b))) = Some q /\
  processed_file_hash (session (snd (run_script E inp b)))
  = Some (get_file_hash E (UploadedFile.getvalue f)).
Proof.
  intros [Hidle _] Hs Hclick Hmiss Hc.
  pose proof (wp_elim _ _ _
    (page_processes E inp f (start b) _ Hs Hmiss Hclick Hidle
       (processing_session E f _ _))) as (Hr & _ & _ & Hres).
  rewrite (run_script_without_rerun _ _ _ Hr).
  destruct Hres as [(a' & q' & Hc' & Ha & Hq & Hh) | (Hn & _)].
  - destruct (completes_unique _ _ _ _ _ _ Hc Hc') as [-> ->]. auto.
  - destruct Hn. eauto.
Qed.

(** A second run on a cached file shows the stored pair and stops. *)
Lemma run_on_cached_file E inp f b :
  submits inp f ->
  cache_hit E f (session (start b)) = true ->
  reprocess_clicked inp = false ->
  run_script E inp b
  = (Raise stop,
     with_event (ShowCached (analysis_results (session (start b)))
                            (quiz_results (session (start b))))
       (with_session (set_api_keys_validated true) (start b))).
Proof.
  intros Hs Hhit Hre.
  pose proof (wp_elim _ _ _ (page_serves_cache E inp f (start b) Hs Hhit)) as H.
  cbv zeta in H. rewrite Hre in H. destruct H as [Hr Hw].
  rewrite (run_script_without_rerun _ _ _ (or_intror Hr)).
  destruct (page E inp (start b)) as [r w]. cbn [fst snd] in *. congruence.
Qed.

(** The reprocess button: the pair is shown, the three fields are cleared
    and the page runs once more, which changes nothing else. *)
Lemma run_with_reprocess E inp f b :
  submits inp f ->
  cache_hit E f (session (start b)) = true ->
  reprocess_clicked inp = true ->
  run_script E inp b
  = (Return tt,
     with_session
       (fun s => set_api_keys_validated true
                   (set_processed_file_hash None
                      (set_quiz_results None (set_analysis_results None s))))
       (with_event (ShowCached (analysis_results (session (start b)))
                               (quiz_results (session (start b))))
          (with_session (set_api_keys_validated true) (start b)))).
Proof.
  intros Hs Hhit Hre.
  pose proof (wp_elim _ _ _ (page_serves_cache E inp f (start b) Hs Hhit)) as H.
  cbv zeta in H. rewrite Hre in H. destruct H as [Hr Hw].
  assert (Hp : page E inp (start b)
               = (Raise rerun, snd (page E inp (start b))))
    by (destruct (page E inp (start b)); cbn [fst snd] in *; congruence).
  rewrite (run_script_with_rerun _ _ _ _ Hp), Hw.
  match goal with |- page _ _ ?w = _ =>
    pose proof (wp_elim _ _ _
      (page_waits E (without_clicks inp) f w
         (submits_without_clicks _ _ Hs) eq_refl eq_refl)) as [Hr' Hw']
  end.
  match goal with |- ?p = _ => destruct p as [r w'] end.
  cbn [fst snd] in *. subst. reflexivity.
Qed.

(** A run that processes the upload asks the first agent as soon as the
    video is loaded. *)
Lemma run_that_processes E inp f b p :
  settled (session (start b)) ->
  submits inp f -> analyze_clicked inp = true ->
  cache_hit E f (session (start b)) = false ->
  reaches_analysis E f p ->
  In (VideoAgentRun 0) (trace (snd (run_script E inp b))).
Proof.
  intros [Hidle _] Hs Hclick Hmiss Hreach.
  pose proof (wp_elim _ _ _
    (page_processes E inp f (start b) _ Hs Hmiss Hclick Hidle
       (wp_conj _ _ _ _ (processing_session E f _ _)
          (processing_trace E f _ _))))
    as ((Hr & _) & evs & Ht & _ & _ & Hin).
  rewrite (run_script_without_rerun _ _ _ Hr), Ht.
  apply in_or_app. right. eauto.
Qed.


Lemma calm_run_completes : completes calm lecture description quiz.
Proof.
  split; [exists "/tmp/tmpk3.mp4"; repeat split; discriminate|].
  split; [exists 0%nat; split; [unfold max_retries; lia|];
          split; [vm_compute; reflexivity | intros i Hi; lia]|].
  split; [reflexivity|].
  exists 0%nat. split; [unfold max_retries; lia|].
  split; [vm_compute; reflexivity | intros i Hi; lia].
Defined.

Lemma lecture_is_submitted inp :
  gemini_api_key inp = gemini_key -> groq_api_key inp = groq_key ->
  uploaded_file inp = Some lecture -> submits inp lecture.
Proof.
  intros Hg Hq Hu. split; [|split; [exact Hu | vm_compute; reflexivity]].
  unfold keys_accepted. rewrite Hg, Hq.
  split; [eexists; vm_compute; reflexivity|].
  split; vm_compute; reflexivity.
Defined.


(** *** Two ways in which a run goes wrong *)

Lemma processing_after_failed_write E f h w p msg :
  st_calls E UiBeforeSave = Returns tt ->
  NamedTemporaryFile E (suffix_of f) = Returns p ->
  tmp_file_write E = Throws msg ->
  wp (processing E f h)
     (fun r w' =>
        r = Return tt /\ temp_files w' = [] /\
        disk w' = <[p := []]> (disk w) /\
        trace w' = (trace w ++
                    [StError Unexpected msg; CleanupTempFiles []])%list) w.
Proof.
  unfold suffix_of. intros Hui Hname Hwrite. enter w.
  unfold processing, save_upload.
  wp_run.
  all: units; try congruence.
  wnorm. unfold for_file_path.
  match goal with
  | H1 : NamedTemporaryFile _ _ = Returns ?a,
    H2 : tmp_file_write _ = Throws ?m |- _ =>
      assert (a = p) as -> by congruence;
      assert (m = msg) as -> by congruence
  end.
  split; [reflexivity|]. split; [reflexivity|]. split; [reflexivity|].
  cbn [cleanup_log]. now rewrite app_nil_r, <- app_assoc.
Qed.

(** When the write into the temporary file raises (line 314), the file
    NamedTemporaryFile has created is not in [temp_files] yet: the outer
    handler calls cleanup_temp_files with an empty list and the file stays
    on disk. *)
Theorem failed_write_leaves_the_file
    (E : env) (f : UploadedFile.t) (h : string) (w : world)
    (p msg : string) :
  st_calls E UiBeforeSave = Returns tt ->
  NamedTemporaryFile E (suffix_of f) = Returns p ->
  tmp_file_write E = Throws msg ->
  fst (processing E f h w) = Return tt /\
  trace (snd (processing E f h w))
  = (trace w ++ [StError Unexpected msg; CleanupTempFiles []])%list /\
  disk (snd (processing E f h w)) !! p = Some [].
Proof.
  intros Hui Hname Hwrite.
  destruct (wp_elim _ _ _
              (processing_after_failed_write E f h w p msg Hui Hname Hwrite))
    as (Hr & _ & Hd & Ht).
  split; [exact Hr|]. split; [exact Ht|].
  rewrite Hd. apply lookup_insert_eq.
Qed.

Lemma failed_write_leaves_the_file_witness :
  trace (snd (processing disk_full lecture "RIFF" (start new_session)))
  = ([] ++ [StError Unexpected "No space left on device";
            CleanupTempFiles []])%list /\
  disk (snd (processing disk_full lecture "RIFF" (start new_session)))
    !! "/tmp/tmpk3.mp4" = Some [].
Proof.
  destruct (failed_write_leaves_the_file disk_full lecture "RIFF"
              (start new_session) "/tmp/tmpk3.mp4"
              "No space left on device" eq_refl eq_refl eq_refl)
    as (_ & Ht & Hd).
  split; [exact Ht | exact Hd].
Defined.

(** Line 389 annotates [response] with RunResponse, a name the page never
    imports (line 14 imports RunOutput).  Where the annotation of a
    module-level assignment is evaluated when the statement runs, every
    attempt of the first loop fails, with NameError when the agent has
    answered, so no run completes. *)
Theorem unbound_annotation_fails_every_attempt (E : env) :
  eager_annotations E = true ->
  (forall i, fails (analysis_attempt E i)) /\
  (forall i r, gemini_run E i = Returns r ->
     analysis_attempt E i
     = Raise (mk_exn NameError "name 'RunResponse' is not defined")) /\
  (forall f a q, ~ completes E f a q).
Proof.
  intros He.
  assert (Hf : forall i, fails (analysis_attempt E i)).
  { intros i. unfold fails, analysis_attempt. rewrite He.
    destruct (gemini_run E i); eexists; reflexivity. }
  split; [exact Hf|]. split.
  - intros i r Hr. unfold analysis_attempt. now rewrite Hr, He.
  - intros f a q (_ & (k & Hk) & _).
    apply (succeeds_not_all_fail _ _ _ Hk). intros i _. apply Hf.
Qed.

Lemma unbound_annotation_fails_every_attempt_witness :
  analysis_attempt cpython_3_13 0
  = Raise (mk_exn NameError "name 'RunResponse' is not defined") /\
  ~ completes cpython_3_13 lecture description quiz.
Proof.
  destruct (unbound_annotation_fails_every_attempt cpython_3_13 eq_refl)
    as (_ & Hn & Hc).
  split; [exact (Hn 0%nat (answer description) eq_refl) | apply Hc].
Defined.

End AppFacts.

(* ===================================================================== *)
(** * Facts about Version 2.py *)
(* ===================================================================== *)

Module BatchFacts.
Import Py Batch BatchSpec Logic LogicFacts.
Local Open Scope py_scope.

Lemma wp_load_bind {B} name (k : value -> M state B)
    (Q : outcome B -> state -> Prop) s :
  (forall v, globals s !! name = Some v -> wp (k v) Q s) ->
  (globals s !! name = None ->
   Q (Raise (mk_exn NameError ("name '" ++ name ++ "' is not defined"))) s) ->
  wp (bind (load_name name) k) Q s.
Proof.
  destruct (globals s !! name) as [v|] eqn:Hg; intros H1 H2; constructor;
    cbv [bind load_name gets ret raise]; rewrite Hg.
  - destruct (H1 v eq_refl) as [H]. exact H.
  - now apply H2.
Qed.

Lemma wp_script_call_bind {A B} (r : call_result A) (k : A -> M state B)
    (Q : outcome B -> state -> Prop) s :
  (forall a, r = Returns a -> wp (k a) Q s) ->
  (forall msg, r = Throws msg -> Q (Raise (mk_exn Exception_ msg)) s) ->
  wp (bind (call r) k) Q s.
Proof.
  intros H1 H2. destruct r as [a|msg].
  - destruct (H1 a eq_refl) as [H]. now constructor.
  - constructor. now apply H2.
Qed.

Ltac bnorm := cbn [globals lines_read out fst snd exn_class exn_msg].

Ltac bside := bnorm; reflexivity.

(** A name that was never bound cannot be found. *)
Ltac unbound H :=
  exfalso; cbn [globals lines_read out fst snd] in H;
  rewrite ?lookup_insert_ne in H by discriminate;
  congruence.

Ltac bstep :=
  lazymatch goal with
  | |- wp (bind (bind _ _) _) _ _ => apply wp_bind_assoc
  | |- wp (bind (ret _) _) _ _ => apply wp_ret_bind
  | |- wp (bind (raise _ _) _) _ _ => apply wp_raise_bind
  | |- wp (bind (lift _) _) _ _ => apply wp_lift_bind
  | |- wp (bind (store_name _ _) _) _ _ => eapply wp_modify_bind; [bside|]
  | |- wp (bind (emit _) _) _ _ => eapply wp_modify_bind; [bside|]
  | |- wp (bind (modify _) _) _ _ => eapply wp_modify_bind; [bside|]
  | |- wp (bind (gets _) _) _ _ => eapply wp_gets_bind; [bside|]
  | |- wp (bind (load_name _) _) _ _ =>
      apply wp_load_bind;
      [ let v := fresh "v" in let Hv := fresh "Hv" in
        intros v Hv; try solve [unbound Hv]
      | intros ? ]
  | |- wp (bind (call _) _) _ _ =>
      apply wp_script_call_bind; [intros ? ? | intros ? ?]
  | |- wp (bind (try_except _ _ _) _) _ _ => apply wp_try_bind
  | |- wp (bind (ask_for_path _ _) _) _ _ => fail
  | |- wp (bind (if ?b then _ else _) _) _ _ => destruct b eqn:?
  | |- wp (bind (match ?x with _ => _ end) _) _ _ => destruct x eqn:?
  | |- wp (ret _) _ _ => apply wp_ret
  | |- wp (ask_for_path _ _) _ _ => fail
  | |- wp (bind _ _) _ _ => fail
  | |- wp _ _ _ => apply wp_last
  | |- after_try _ _ _ _ _ _ =>
      unfold after_try at 1;
      cbn beta iota delta [exn_class is_Exception]
  end; cbn beta zeta iota delta [negb andb orb].

Ltac brun := repeat bstep.

Ltac still_before Hc Hk Hq Hp :=
  unfold before_the_quiz_step; bnorm;
  rewrite ?existsb_app, ?Hq, ?Hp;
  rewrite ?lookup_insert_ne by discriminate;
  auto.

Ltac ended Hc Hk Hq Hp :=
  unfold ends_before_the_quiz, reaches_the_quiz_step; bnorm;
  rewrite ?existsb_app, ?Hq, ?Hp;
  rewrite ?lookup_insert_ne by discriminate;
  cbn [existsb is_quiz_request is_pretty_printed orb];
  split; [exact Hc|]; split; [exact Hk|]; split; [reflexivity|];
  split; [discriminate|];
  first [discriminate | intros _; reflexivity].

(** The input loop binds neither of the two names and prints only. *)
Lemma ask_for_path_keeps E fuel s :
  before_the_quiz_step s ->
  wp (ask_for_path E fuel) (fun _ s' => before_the_quiz_step s') s.
Proof.
  revert s. induction fuel as [|fuel IH]; intros s Hs.
  - cbn [ask_for_path]. now constructor.
  - destruct s as [g n o]. destruct Hs as (Hc & Hk & Hq & Hp).
    cbn [globals out] in Hc, Hk, Hq, Hp.
    cbn [ask_for_path]. unfold input. brun.
    all: try solve [still_before Hc Hk Hq Hp].
    apply wp_unlast, IH. still_before Hc Hk Hq Hp.
Qed.

Lemma bind_imports_keeps names s :
  ~ In "convert_test" names -> ~ In "knowledge_text" names ->
  before_the_quiz_step s ->
  wp (bind_imports names) (fun r s' => r = Return tt /\ before_the_quiz_step s') s.
Proof.
  revert s. induction names as [|name names IH]; intros s Hc Hk Hs.
  - cbn [bind_imports]. now constructor.
  - cbn [bind_imports]. eapply wp_modify_bind; [reflexivity|].
    apply IH; [intros H; apply Hc; now right
              | intros H; apply Hk; now right |].
    destruct Hs as (H1 & H2 & H3 & H4). unfold before_the_quiz_step. bnorm.
    rewrite !lookup_insert_ne; [auto | |].
    + intros ->. apply Hk. now left.
    + intros ->. apply Hc. now left.
Qed.

(** Every run of the script ends before a quiz is requested. *)
Lemma version_2_ends E fuel :
  wp (version_2 E fuel) ends_before_the_quiz initial.
Proof.
  unfold version_2.
  apply wp_script_call_bind; [intros [] _ | intros msg _].
  2:{ unfold ends_before_the_quiz, reaches_the_quiz_step, initial.
      cbn [globals out existsb].
      repeat (split; [first [apply lookup_empty | reflexivity | discriminate]|]).
      discriminate. }
  apply wp_bind.
  eapply wp_mono;
    [ apply (bind_imports_keeps imported_names initial);
      [ cbn; intuition discriminate | cbn; intuition discriminate
      | now repeat split ] |].
  intros r s1 [-> Hs1]. cbn beta iota.
  apply wp_bind.
  eapply wp_mono; [apply (ask_for_path_keeps E fuel s1 Hs1)|].
  intros r s2 (Hc & Hk & Hq & Hp). destruct s2 as [g n o].
  cbn [globals out] in Hc, Hk, Hq, Hp.
  destruct r as [[]|e|]; cbn beta iota.
  2,3: unfold ends_before_the_quiz, reaches_the_quiz_step; cbn [globals out];
    (split; [exact Hc|]; split; [exact Hk|]; split; [exact Hq|];
     split; [discriminate|]);
    rewrite Hp; discriminate.
  brun.
  all: ended Hc Hk Hq Hp.
Qed.

(** C8. Version 2.py never binds [convert_test]: whenever a run gets as far
    as the quiz step (line 239 has returned), line 242 reads the unbound
    name and the run ends there with a NameError; [knowledge_text] is left
    unbound and no quiz is requested from the quiz agent. *)
Theorem quiz_step_ends_in_name_error (E : env) (fuel : nat) :
  reaches_the_quiz_step (snd (version_2 E fuel initial)) ->
  fst (version_2 E fuel initial) = Raise undefined_convert_test /\
  globals (snd (version_2 E fuel initial)) !! "convert_test" = None /\
  globals (snd (version_2 E fuel initial)) !! "knowledge_text" = None /\
  existsb is_quiz_request (out (snd (version_2 E fuel initial))) = false.
Proof.
  intros Hreach.
  destruct (wp_elim _ _ _ (version_2_ends E fuel)) as (Hc & Hk & Hq & _ & Hr).
  split; [exact (Hr Hreach)|]. split; [exact Hc|]. split; [exact Hk|exact Hq].
Qed.

(** A run in which the user finds the file at the second try and both the
    file and the video agent answer: it gets to the quiz step and stops
    there. *)
Lemma quiz_step_ends_in_name_error_witness :
  reaches_the_quiz_step (snd (version_2 second_try 2 initial)) /\
  fst (version_2 second_try 2 initial) = Raise undefined_convert_test /\
  existsb is_quiz_request (out (snd (version_2 second_try 2 initial))) = false.
Proof.
  assert (H : reaches_the_quiz_step (snd (version_2 second_try 2 initial)))
    by (vm_compute; reflexivity).
  split; [exact H|].
  destruct (quiz_step_ends_in_name_error second_try 2 H) as (Hr & _ & _ & Hq).
  split; [exact Hr | exact Hq].
Defined.

(** No run of Version 2.py, whatever is typed and whatever the services
    answer, requests a quiz, and none runs to the end of the script. *)
Theorem version_2_never_requests_a_quiz (E : env) (fuel : nat) :
  existsb is_quiz_request (out (snd (version_2 E fuel initial))) = false /\
  fst (version_2 E fuel initial) <> Return tt.
Proof.
  destruct (wp_elim _ _ _ (version_2_ends E fuel)) as (_ & _ & Hq & Hr & _).
  split; [exact Hq | exact Hr].
Qed.

End BatchFacts.

(* ===================================================================== *)
(** * The checks in front of the processing block *)
(* ===================================================================== *)

Module GateFacts.
Import Py StreamlitApp AppSpec PageSpec Logic LogicFacts Examples Cases AppFacts.
Local Open Scope py_scope.

(** validate_api_keys accepts a pair of keys exactly when the Gemini key
    starts with AI and has at least 30 characters and the Groq key starts
    with gsk_ and has at least 40; the tests run in the order emptiness,
    Gemini key, Groq key, and the first that fails decides the message. *)
Theorem validate_api_keys_decision (gemini_key groq_key : string) :
  (fst (validate_api_keys gemini_key groq_key) = true <->
     startswith gemini_key "AI" = true /\ (30 <= len gemini_key)%Z /\
     startswith groq_key "gsk_" = true /\ (40 <= len groq_key)%Z) /\
  (validate_api_keys gemini_key groq_key
   = (true, "API keys validated successfully") <->
     fst (validate_api_keys gemini_key groq_key) = true) /\
  (validate_api_keys gemini_key groq_key
   = (false, "Both API keys are required") <->
     gemini_key = EmptyString \/ groq_key = EmptyString) /\
  (validate_api_keys gemini_key groq_key
   = (false, "Invalid Gemini API key format") <->
     gemini_key <> EmptyString /\ groq_key <> EmptyString /\
     (startswith gemini_key "AI" = false \/ (len gemini_key < 30)%Z)) /\
  (validate_api_keys gemini_key groq_key
   = (false, "Invalid Groq API key format") <->
     groq_key <> EmptyString /\
     startswith gemini_key "AI" = true /\ (30 <= len gemini_key)%Z /\
     (startswith groq_key "gsk_" = false \/ (len groq_key < 40)%Z)).
Proof.
  unfold validate_api_keys.
  assert (Hnil : forall p, p <> EmptyString -> startswith EmptyString p = false)
    by (intros [|c p] Hp; [congruence | reflexivity]).
  assert (Hlen : len EmptyString = 0%Z) by reflexivity.
  destruct gemini_key as [|a g]; [|set (G := String a g)];
    (destruct groq_key as [|b q]; [|set (Q := String b q)]);
    rewrite ?(Hnil "AI"), ?(Hnil "gsk_"), ?Hlen by discriminate;
    try assert (HG : G <> EmptyString) by discriminate;
    try assert (HQ : Q <> EmptyString) by discriminate;
    try assert (HtG : truthy G = true) by reflexivity;
    try assert (HtQ : truthy Q = true) by reflexivity;
    try clearbody G; try clearbody Q;
    rewrite ?HtG, ?HtQ;
    cbn [truthy negb orb fst];
    repeat match goal with
    | |- context [startswith ?s ?p] => destruct (startswith s p)
    | |- context [(len ?s <? ?n)%Z] => destruct (Z.ltb_spec (len s) n)
    end;
    cbn [truthy negb orb fst];
    repeat split; intros; try congruence; try lia;
    intuition (first [congruence | lia | idtac]).
Qed.

Lemma page_with_refused_keys E inp w :
  fst (validate_api_keys (gemini_api_key inp) (groq_api_key inp)) = false ->
  wp (page E inp)
     (fun r w' =>
        r = Raise stop /\
        w' = {| session := set_api_keys_validated false (session w);
                temp_files := temp_files w;
                disk := disk w;
                trace := trace w ++
                         keys_refused_events (gemini_api_key inp)
                           (groq_api_key inp) |}) w.
Proof.
  intros Hk. enter w. unfold page, sidebar, keys_refused_events.
  destruct (validate_api_keys (gemini_api_key inp) (groq_api_key inp))
    as [is_valid message].
  cbn [fst snd] in *. subst is_valid.
  wp_run.
  all: wnorm.
  all: split; [reflexivity|].
  all: unfold with_event, with_session;
    cbn [session temp_files disk trace app];
    rewrite <- ?app_assoc; reflexivity.
Qed.

(** When validate_api_keys refuses the keys, or one of them was not typed,
    the page stops at line 194.  All it does is to mark the keys as not
    validated and to show, when both keys were typed, the error of line 167
    with validate_api_keys's message, and then the warning of line 193; the
    results in the session and the files on disk are untouched. *)
Theorem refused_keys_stop_the_page (E : env) (inp : inputs) (w : world) :
  fst (validate_api_keys (gemini_api_key inp) (groq_api_key inp)) = false ->
  page E inp w
  = (Raise stop,
     {| session := set_api_keys_validated false (session w);
        temp_files := temp_files w;
        disk := disk w;
        trace := trace w ++
                 (if truthy (gemini_api_key inp) && truthy (groq_api_key inp)
                  then [StError KeysRejected
                          (snd (validate_api_keys (gemini_api_key inp)
                                  (groq_api_key inp)))]
                  else []) ++ [StWarningKeys] |}).
Proof.
  intros Hk.
  destruct (wp_elim _ _ _ (page_with_refused_keys E inp w Hk)) as (Hr & Hw).
  unfold keys_refused_events in Hw.
  rewrite <- Hr, <- Hw. now destruct (page E inp w).
Qed.

Lemma refused_keys_stop_the_page_witness :
  page calm short_key (start new_session)
  = (Raise stop,
     {| session := set_api_keys_validated false (session (start new_session));
        temp_files := [];
        disk := ∅;
        trace := [StError KeysRejected "Invalid Gemini API key format";
                  StWarningKeys] |}) /\
  trace (snd (page calm no_keys (start new_session))) = [StWarningKeys].
Proof.
  split.
  - exact (refused_keys_stop_the_page calm short_key (start new_session)
             eq_refl).
  - now rewrite (refused_keys_stop_the_page calm no_keys (start new_session)
                   eq_refl).
Defined.

Lemma page_with_refused_file E inp f m w :
  keys_accepted inp ->
  uploaded_file inp = Some f ->
  validate_video_file (Some f) = (false, m) ->
  wp (page E inp)
     (fun r w' =>
        r = Raise stop /\
        w' = with_event (StError (FileRejected m) EmptyString)
               (with_session (set_api_keys_validated true) w)) w.
Proof.
  intros ((message & Hkeys) & Hg & Hq) Hup Hvalid.
  pose proof (validate_api_keys_truthy _ _ _ Hkeys).
  enter w. unfold page, sidebar, set_environ.
  page_run. split; reflexivity.
Qed.

(** With accepted keys, a file that validate_video_file refuses stops the
    page at line 220: the message is shown, the keys are marked as
    validated, and nothing else changes; no hash is computed, nothing is
    written to disk and no agent is called. *)
Theorem refused_file_stops_the_page
    (E : env) (inp : inputs) (f : UploadedFile.t) (m : message) (w : world) :
  keys_accepted inp ->
  uploaded_file inp = Some f ->
  validate_video_file (Some f) = (false, m) ->
  page E inp w
  = (Raise stop,
     with_event (StError (FileRejected m) EmptyString)
       (with_session (set_api_keys_validated true) w)).
Proof.
  intros Hk Hup Hv.
  destruct (wp_elim _ _ _ (page_with_refused_file E inp f m w Hk Hup Hv))
    as (Hr & Hw).
  rewrite <- Hr, <- Hw. now destruct (page E inp w).
Qed.

Lemma refused_file_stops_the_page_witness :
  page calm upload_notes (start new_session)
  = (Raise stop,
     with_event
       (StError (FileRejected (UnsupportedFormat ValidationSpec.supported_text))
          EmptyString)
       (with_session (set_api_keys_validated true) (start new_session))).
Proof.
  apply (refused_file_stops_the_page calm upload_notes notes).
  - split; [eexists; vm_compute; reflexivity|].
    split; vm_compute; reflexivity.
  - reflexivity.
  - vm_compute. reflexivity.
Defined.

End GateFacts.
(* ===================================================================== *)
(** * What a run of the page sends out and leaves behind *)
(* ===================================================================== *)

Module RunFacts.
Import Py StreamlitApp AppSpec PageSpec Logic LogicFacts Examples Cases AppFacts.
Local Open Scope py_scope.

Lemma page_without_click E inp w :
  analyze_clicked inp = false ->
  wp (page E inp)
     (fun r w' =>
        disk w' = disk w /\
        exists evs, trace w' = (trace w ++ evs)%list /\ asks_no_agent evs) w.
Proof.
  intros Hclick. enter w.
  unfold page, sidebar, set_environ, cached_results.
  rewrite Hclick.
  wp_run.
  all: wnorm.
  all: try (split; [reflexivity|]; eexists;
            split; [rewrite <- ?app_assoc; reflexivity | reflexivity]).
  all: split; [reflexivity|]; exists []; split;
    [now rewrite app_nil_r | reflexivity].
Qed.

(** Nothing is sent to either agent, and nothing is written to disk, in
    a run whose analyze button was not pressed, whatever the keys, the file
    and the session are; this holds through the rerun a click on the
    reprocess button asks for. *)
Theorem no_click_no_agent_call (E : env) (inp : inputs) (b : browser) :
  analyze_clicked inp = false ->
  asks_no_agent (trace (snd (run_script E inp b))) /\
  disk (snd (run_script E inp b)) = files b.
Proof.
  intros Hclick. unfold run_script.
  pose proof (wp_elim _ _ _ (page_without_click E inp (start b) Hclick))
    as (Hd & evs & Ht & Hev).
  destruct (page E inp (start b)) as [[u|e|] w] eqn:Hp; cbn [fst snd] in *.
  - rewrite Ht. auto.
  - assert (Hsame : asks_no_agent (trace w) /\ disk w = files b)
      by (rewrite Ht; auto).
    destruct (exn_class e); cbn [snd]; try exact Hsame.
    pose proof (wp_elim _ _ _
                  (page_without_click E (without_clicks inp) w eq_refl))
      as (Hd' & evs' & Ht' & Hev').
    rewrite Ht', Hd'. split; [|apply Hsame].
    unfold asks_no_agent in *. rewrite forallb_app.
    destruct Hsame as [-> _]. now rewrite Hev'.
  - rewrite Ht. auto.
Qed.

Lemma no_click_no_agent_call_witness :
  asks_no_agent
    (trace (snd (run_script calm upload_and_reprocess
                   (step calm upload_and_analyze new_session)))).
Proof.
  apply (no_click_no_agent_call calm upload_and_reprocess
           (step calm upload_and_analyze new_session) eq_refl).
Defined.

(** *** The files on disk *)

Lemma cleaned_disk_absent E l d p :
  d !! p = None -> cleaned_disk E l d !! p = None.
Proof.
  revert d. induction l as [|p' l IH]; intros d Hd; [exact Hd|].
  cbn [cleaned_disk]. apply IH.
  destruct (bool_decide (is_Some (d !! p'))); [|exact Hd].
  destruct (os_unlink E p'); [|exact Hd].
  destruct (decide (p' = p)) as [-> | Hne];
    [apply lookup_delete_eq | now rewrite lookup_delete_ne].
Qed.

Lemma cleaned_disk_other E l d p :
  ~ In p l -> cleaned_disk E l d !! p = d !! p.
Proof.
  revert d. induction l as [|p' l IH]; intros d Hp; [reflexivity|].
  cbn [cleaned_disk]. rewrite IH by (intros H; apply Hp; now right).
  destruct (bool_decide (is_Some (d !! p'))); [|reflexivity].
  destruct (os_unlink E p'); [|reflexivity].
  apply lookup_delete_ne. intros ->. apply Hp. now left.
Qed.

Lemma cleaned_disk_removed E l d p :
  In p l -> os_unlink E p = Returns tt -> cleaned_disk E l d !! p = None.
Proof.
  revert d. induction l as [|p' l IH]; intros d Hin Hu; [destruct Hin|].
  cbn [cleaned_disk].
  destruct (decide (p' = p)) as [-> | Hne].
  - apply cleaned_disk_absent. rewrite Hu.
    destruct (bool_decide (is_Some (d !! p))) eqn:Hb.
    + apply lookup_delete_eq.
    + apply bool_decide_eq_false in Hb.
      destruct (d !! p) eqn:Hd; [|reflexivity].
      exfalso. apply Hb. eauto.
  - destruct Hin as [Heq | Hin]; [congruence|]. now apply IH.
Qed.

Lemma cleaned_disk_kept E l d p msg :
  os_unlink E p = Throws msg -> cleaned_disk E l d !! p = d !! p.
Proof.
  intros Hu. revert d. induction l as [|p' l IH]; intros d; [reflexivity|].
  cbn [cleaned_disk]. rewrite IH.
  destruct (bool_decide (is_Some (d !! p'))); [|reflexivity].
  destruct (os_unlink E p') eqn:Hu'; [|reflexivity].
  apply lookup_delete_ne. intros ->. congruence.
Qed.

(** cleanup_temp_files touches the listed files only: a listed file whose
    deletion goes through is gone afterwards, a file whose deletion raises
    and a file that is not listed are as before; the list the caller tracks
    is not emptied. *)
Theorem cleanup_temp_files_effect
    (E : env) (file_paths : list string) (w : world) (p : string) :
  temp_files (snd (cleanup_temp_files E file_paths w)) = temp_files w /\
  (~ In p file_paths ->
   disk (snd (cleanup_temp_files E file_paths w)) !! p = disk w !! p) /\
  (In p file_paths -> os_unlink E p = Returns tt ->
   disk (snd (cleanup_temp_files E file_paths w)) !! p = None) /\
  (forall msg, os_unlink E p = Throws msg ->
   disk (snd (cleanup_temp_files E file_paths w)) !! p = disk w !! p).
Proof.
  rewrite cleanup_temp_files_returns. cbn [snd]. unfold cleaned.
  cbn [temp_files disk with_event].
  split; [reflexivity|]. split; [apply cleaned_disk_other|].
  split; [apply cleaned_disk_removed | intros msg; apply cleaned_disk_kept].
Qed.

Lemma cleanup_temp_files_effect_witness :
  disk (snd (cleanup_temp_files calm ["/tmp/a.mp4"]
               (with_disk {[ "/tmp/a.mp4" := []; "/tmp/b.mp4" := [] ]}
                  (start new_session)))) !! "/tmp/b.mp4" = Some [] /\
  disk (snd (cleanup_temp_files calm ["/tmp/a.mp4"]
               (with_disk {[ "/tmp/a.mp4" := []; "/tmp/b.mp4" := [] ]}
                  (start new_session)))) !! "/tmp/a.mp4" = None /\
  disk (snd (cleanup_temp_files read_only ["/tmp/a.mp4"]
               (with_disk {[ "/tmp/a.mp4" := []; "/tmp/b.mp4" := [] ]}
                  (start new_session)))) !! "/tmp/a.mp4" = Some [].
Proof.
  split; [|split].
  - rewrite (proj1 (proj2 (cleanup_temp_files_effect calm ["/tmp/a.mp4"]
                             (with_disk _ (start new_session))
                             "/tmp/b.mp4"))).
    + vm_compute. reflexivity.
    + intros [H | []]. discriminate H.
  - apply (proj1 (proj2 (proj2 (cleanup_temp_files_effect calm ["/tmp/a.mp4"]
                             (with_disk _ (start new_session))
                             "/tmp/a.mp4")))).
    + now left.
    + reflexivity.
  - rewrite (proj2 (proj2 (proj2 (cleanup_temp_files_effect read_only
                             ["/tmp/a.mp4"]
                             (with_disk _ (start new_session))
                             "/tmp/a.mp4"))) "Permission denied" eq_refl).
    vm_compute. reflexivity.
Defined.






End RunFacts.

(* ===================================================================== *)
(** * What the two agents are asked *)
(* ===================================================================== *)

Module AgentFacts.
Import Py StreamlitApp AppSpec PageSpec Logic LogicFacts Examples Cases AppFacts.
Local Open Scope py_scope.

Lemma rounds_from_In ev first k e :
  In e (rounds_from ev first k) ->
  e = Sleep 2 \/ exists i, (first <= i <= first + k)%nat /\ e = ev i.
Proof.
  revert first. induction k as [|k IH]; intros first; cbn [rounds_from].
  - intros [<- | []]. right. exists first. split; [lia | reflexivity].
  - intros [<- | [<- | H]].
    + right. exists first. split; [lia | reflexivity].
    + now left.
    + destruct (IH _ H) as [-> | (i & Hi & ->)]; [now left|].
      right. exists i. split; [lia | reflexivity].
Qed.

Lemma cleanup_log_In E l d e : In e (cleanup_log E l d) -> is_log e = true.
Proof.
  intros H. pose proof (cleanup_log_is_log E l d) as Hall.
  rewrite forallb_forall in Hall. now apply Hall.
Qed.

Ltac in_cases H :=
  repeat match type of H with
  | In _ (_ ++ _)%list => apply in_app_or in H; destruct H as [H | H]
  | In _ (_ :: _) => destruct H as [H | H]
  | In _ [] => destruct H
  | In _ (cleanup_log _ _ _) => apply cleanup_log_In in H; discriminate H
  | In _ (rounds_from _ _ _) =>
      apply rounds_from_In in H;
      destruct H as [H | (?i & ?Hi & H)]
  | _ = _ => first [discriminate H | injection H as H; subst]
  end.

Ltac found_the_way :=
  units; unfold reaches_analysis, saved, suffix_of;
  eexists;
  split; [split; [eassumption | split; eassumption]|];
  split; [eassumption|]; split; [eassumption|];
  split; [congruence | eassumption].

Ltac small_attempt :=
  repeat match goal with
  | H : succeeds_at _ _ _ |- _ => destruct H as (? & ? & ?)
  end;
  unfold max_retries in *; lia.

Lemma processing_agents E f h w :
  wp (processing E f h)
     (fun r w' =>
        exists evs, trace w' = (trace w ++ evs)%list /\
          (forall n, In (VideoAgentRun n) evs ->
             (n < max_retries)%nat /\ exists p, reaches_analysis E f p) /\
          (forall kt n, In (QuizAgentRun kt n) evs ->
             (n < max_retries)%nat /\
             st_calls E UiAfterAnalysis = Returns tt /\
             exists k, succeeds_at (analysis_attempt E) k kt)) w.
Proof.
  enter w.
  unfold processing, save_upload, load_video.
  wp_run.
  all: wnorm.
  all: eexists; split; [rewrite <- ?app_assoc; reflexivity|].
  all: split; [intros ?m Hin | intros ?kt ?m Hin]; in_cases Hin.
  all: try (split; [small_attempt | found_the_way]).
  all: split; [small_attempt|]; units; split; [assumption | eauto].
Qed.

(** In a processing run the first agent is asked only once the upload has
    been saved and read back non-empty, and the second agent only with the
    description the first loop of this very run ended with (never with a
    description kept in the session from an earlier run); neither is asked
    more than three times. *)
Theorem agents_are_asked_in_order
    (E : env) (f : UploadedFile.t) (h : string) (w : world) :
  exists evs,
    trace (snd (processing E f h w)) = (trace w ++ evs)%list /\
    (forall n, In (VideoAgentRun n) evs ->
       (n < max_retries)%nat /\ exists p, reaches_analysis E f p) /\
    (forall kt n, In (QuizAgentRun kt n) evs ->
       (n < max_retries)%nat /\
       st_calls E UiAfterAnalysis = Returns tt /\
       exists k, succeeds_at (analysis_attempt E) k kt).
Proof. exact (wp_elim _ _ _ (processing_agents E f h w)). Qed.

Lemma agents_are_asked_in_order_witness :
  In (QuizAgentRun description 2)
     (trace (snd (processing quiz_down lecture "RIFF" (start new_session))))
  /\ exists k, succeeds_at (analysis_attempt quiz_down) k description.
Proof.
  destruct (agents_are_asked_in_order quiz_down lecture "RIFF"
              (start new_session)) as (evs & Ht & _ & Hq).
  assert (Hin : In (QuizAgentRun description 2)
                  (trace (snd (processing quiz_down lecture "RIFF"
                                 (start new_session)))))
    by (vm_compute; tauto).
  split; [exact Hin|].
  rewrite Ht in Hin. cbn [trace start app] in Hin.
  exact (proj2 (proj2 (Hq description 2%nat Hin))).
Defined.

End AgentFacts.

(* ===================================================================== *)
(** * The input loop of the batch scripts *)
(* ===================================================================== *)

Module ScriptFacts.
Import Py Batch BatchSpec ScriptSpec Logic LogicFacts BatchFacts.
Local Open Scope py_scope.

(** One round of the loop, lines 163-169. *)
Lemma ask_for_path_round E fuel s v :
  globals s !! "Path" = Some v ->
  ask_for_path E (S fuel) s
  = if is_file E (stdin E (lines_read s))
    then (Return tt,
          printed "Video file found"
            (answer_line (stdin E (lines_read s)) s))
    else ask_for_path E fuel
           (printed "Error: File not found"
              (answer_line (stdin E (lines_read s)) s)).
Proof.
  intros Hpath. destruct s as [g n o]. cbn [globals lines_read] in *.
  cbn [ask_for_path].
  unfold bind at 1. unfold input. unfold bind at 1. unfold gets at 1.
  cbn [lines_read]. unfold bind at 1. unfold modify at 1. unfold ret at 1.
  cbn [globals out].
  unfold bind at 1. unfold store_name at 1. unfold modify at 1.
  cbn [globals lines_read out].
  unfold bind at 1. unfold load_name at 1. unfold bind at 1.
  unfold gets at 1. cbn [globals].
  rewrite lookup_insert_ne by discriminate. rewrite Hpath.
  unfold ret at 1.
  unfold bind at 1. unfold load_name at 1. unfold bind at 1.
  unfold gets at 1. cbn [globals].
  rewrite lookup_insert_eq. unfold ret at 1.
  unfold bind at 1. unfold store_name at 1. unfold modify at 1.
  cbn [globals lines_read out as_path].
  unfold bind at 1. unfold load_name at 1. unfold bind at 1.
  unfold gets at 1. cbn [globals].
  rewrite lookup_insert_eq. unfold ret at 1. cbn [as_path].
  destruct (is_file E (stdin E n)).
  - reflexivity.
  - unfold bind at 1. unfold emit at 1. unfold modify at 1.
    cbn [globals lines_read out]. reflexivity.
Qed.

Lemma first_file_at_next E n k :
  first_file_at E n (S k) ->
  is_file E (stdin E n) = false /\ first_file_at E (S n) k.
Proof.
  intros [Hno Hyes]. split.
  - rewrite <- (Nat.add_0_r n). apply Hno. lia.
  - split.
    + intros i Hi. replace (S n + i)%nat with (n + S i)%nat by lia.
      apply Hno. lia.
    + now replace (S n + k)%nat with (n + S k)%nat by lia.
Qed.

Lemma path_stays_bound line text s v :
  globals s !! "Path" = Some v ->
  globals (printed text (answer_line line s)) !! "Path" = Some v.
Proof.
  intros H. cbn [printed answer_line globals].
  now rewrite !lookup_insert_ne by discriminate.
Qed.

Lemma ask_for_path_finds E k : forall fuel s v,
  globals s !! "Path" = Some v ->
  first_file_at E (lines_read s) k -> (k < fuel)%nat ->
  ask_for_path E fuel s = (Return tt, asked E k s).
Proof.
  induction k as [|k IH]; intros [|fuel] s v Hpath Hfirst Hfuel; try lia.
  - rewrite (ask_for_path_round E fuel s v Hpath).
    destruct Hfirst as [_ Hyes]. rewrite Nat.add_0_r in Hyes.
    now rewrite Hyes.
  - rewrite (ask_for_path_round E fuel s v Hpath).
    destruct (first_file_at_next _ _ _ Hfirst) as [Hno Hnext].
    rewrite Hno. cbn [asked].
    apply (IH fuel _ v); [now apply path_stays_bound | exact Hnext | lia].
Qed.

Lemma ask_for_path_loops E fuel : forall s v,
  globals s !! "Path" = Some v ->
  (forall i, (i < fuel)%nat ->
     is_file E (stdin E (lines_read s + i)) = false) ->
  fst (ask_for_path E fuel s) = Diverge.
Proof.
  induction fuel as [|fuel IH]; intros s v Hpath Hno; [reflexivity|].
  rewrite (ask_for_path_round E fuel s v Hpath).
  pose proof (Hno 0%nat ltac:(lia)) as H0. rewrite Nat.add_0_r in H0.
  rewrite H0. apply (IH _ v); [now apply path_stays_bound|].
  intros i Hi. cbn [printed answer_line lines_read].
  replace (S (lines_read s) + i)%nat with (lines_read s + S i)%nat by lia.
  apply Hno. lia.
Qed.

Lemma asked_lines_read E k : forall s,
  lines_read (asked E k s) = (lines_read s + S k)%nat.
Proof.
  induction k as [|k IH]; intros s; cbn [asked].
  - cbn [printed answer_line lines_read]. lia.
  - rewrite IH. cbn [printed answer_line lines_read]. lia.
Qed.

Lemma asked_out E k : forall s,
  out (asked E k s)
  = (out s ++ repeat (Print "Error: File not found") k ++
     [Print "Video file found"])%list.
Proof.
  induction k as [|k IH]; intros s; cbn [asked].
  - reflexivity.
  - rewrite IH. cbn [printed answer_line out repeat].
    now rewrite <- app_assoc.
Qed.

Lemma asked_names E k : forall s,
  globals (asked E k s) !! "user_video_path"
  = Some (VStr (stdin E (lines_read s + k))) /\
  globals (asked E k s) !! "video_path"
  = Some (VPath (stdin E (lines_read s + k))) /\
  forall name, name <> "user_video_path" -> name <> "video_path" ->
               globals (asked E k s) !! name = globals s !! name.
Proof.
  induction k as [|k IH]; intros s; cbn [asked].
  - cbn [printed answer_line globals]. rewrite Nat.add_0_r.
    split; [now rewrite lookup_insert_ne, lookup_insert_eq by discriminate|].
    split; [apply lookup_insert_eq|].
    intros name H1 H2. now rewrite !lookup_insert_ne by congruence.
  - destruct (IH (printed "Error: File not found"
                    (answer_line (stdin E (lines_read s)) s)))
      as (Hu & Hv & Ho).
    cbn [printed answer_line lines_read globals] in Hu, Hv, Ho.
    replace (lines_read s + S k)%nat with (S (lines_read s) + k)%nat by lia.
    split; [exact Hu|]. split; [exact Hv|].
    intros name H1 H2. rewrite (Ho name H1 H2).
    now rewrite !lookup_insert_ne by congruence.
Qed.

(** The loop of lines 162-169 keeps prompting until a line names a file:
    when line [k] is the first to do so it reads exactly [k + 1] lines,
    prints the error [k] times and the confirmation once, and leaves
    [user_video_path] and [video_path] bound to that line and every other
    name as it was; as long as no line names a file it does not end. *)
Theorem input_loop_asks_until_a_file_is_named (E : env) (s : state) :
  is_Some (globals s !! "Path") ->
  (forall k fuel, first_file_at E (lines_read s) k -> (k < fuel)%nat ->
     fst (ask_for_path E fuel s) = Return tt /\
     lines_read (snd (ask_for_path E fuel s)) = (lines_read s + S k)%nat /\
     out (snd (ask_for_path E fuel s))
     = (out s ++ repeat (Print "Error: File not found") k ++
        [Print "Video file found"])%list /\
     globals (snd (ask_for_path E fuel s)) !! "user_video_path"
     = Some (VStr (stdin E (lines_read s + k))) /\
     globals (snd (ask_for_path E fuel s)) !! "video_path"
     = Some (VPath (stdin E (lines_read s + k))) /\
     forall name, name <> "user_video_path" -> name <> "video_path" ->
       globals (snd (ask_for_path E fuel s)) !! name = globals s !! name) /\
  ((forall i, is_file E (stdin E (lines_read s + i)) = false) ->
   forall fuel, fst (ask_for_path E fuel s) = Diverge).
Proof.
  intros [v Hpath]. split.
  - intros k fuel Hfirst Hfuel.
    rewrite (ask_for_path_finds E k fuel s v Hpath Hfirst Hfuel).
    cbn [fst snd]. split; [reflexivity|].
    split; [apply asked_lines_read|]. split; [apply asked_out|].
    apply asked_names.
  - intros Hno fuel. apply (ask_for_path_loops E fuel s v Hpath).
    intros i _. apply Hno.
Qed.

Lemma input_loop_asks_until_a_file_is_named_witness :
  out (snd (ask_for_path second_try 5 (imported imported_names initial)))
  = ([] ++ repeat (Print "Error: File not found") 1 ++
     [Print "Video file found"])%list /\
  fst (ask_for_path lost 5 (imported imported_names initial)) = Diverge.
Proof.
  assert (Hpath : is_Some (globals (imported imported_names initial)
                             !! "Path"))
    by (vm_compute; eauto).
  split.
  - destruct (proj1 (input_loop_asks_until_a_file_is_named second_try
                       (imported imported_names initial) Hpath) 1%nat 5%nat)
      as (_ & _ & Ho & _).
    + split; [|reflexivity].
      intros i Hi. assert (i = 0%nat) as -> by lia. reflexivity.
    + lia.
    + exact Ho.
  - apply (proj2 (input_loop_asks_until_a_file_is_named lost
                    (imported imported_names initial) Hpath)).
    intros i. reflexivity.
Defined.

(** *** A video that cannot be read *)

Lemma bind_imports_returns names : forall s,
  bind_imports names s = (Return tt, imported names s).
Proof.
  induction names as [|name names IH]; intros s; [reflexivity|].
  cbn [bind_imports imported]. unfold bind at 1.
  unfold store_name at 1. unfold modify at 1. apply IH.
Qed.

Lemma imported_keeps names : forall s,
  lines_read (imported names s) = lines_read s /\
  out (imported names s) = out s.
Proof.
  induction names as [|name names IH]; intros s; [now split|].
  cbn [imported]. destruct (IH {| globals := <[name:=VObject name]> (globals s);
                                  lines_read := lines_read s;
                                  out := out s |}) as [H1 H2].
  now rewrite H1, H2.
Qed.

Lemma wp_eq_bind {S A B} (m : M S A) (k : A -> M S B)
    (Q : outcome B -> S -> Prop) s a s' :
  m s = (Return a, s') -> wp (k a) Q s' -> wp (bind m k) Q s.
Proof. intros Hm [H]. constructor. unfold bind. now rewrite Hm. Qed.

Lemma unreadable_video_run {B} E s2 line (k : unit -> M state B) :
  globals s2 !! "video_path" = Some (VPath line) ->
  is_file E line = true ->
  unreadable E line ->
  wp (video_path <- load_name "video_path" ;;
      (if negb (is_file E (as_path video_path))
       then raise Exception_ "Video file not found"
       else ret tt) ;;
      store_name "MDB_CONNECTION_STRING"
        (VStr "mongodb://localhost:51083/?directConnection=true") ;;
      store_name "DB_COLLECTION_NAME" (VStr "Video_Summarization") ;;
      done <- try_except is_Exception
        (video_path <- load_name "video_path" ;;
         video_bytes <- call (read_file E (as_path video_path)) ;;
         store_name "f" (VObject "file") ;;
         store_name "video_bytes" (VBytes video_bytes) ;;
         match video_bytes with
         | [] => raise ValueError "The video file is empty."
         | _ => ret tt
         end)
        (fun e =>
           store_name "e" (VObject "exception") ;;
           emit (Print "Failed to load video content") ;;
           raise SystemExit EmptyString) ;;
      k done)
     (fun r s' =>
        r = Raise (mk_exn SystemExit EmptyString) /\
        lines_read s' = lines_read s2 /\
        out s' = (out s2 ++ [Print "Failed to load video content"])%list) s2.
Proof.
  intros Hvp Hfile Hun. destruct s2 as [g n o]. cbn [globals] in Hvp.
  brun;
    cbn [globals lines_read out] in *;
    repeat match goal with
    | H : context [<[_ := _]> _ !! _] |- _ =>
        rewrite lookup_insert_ne in H by discriminate
    end;
    repeat match goal with
    | H : g !! "video_path" = _ |- _ =>
        rewrite Hvp in H; first [discriminate H | injection H as <-]
    end;
    cbn [as_path] in *;
    try (rewrite Hfile in *; discriminate);
    try (destruct Hun as [Hun | [msg Hun]]; congruence);
    bnorm; repeat split.
Qed.

(** When the file the user named cannot be opened or read, or is empty,
    Version 2.py prints that it failed to load the video and leaves through
    exit(): the run ends with SystemExit right there, and its whole output
    is the prompts' answers followed by that message, so the video agent is
    never asked. *)
Theorem unreadable_video_ends_the_script (E : env) (fuel k : nat) :
  import_agno E = Returns tt ->
  first_file_at E 0 k -> (k < fuel)%nat ->
  unreadable E (stdin E k) ->
  fst (version_2 E fuel initial) = Raise (mk_exn SystemExit EmptyString) /\
  lines_read (snd (version_2 E fuel initial)) = S k /\
  out (snd (version_2 E fuel initial))
  = (repeat (Print "Error: File not found") k ++
     [Print "Video file found"; Print "Failed to load video content"])%list.
Proof.
  intros Himp Hfirst Hfuel Hun.
  set (s1 := imported imported_names initial).
  assert (Hpath : globals s1 !! "Path" = Some (VObject "Path"))
    by (vm_compute; reflexivity).
  destruct (imported_keeps imported_names initial) as [Hl1 Ho1].
  fold s1 in Hl1, Ho1. cbn [initial lines_read out] in Hl1, Ho1.
  assert (Hfirst' : first_file_at E (lines_read s1) k) by now rewrite Hl1.
  destruct (asked_names E k s1) as (_ & Hvp & _).
  rewrite Hl1 in Hvp. cbn [Nat.add] in Hvp.
  assert (Hwp : wp (version_2 E fuel)
                  (fun r s' =>
                     r = Raise (mk_exn SystemExit EmptyString) /\
                     lines_read s' = lines_read (asked E k s1) /\
                     out s' = (out (asked E k s1) ++
                               [Print "Failed to load video content"])%list)
                  initial).
  { unfold version_2. rewrite Himp. cbn [call].
    apply wp_ret_bind.
    eapply wp_eq_bind; [apply bind_imports_returns|]. fold s1.
    eapply wp_eq_bind;
      [apply (ask_for_path_finds E k fuel s1 _ Hpath Hfirst' Hfuel)|].
    apply (unreadable_video_run E (asked E k s1) (stdin E k)).
    - exact Hvp.
    - destruct Hfirst as [_ H]. exact H.
    - exact Hun. }
  destruct (wp_elim _ _ _ Hwp) as (Hr & Hl & Ho).
  split; [exact Hr|]. split.
  - rewrite Hl, asked_lines_read, Hl1. reflexivity.
  - rewrite Ho, asked_out, Ho1. cbn [app]. now rewrite <- app_assoc.
Qed.

Lemma unreadable_video_ends_the_script_witness :
  fst (version_2 empty_video 3 initial)
  = Raise (mk_exn SystemExit EmptyString) /\
  out (snd (version_2 empty_video 3 initial))
  = (repeat (Print "Error: File not found") 1 ++
     [Print "Video file found"; Print "Failed to load video content"])%list.
Proof.
  destruct (unreadable_video_ends_the_script empty_video 3 1) as (Hr & _ & Ho).
  - reflexivity.
  - split; [|reflexivity].
    intros i Hi. assert (i = 0%nat) as -> by lia. reflexivity.
  - lia.
  - left. reflexivity.
  - split; [exact Hr | exact Ho].
Defined.

End ScriptFacts.

(* ===================================================================== *)
(** * Reading settings back *)
(* ===================================================================== *)

Module SettingsFacts.
Import Py PyFacts ConfigParser ConfigSpec SettingsSpec ConfigFacts.

Lemma break_percent_plain (v : string) :
  plain v -> break_percent v = (v, None).
Proof.
  unfold plain. induction v as [|c v IH]; [reflexivity|].
  cbn [has_char break_percent]. intros H.
  apply orb_false_iff in H as [Hc Hv]. rewrite Hc, (IH Hv). reflexivity.
Qed.

Lemma interpolate_some_plain n opt d v :
  plain v -> interpolate_some (S n) opt d v = Return v.
Proof.
  intros Hv. cbn [interpolate_some]. now rewrite (break_percent_plain v Hv).
Qed.

Lemma before_get_plain opt v d : plain v -> before_get opt v d = Return v.
Proof.
  intros Hv. unfold before_get, MAX_INTERPOLATION_DEPTH.
  now apply (interpolate_some_plain 9).
Qed.

Lemma plain_is_retrieved cp section key v :
  stored_value cp section key = Some v -> plain v ->
  retrieved cp section key v.
Proof.
  unfold stored_value, retrieved. intros Hs Hv.
  destruct (unify_values cp section) as [d|e|]; try discriminate.
  exists d, v. split; [reflexivity|]. split; [exact Hs|].
  now apply before_get_plain.
Qed.

Lemma get_set_retrieved {F} cp section key v (fb : F) :
  retrieved cp section key v ->
  ConfigParser.get cp section key (Some fb) = Return (Value v).
Proof.
  intros (d & raw & Hu & Hd & Hv). unfold ConfigParser.get.
  rewrite Hu, Hd, Hv. reflexivity.
Qed.

Lemma get_conv_retrieved {V F} cp section key (conv : string -> outcome V)
    (fb : F) v x :
  retrieved cp section key v -> conv v = Return x ->
  get_conv cp section key conv (Some fb) = Return (Value x).
Proof.
  intros Hr Hc. unfold get_conv. rewrite (get_unset_retrieved _ _ _ _ Hr).
  cbn [obind]. rewrite Hc. reflexivity.
Qed.

(** What the typed getters return for a value the parser hands over. *)
Lemma getters_on_retrieved self section key v :
  retrieved (AppConfig.config self) section key v ->
  (forall F (fb : F),
     AppConfig.get self section key fb = Return (Value v)) /\
  (forall fb,
     AppConfig.get_list self section key fb
     = Return (Value (AppConfig.split_items v))) /\
  (forall z F (fb : F), Py.int v = Some z ->
     AppConfig.get_int self section key fb = Return (Value z)) /\
  (forall b F (fb : F), assoc (lower v) BOOLEAN_STATES = Some b ->
     AppConfig.get_bool self section key fb = Return (Value b)).
Proof.
  intros Hr. split; [|split; [|split]].
  - intros F fb. unfold AppConfig.get.
    now rewrite (get_set_retrieved _ _ _ _ fb Hr).
  - intros fb. unfold AppConfig.get_list.
    now rewrite (get_unset_retrieved _ _ _ _ Hr).
  - intros z F fb Hz. unfold AppConfig.get_int, getint.
    rewrite (get_conv_retrieved _ _ _ conv_int fb v z Hr); [reflexivity|].
    unfold conv_int. now rewrite Hz.
  - intros b F fb Hb. unfold AppConfig.get_bool, getboolean.
    rewrite (get_conv_retrieved _ _ _ convert_to_boolean fb v b Hr);
      [reflexivity|].
    unfold convert_to_boolean. now rewrite Hb.
Qed.

Lemma plain_value_is_got self section key v :
  stored_value (AppConfig.config self) section key = Some v ->
  plain v ->
  forall F (fb : F), AppConfig.get self section key fb = Return (Value v).
Proof.
  intros Hs Hv.
  apply (getters_on_retrieved self section key v).
  now apply plain_is_retrieved.
Qed.

(** A stored value without a percent sign goes through interpolation
    untouched, so the getters return it as stored: [get] verbatim,
    [get_list] split at the commas, [get_int] and [get_bool] converted
    whenever it reads as an integer or as one of the boolean words; the
    fallback plays no part. *)
Theorem stored_values_are_read_back
    (self : AppConfig.t) (section key v : string) :
  stored_value (AppConfig.config self) section key = Some v ->
  plain v ->
  (forall F (fb : F),
     AppConfig.get self section key fb = Return (Value v)) /\
  (forall fb,
     AppConfig.get_list self section key fb
     = Return (Value (AppConfig.split_items v))) /\
  (forall z F (fb : F), Py.int v = Some z ->
     AppConfig.get_int self section key fb = Return (Value z)) /\
  (forall b F (fb : F), assoc (lower v) BOOLEAN_STATES = Some b ->
     AppConfig.get_bool self section key fb = Return (Value b)).
Proof.
  intros Hs Hv. apply getters_on_retrieved.
  now apply plain_is_retrieved.
Qed.

Lemma stored_values_are_read_back_witness :
  AppConfig.get_int AppConfig.create_default_config
    "app" "MAX_FILE_SIZE_MB" 0%Z = Return (Value 500%Z) /\
  AppConfig.get_bool AppConfig.create_default_config
    "performance" "enable_caching" false = Return (Value true).
Proof.
  split.
  - apply (stored_values_are_read_back AppConfig.create_default_config
             "app" "MAX_FILE_SIZE_MB" "500");
      vm_compute; reflexivity.
  - apply (stored_values_are_read_back AppConfig.create_default_config
             "performance" "enable_caching" "true");
      vm_compute; reflexivity.
Defined.

Lemma stored_value_layers cp section sd key :
  sections cp !! section = Some sd ->
  stored_value cp section key = (sd ∪ defaults cp) !! lower key.
Proof.
  intros Hs. unfold stored_value, unify_values, optionxform.
  now rewrite Hs.
Qed.

(** An option is looked up, by its lower-cased name, in the section first
    and in the DEFAULT section next: the section's value wins, a value
    found only in DEFAULT is inherited, and the fallback is returned only
    when the name is in neither. *)
Theorem default_section_is_inherited
    (self : AppConfig.t) (section key : string)
    (sectiondict : gmap string string) :
  sections (AppConfig.config self) !! section = Some sectiondict ->
  (forall v, sectiondict !! lower key = Some v -> plain v ->
     forall F (fb : F),
       AppConfig.get self section key fb = Return (Value v)) /\
  (forall v, sectiondict !! lower key = None ->
     defaults (AppConfig.config self) !! lower key = Some v -> plain v ->
     forall F (fb : F),
       AppConfig.get self section key fb = Return (Value v)) /\
  (sectiondict !! lower key = None ->
   defaults (AppConfig.config self) !! lower key = None ->
   forall F (fb : F),
     AppConfig.get self section key fb = Return (Fallback fb)).
Proof.
  intros Hs. pose proof (stored_value_layers _ _ _ key Hs) as Hl.
  split; [|split].
  - intros v Hv Hp F fb.
    apply (plain_value_is_got self section key v); [|exact Hp].
    rewrite Hl. now apply lookup_union_Some_l.
  - intros v Hn Hv Hp F fb.
    apply (plain_value_is_got self section key v); [|exact Hp].
    rewrite Hl. rewrite lookup_union_r; assumption.
  - intros Hn Hd F fb. unfold AppConfig.get.
    rewrite (get_missing _ _ _ fb); [reflexivity|].
    rewrite Hl. apply lookup_union_None. now split.
Qed.

Lemma default_section_is_inherited_witness :
  AppConfig.get layered_config "app" "Max_File_Size_MB" "none"
  = Return (Value " 2_000 ") /\
  AppConfig.get layered_config "app" "enable_caching" "none"
  = Return (Value "Yes") /\
  AppConfig.get layered_config "app" "cache_ttl_seconds" "none"
  = Return (Fallback "none").
Proof.
  assert (Hs : sections (AppConfig.config layered_config) !! "app"
               = Some app_section) by (vm_compute; reflexivity).
  split; [|split].
  - apply (proj1 (default_section_is_inherited layered_config "app"
                    "Max_File_Size_MB" app_section Hs));
      vm_compute; reflexivity.
  - apply (proj1 (proj2 (default_section_is_inherited layered_config "app"
                    "enable_caching" app_section Hs)));
      vm_compute; reflexivity.
  - apply (proj2 (proj2 (default_section_is_inherited layered_config "app"
                    "cache_ttl_seconds" app_section Hs)));
      vm_compute; reflexivity.
Defined.

(** *** Lists *)

Lemma split_pieces (sep : ascii) (s : string) :
  Forall (fun piece => has_char sep piece = false) (split sep s).
Proof.
  induction s as [|c s IH]; cbn [split].
  - now constructor.
  - destruct (Ascii.eqb c sep) eqn:Hc.
    + constructor; [reflexivity | exact IH].
    + destruct (split sep s) as [|piece pieces].
      * constructor; [|constructor]. cbn [has_char]. now rewrite Hc.
      * inversion IH as [|? ? Hp Hps]; subst.
        constructor; [|exact Hps]. cbn [has_char]. now rewrite Hc, Hp.
Qed.

Lemma split_app (sep : ascii) (x rest : string) :
  has_char sep x = false ->
  split sep (x ++ String sep rest) = x :: split sep rest.
Proof.
  induction x as [|c x IH]; intros H.
  - change (split sep (String sep rest) = EmptyString :: split sep rest).
    cbn [split]. now rewrite Ascii.eqb_refl.
  - change (split sep (String c (x ++ String sep rest))
            = String c x :: split sep rest).
    cbn [has_char] in H. apply orb_false_iff in H as [Hc Hx].
    cbn [split]. now rewrite Hc, (IH Hx).
Qed.

Lemma split_join (sep : ascii) (l : list string) :
  l <> [] -> Forall (fun piece => has_char sep piece = false) l ->
  split sep (join (String sep EmptyString) l) = l.
Proof.
  unfold join. induction l as [|x l IH]; [congruence|].
  intros _ Hall. inversion Hall as [|? ? Hx Hl]; subst.
  destruct l as [|y l].
  - cbn [String.concat]. now apply split_without_sep.
  - change (String.concat (String sep EmptyString) (x :: y :: l))
      with (x ++ String sep (String.concat (String sep EmptyString) (y :: l))).
    rewrite (split_app sep x _ Hx). f_equal. now apply IH.
Qed.

Lemma lstrip_keeps c s : has_char c s = false -> has_char c (lstrip s) = false.
Proof.
  induction s as [|a s IH]; [reflexivity|].
  cbn [lstrip]. intros H. destruct (isspace a); [|exact H].
  apply IH. cbn [has_char] in H. now apply orb_false_iff in H as [_ H].
Qed.

Lemma rstrip_keeps c s : has_char c s = false -> has_char c (rstrip s) = false.
Proof.
  induction s as [|a s IH]; [reflexivity|].
  cbn [has_char rstrip]. intros H. apply orb_false_iff in H as [Ha Hs].
  specialize (IH Hs). destruct (rstrip s) as [|b r].
  - destruct (isspace a); [reflexivity|]. cbn [has_char]. now rewrite Ha.
  - cbn [has_char] in *. now rewrite Ha, IH.
Qed.

Lemma lstrip_head s :
  lstrip s = EmptyString \/
  exists a t, lstrip s = String a t /\ isspace a = false.
Proof.
  induction s as [|a s IH]; [now left|].
  cbn [lstrip]. destruct (isspace a) eqn:Ha; [exact IH|].
  right. now exists a, s.
Qed.

Lemma rstrip_head a s :
  isspace a = false -> exists r, rstrip (String a s) = String a r.
Proof.
  intros Ha. cbn [rstrip]. rewrite Ha. destruct (rstrip s); eauto.
Qed.

Lemma rstrip_idem s : rstrip (rstrip s) = rstrip s.
Proof.
  induction s as [|a s IH]; [reflexivity|].
  cbn [rstrip]. destruct (rstrip s) as [|b r] eqn:Hr.
  - destruct (isspace a) eqn:Ha; [reflexivity|].
    cbn [rstrip]. now rewrite Ha.
  - change (rstrip (String a (String b r))) with
      (match rstrip (String b r) with
       | EmptyString =>
           if isspace a then EmptyString else String a EmptyString
       | String c r' => String a (String c r')
       end).
    now rewrite IH.
Qed.

Lemma strip_idem s : strip (strip s) = strip s.
Proof.
  unfold strip. destruct (lstrip_head s) as [-> | (a & t & -> & Ha)];
    [reflexivity|].
  destruct (rstrip_head a t Ha) as [r Hr]. rewrite Hr.
  cbn [lstrip]. rewrite Ha. rewrite <- Hr. apply rstrip_idem.
Qed.

Lemma truthy_nonempty s : truthy s = true <-> s <> EmptyString.
Proof. destruct s; cbn; split; congruence. Qed.

Lemma split_items_clean v : Forall clean_item (AppConfig.split_items v).
Proof.
  unfold AppConfig.split_items.
  pose proof (split_pieces "," v) as Hall.
  induction (split "," v) as [|piece pieces IH]; [constructor|].
  inversion Hall as [|? ? Hp Hps]; subst. cbn [List.filter].
  destruct (truthy (strip piece)) eqn:Ht; [|now apply IH].
  cbn [List.map]. constructor; [|now apply IH].
  split; [now apply truthy_nonempty|]. split; [apply strip_idem|].
  unfold strip. now apply rstrip_keeps, lstrip_keeps.
Qed.

Lemma split_items_join l :
  Forall clean_item l -> AppConfig.split_items (join "," l) = l.
Proof.
  intros Hall. unfold AppConfig.split_items.
  destruct l as [|x l]; [reflexivity|].
  rewrite split_join;
    [ | discriminate
      | eapply Forall_impl; [exact Hall|]; now intros item (_ & _ & H) ].
  induction Hall as [|item items (Hne & Hs & _) _ IH]; [reflexivity|].
  cbn [List.filter]. rewrite Hs.
  rewrite (proj2 (truthy_nonempty item) Hne). cbn [List.map].
  now rewrite Hs, IH.
Qed.

(** get_list cuts the value at the commas, strips every piece and drops
    the pieces that are blank: each item of the result is non-empty, has
    nothing left to strip and holds no comma.  Reading back a list of such
    items that was stored joined by commas gives the very list. *)
Theorem get_list_splits_at_commas
    (self : AppConfig.t) (section key v : string)
    (fallback : option (list string)) :
  retrieved (AppConfig.config self) section key v ->
  AppConfig.get_list self section key fallback
  = Return (Value (AppConfig.split_items v)) /\
  Forall clean_item (AppConfig.split_items v) /\
  (forall l, Forall clean_item l -> v = join "," l ->
             AppConfig.split_items v = l).
Proof.
  intros Hr. split; [now apply getters_on_retrieved|].
  split; [apply split_items_clean|].
  intros l Hl ->. now apply split_items_join.
Qed.

Lemma get_list_splits_at_commas_witness :
  AppConfig.get_list layered_config "app" "supported_formats" None
  = Return (Value ["mp4"; "MOV"; "webm"]) /\
  AppConfig.get_list AppConfig.create_default_config
    "app" "supported_formats" None
  = Return (Value StreamlitApp.SUPPORTED_VIDEO_FORMATS).
Proof.
  split.
  - refine (proj1 (get_list_splits_at_commas layered_config
                     "app" "supported_formats" "mp4, ,MOV ,, webm" None _)).
    apply plain_is_retrieved; vm_compute; reflexivity.
  - assert (Hr : retrieved (AppConfig.config AppConfig.create_default_config)
                   "app" "supported_formats"
                   "mp4,avi,mov,mkv,webm,flv,m4v")
      by (apply plain_is_retrieved; vm_compute; reflexivity).
    destruct (get_list_splits_at_commas AppConfig.create_default_config
                "app" "supported_formats" _ None Hr) as (Hg & _ & Hj).
    rewrite Hg.
    rewrite (Hj StreamlitApp.SUPPORTED_VIDEO_FORMATS);
      [reflexivity | | reflexivity].
    unfold StreamlitApp.SUPPORTED_VIDEO_FORMATS.
    repeat constructor; try discriminate.
Defined.

(** *** Percent signs *)

Lemma break_percent_app a r :
  plain a -> break_percent (a ++ String "%" r) = (a, Some r).
Proof.
  unfold plain. induction a as [|c a IH]; intros H.
  - reflexivity.
  - change (break_percent (String c (a ++ String "%" r))
            = (String c a, Some r)).
    cbn [has_char] in H. apply orb_false_iff in H as [Hc Ha].
    cbn [break_percent]. now rewrite Hc, (IH Ha).
Qed.

Lemma length_app_percent a r :
  String.length (a ++ String "%" r) = S (String.length a + String.length r).
Proof.
  induction a as [|c a IH]; [reflexivity|].
  change (S (String.length (a ++ String "%" r))
          = S (S (String.length a) + String.length r)).
  now rewrite IH.
Qed.

Lemma interpolate_escape n opt d a b :
  plain a -> plain b ->
  interpolate_some (S n) opt d (a ++ String "%" (String "%" b))
  = Return (a ++ String "%" b).
Proof.
  intros Ha Hb. cbn [interpolate_some].
  rewrite (break_percent_app a _ Ha).
  rewrite length_app_percent.
  rewrite (break_percent_plain b Hb). reflexivity.
Qed.

Lemma until_paren_app name r :
  has_char ")" name = false ->
  until_paren (name ++ String ")" r) = Some (name, r).
Proof.
  induction name as [|c name IH]; intros H.
  - reflexivity.
  - change (until_paren (String c (name ++ String ")" r))
            = Some (String c name, r)).
    cbn [has_char] in H. apply orb_false_iff in H as [Hc Hn].
    cbn [until_paren]. now rewrite Hc, (IH Hn).
Qed.

Lemma match_key_app name b :
  reference_name name ->
  match_key (name ++ String ")" (String "s" b)) = Some (name, b).
Proof.
  intros [Hne Hp]. unfold match_key. rewrite (until_paren_app _ _ Hp).
  destruct name; [congruence | reflexivity].
Qed.

Lemma interpolate_reference n opt d a name b w :
  plain a -> plain b -> reference_name name ->
  d !! lower name = Some w -> plain w ->
  interpolate_some (S n) opt d
    (a ++ String "%" (String "(" (name ++ String ")" (String "s" b))))
  = Return (a ++ w ++ b).
Proof.
  intros Ha Hb Hn Hd Hw. cbn [interpolate_some].
  rewrite (break_percent_app a _ Ha).
  rewrite (match_key_app name b Hn). unfold optionxform. rewrite Hd.
  unfold plain in Hw. rewrite Hw. cbn [obind].
  rewrite length_app_percent.
  rewrite (break_percent_plain b Hb). reflexivity.
Qed.

Lemma interpolate_missing n opt d a name b :
  plain a -> reference_name name -> d !! lower name = None ->
  interpolate_some (S n) opt d
    (a ++ String "%" (String "(" (name ++ String ")" (String "s" b))))
  = Raise (mk_exn InterpolationMissingOptionError (lower name)).
Proof.
  intros Ha Hn Hd. cbn [interpolate_some].
  rewrite (break_percent_app a _ Ha).
  rewrite (match_key_app name b Hn). unfold optionxform. now rewrite Hd.
Qed.

Lemma get_of_stored {F} self section key d raw (fb : F) :
  unify_values (AppConfig.config self) section = Return d ->
  d !! lower key = Some raw ->
  AppConfig.get self section key fb
  = catch (one_of [NoSectionError; NoOptionError])
      (obind (before_get (lower key) raw d) (fun v => Return (Value v)))
      (fun _ => Return (Fallback fb)).
Proof.
  intros Hu Hd. unfold AppConfig.get, ConfigParser.get, optionxform.
  now rewrite Hu, Hd.
Qed.

(** Percent signs in a stored value: a doubled percent sign is read back
    as a single one; [%(name)s] is replaced by the value of the option
    [name] (looked up in lower case in the same section, then in DEFAULT),
    and when there is no such option [get] raises
    InterpolationMissingOptionError instead of returning the fallback. *)
Theorem percent_signs_in_values
    (self : AppConfig.t) (section key : string) (d : gmap string string)
    (a b : string) :
  unify_values (AppConfig.config self) section = Return d ->
  plain a -> plain b ->
  (d !! lower key = Some (a ++ "%%" ++ b) ->
   forall F (fb : F),
     AppConfig.get self section key fb = Return (Value (a ++ "%" ++ b))) /\
  (forall name w, reference_name name ->
     d !! lower key = Some (a ++ "%(" ++ name ++ ")s" ++ b) ->
     d !! lower name = Some w -> plain w ->
     forall F (fb : F),
       AppConfig.get self section key fb = Return (Value (a ++ w ++ b))) /\
  (forall name, reference_name name ->
     d !! lower key = Some (a ++ "%(" ++ name ++ ")s" ++ b) ->
     d !! lower name = None ->
     forall F (fb : F),
       AppConfig.get self section key fb
       = Raise (mk_exn InterpolationMissingOptionError (lower name))).
Proof.
  intros Hu Ha Hb. unfold before_get. split; [|split].
  - intros Hd F fb. rewrite (get_of_stored self section key d _ fb Hu Hd).
    unfold before_get, MAX_INTERPOLATION_DEPTH.
    change (a ++ "%%" ++ b) with (a ++ String "%" (String "%" b)).
    now rewrite (interpolate_escape 9 _ d a b Ha Hb).
  - intros name w Hn Hd Hw Hpw F fb.
    rewrite (get_of_stored self section key d _ fb Hu Hd).
    unfold before_get, MAX_INTERPOLATION_DEPTH.
    change (a ++ "%(" ++ name ++ ")s" ++ b)
      with (a ++ String "%" (String "(" (name ++ String ")" (String "s" b)))).
    now rewrite (interpolate_reference 9 _ d a name b w Ha Hb Hn Hw Hpw).
  - intros name Hn Hd Hmiss F fb.
    rewrite (get_of_stored self section key d _ fb Hu Hd).
    unfold before_get, MAX_INTERPOLATION_DEPTH.
    change (a ++ "%(" ++ name ++ ")s" ++ b)
      with (a ++ String "%" (String "(" (name ++ String ")" (String "s" b)))).
    now rewrite (interpolate_missing 9 _ d a name b Ha Hn Hmiss).
Qed.

Lemma percent_signs_in_values_witness :
  AppConfig.get percent_signs_config "logging" "rotate_at" "none"
  = Return (Value "90% full") /\
  AppConfig.get percent_signs_config "logging" "LOG_FILE_PATH" "none"
  = Return (Value "/srv/video/app.log") /\
  AppConfig.get percent_signs_config "logging" "archive" "none"
  = Raise (mk_exn InterpolationMissingOptionError "backup").
Proof.
  split; [|split].
  - refine (proj1 (percent_signs_in_values percent_signs_config
                     "logging" "rotate_at" _ "90" " full" eq_refl _ _)
              _ _ _);
      vm_compute; reflexivity.
  - refine (proj1 (proj2 (percent_signs_in_values percent_signs_config
                     "logging" "LOG_FILE_PATH" _ EmptyString "/app.log"
                     eq_refl _ _))
              "Home" "/srv/video" _ _ _ _ _ _);
      try (vm_compute; reflexivity).
    split; [discriminate | reflexivity].
  - refine (proj2 (proj2 (percent_signs_in_values percent_signs_config
                     "logging" "archive" _ EmptyString "/old"
                     eq_refl _ _))
              "backup" _ _ _ _ _);
      try (vm_compute; reflexivity).
    split; [discriminate | reflexivity].
Defined.

End SettingsFacts.

(* ===================================================================== *)
(** * The stored entry from one run to the next *)
(* ===================================================================== *)

Module CacheFacts.
Import Py StreamlitApp AppSpec PageSpec CacheSpec Logic LogicFacts Examples.
Import AppFacts.
Local Open Scope py_scope.

Lemma page_keeps_results E inp w :
  analyze_clicked inp = false -> reprocess_clicked inp = false ->
  wp (page E inp)
     (fun r w' =>
        (r = Return tt \/ r = Raise stop) /\
        analysis_results (session w') = analysis_results (session w) /\
        quiz_results (session w') = quiz_results (session w) /\
        processed_file_hash (session w') = processed_file_hash (session w)) w.
Proof.
  intros Hclick Hre. enter w.
  unfold page, sidebar, set_environ, cached_results.
  rewrite Hclick, Hre.
  wp_run.
  all: wnorm.
  all: try (split; [auto|]; repeat split; reflexivity).
Qed.

Lemma quiet_step E inp b :
  analyze_clicked inp = false -> reprocess_clicked inp = false ->
  analysis_results (session (start (step E inp b)))
  = analysis_results (session (start b)) /\
  quiz_results (session (start (step E inp b)))
  = quiz_results (session (start b)) /\
  processed_file_hash (session (start (step E inp b)))
  = processed_file_hash (session (start b)).
Proof.
  intros Hclick Hre. rewrite session_after_step.
  pose proof (wp_elim _ _ _ (page_keeps_results E inp (start b) Hclick Hre))
    as (Hr & H).
  now rewrite (run_script_without_rerun _ _ _ Hr).
Qed.

Lemma quiet_runs rs : forall b,
  Forall without_click rs -> reachable b ->
  reachable (runs_of rs b) /\
  analysis_results (session (start (runs_of rs b)))
  = analysis_results (session (start b)) /\
  quiz_results (session (start (runs_of rs b)))
  = quiz_results (session (start b)) /\
  processed_file_hash (session (start (runs_of rs b)))
  = processed_file_hash (session (start b)).
Proof.
  induction rs as [|[E inp] rs IH]; intros b Hall Hb.
  - now repeat split.
  - inversion Hall as [|? ? [Hclick Hre] Hrest]; subst.
    cbn [fst snd] in Hclick, Hre.
    change (runs_of ((E, inp) :: rs) b) with (runs_of rs (step E inp b)).
    destruct (IH (step E inp b) Hrest (reachable_step E inp b Hb))
      as (Hreach & Ha & Hq & Hh).
    destruct (quiet_step E inp b Hclick Hre) as (Ha' & Hq' & Hh').
    split; [exact Hreach|]. now rewrite Ha, Hq, Hh.
Qed.

(** C4, as amended.  Once a submission has been processed and both steps
    have completed, a later submission of the same bytes is served from
    the session (the page shows the stored description and quiz, asks no
    agent and stops), provided every run of the page in between was made
    without pressing the analyze or the reprocess button.  When that later
    run is a click on the reprocess button, the three fields are cleared,
    and the next submission of the same bytes with the analyze button
    pressed runs the processing block again and asks the first agent as
    soon as the video is loaded. *)
Theorem same_bytes_hit_the_cache_between_clicks
    (E1 E2 E3 : env) (inp1 inp2 inp3 : inputs) (f1 f2 f3 : UploadedFile.t)
    (b : browser) (a q : string) (between : list (env * inputs)) :
  reachable b ->
  submits inp1 f1 -> analyze_clicked inp1 = true ->
  cache_hit E1 f1 (session (start b)) = false ->
  completes E1 f1 a q ->
  Forall without_click between ->
  submits inp2 f2 ->
  UploadedFile.getvalue f2 = UploadedFile.getvalue f1 ->
  md5_hexdigest E2 (UploadedFile.getvalue f1)
  = md5_hexdigest E1 (UploadedFile.getvalue f1) ->
  (reprocess_clicked inp2 = false ->
     fst (run_script E2 inp2 (runs_of between (step E1 inp1 b)))
     = Raise stop /\
     trace (snd (run_script E2 inp2 (runs_of between (step E1 inp1 b))))
     = [ShowCached (Some a) (Some q)] /\
     analysis_results
       (session (start (step E2 inp2 (runs_of between (step E1 inp1 b)))))
     = Some a /\
     quiz_results
       (session (start (step E2 inp2 (runs_of between (step E1 inp1 b)))))
     = Some q) /\
  (reprocess_clicked inp2 = true ->
     trace (snd (run_script E2 inp2 (runs_of between (step E1 inp1 b))))
     = [ShowCached (Some a) (Some q)] /\
     analysis_results
       (session (start (step E2 inp2 (runs_of between (step E1 inp1 b)))))
     = None /\
     quiz_results
       (session (start (step E2 inp2 (runs_of between (step E1 inp1 b)))))
     = None /\
     processed_file_hash
       (session (start (step E2 inp2 (runs_of between (step E1 inp1 b)))))
     = None /\
     (submits inp3 f3 ->
      UploadedFile.getvalue f3 = UploadedFile.getvalue f1 ->
      analyze_clicked inp3 = true ->
      forall p, reaches_analysis E3 f3 p ->
      In (VideoAgentRun 0)
         (trace (snd (run_script E3 inp3
                        (step E2 inp2
                           (runs_of between (step E1 inp1 b)))))))).
Proof.
  intros Hb Hs1 Hclick Hmiss Hc Hquiet Hs2 Hbytes Hmd5.
  destruct (run_that_completes E1 inp1 f1 b a q (reachable_settled b Hb)
              Hs1 Hclick Hmiss Hc) as (Ha & Hq & Hh).
  rewrite <- session_after_step in Ha, Hq, Hh.
  destruct (quiet_runs between (step E1 inp1 b) Hquiet
              (reachable_step E1 inp1 b Hb)) as (Hb2 & Ha2 & Hq2 & Hh2).
  rewrite Ha in Ha2. rewrite Hq in Hq2. rewrite Hh in Hh2.
  set (b2 := runs_of between (step E1 inp1 b)) in *.
  destruct (completes_truthy _ _ _ _ Hc) as [Hta Htq].
  assert (Hhit : cache_hit E2 f2 (session (start b2)) = true).
  { unfold cache_hit. rewrite Ha2, Hq2, Hh2.
    unfold get_file_hash. rewrite Hbytes, Hmd5.
    cbn [hash_is opt_truthy]. now rewrite String.eqb_refl, Hta, Htq. }
  split.
  - intros Hre. rewrite !session_after_step.
    rewrite (run_on_cached_file E2 inp2 f2 _ Hs2 Hhit Hre).
    cbn [fst snd trace session with_event with_session
         analysis_results quiz_results set_api_keys_validated].
    rewrite Ha2, Hq2. repeat split.
  - intros Hre. rewrite !session_after_step.
    rewrite (run_with_reprocess E2 inp2 f2 _ Hs2 Hhit Hre).
    cbn [fst snd trace session with_event with_session
         analysis_results quiz_results processed_file_hash
         set_api_keys_validated set_processed_file_hash set_quiz_results
         set_analysis_results].
    rewrite Ha2, Hq2. repeat (split; [reflexivity|]).
    intros Hs3 _ Hclick3 p Hreach.
    apply (run_that_processes E3 inp3 f3 _ p); auto.
    + apply reachable_settled. now apply reachable_step.
    + unfold cache_hit. rewrite session_after_step.
      rewrite (run_with_reprocess E2 inp2 f2 _ Hs2 Hhit Hre).
      reflexivity.
Qed.

Lemma same_bytes_hit_the_cache_between_clicks_witness :
  (fst (run_script calm upload_again
          (runs_of [(calm, look_at_seminar)]
             (step calm upload_and_analyze new_session)))
   = Raise stop /\
   trace (snd (run_script calm upload_again
                 (runs_of [(calm, look_at_seminar)]
                    (step calm upload_and_analyze new_session))))
   = [ShowCached (Some description) (Some quiz)]) /\
  In (VideoAgentRun 0)
     (trace (snd (run_script calm upload_and_analyze
                    (step calm upload_and_reprocess
                       (runs_of [(calm, look_at_seminar)]
                          (step calm upload_and_analyze new_session)))))).
Proof.
  assert (Hquiet : Forall without_click [(calm, look_at_seminar)])
    by (repeat constructor).
  split.
  - destruct (proj1 (same_bytes_hit_the_cache_between_clicks
               calm calm calm upload_and_analyze upload_again
               upload_and_analyze lecture lecture lecture new_session
               description quiz [(calm, look_at_seminar)]
               (reachable_start ∅)
               (lecture_is_submitted upload_and_analyze
                  eq_refl eq_refl eq_refl) eq_refl
               eq_refl calm_run_completes Hquiet
               (lecture_is_submitted upload_again eq_refl eq_refl eq_refl)
               eq_refl eq_refl) eq_refl) as (H1 & H2 & _).
    now split.
  - destruct (proj2 (same_bytes_hit_the_cache_between_clicks
               calm calm calm upload_and_analyze upload_and_reprocess
               upload_and_analyze lecture lecture lecture new_session
               description quiz [(calm, look_at_seminar)]
               (reachable_start ∅)
               (lecture_is_submitted upload_and_analyze
                  eq_refl eq_refl eq_refl) eq_refl
               eq_refl calm_run_completes Hquiet
               (lecture_is_submitted upload_and_reprocess
                  eq_refl eq_refl eq_refl)
               eq_refl eq_refl) eq_refl) as (_ & _ & _ & _ & H).
    apply (H (lecture_is_submitted upload_and_analyze
                eq_refl eq_refl eq_refl) eq_refl eq_refl
             "/tmp/tmpk3.mp4").
    repeat split. discriminate.
Defined.

(** C4, as stated, fails: the session holds one entry.  The first video is
    processed and both steps complete; a second video is processed and
    replaces the entry; the first video's bytes, submitted again in the
    same session, are no cache hit: nothing stored is shown, and with the
    analyze button pressed the first agent is asked again. *)
Lemma another_file_replaces_the_stored_entry :
  let b1 := step calm upload_and_analyze new_session in
  let b2 := step calm upload_seminar b1 in
  completes calm lecture description quiz /\
  processed_file_hash (session (start b1))
  = Some (get_file_hash calm (UploadedFile.getvalue lecture)) /\
  processed_file_hash (session (start b2))
  = Some (get_file_hash calm (UploadedFile.getvalue seminar)) /\
  cache_hit calm lecture (session (start b2)) = false /\
  run_script calm upload_again b2
  = (Return tt, with_session (set_api_keys_validated true) (start b2)) /\
  In (VideoAgentRun 0) (trace (snd (run_script calm upload_and_analyze b2))).
Proof.
  cbv zeta. split; [exact calm_run_completes|].
  split; [vm_compute; reflexivity|].
  split; [vm_compute; reflexivity|].
  split; [vm_compute; reflexivity|].
  split; [vm_compute; reflexivity|].
  vm_compute. tauto.
Qed.

(** *** A description kept from a run whose quiz step failed *)

Lemma processing_with_failed_quiz E f h w p k a :
  reaches_analysis E f p ->
  succeeds_at (analysis_attempt E) k a ->
  st_calls E UiAfterAnalysis = Returns tt ->
  (forall i, (i < max_retries)%nat -> fails (quiz_attempt E a i)) ->
  wp (processing E f h)
     (fun r w' =>
        r = Raise stop /\
        processing_status (session w') = "idle" /\
        analysis_results (session w') = Some a /\
        quiz_results (session w') = quiz_results (session w) /\
        processed_file_hash (session w')
        = processed_file_hash (session w)) w.
Proof.
  unfold reaches_analysis, saved, suffix_of.
  intros ((Hui & Hname & Hwrite) & Hload & Hopen & Hbytes & Hbefore)
    Hk Hafter Hquiz.
  enter w. unfold processing, save_upload, load_video.
  wp_run.
  all: units; try congruence.
  all: repeat match goal with
       | H1 : ?x = Returns ?u, H2 : ?x = Returns ?v |- _ =>
           first [constr_eq u v; fail 1
                 | assert (u = v) by congruence; subst u]
       end; try congruence.
  all: try match goal with
       | H : forall i, (i < max_retries)%nat ->
                       fails (analysis_attempt _ i) |- _ =>
           destruct (succeeds_not_all_fail _ _ _ Hk H)
       end.
  all: repeat match goal with
       | H : succeeds_at (analysis_attempt _) _ ?t |- _ =>
           first [constr_eq t a; fail 1
                 | destruct (succeeds_at_unique _ _ _ _ _ Hk H) as [_ <-]]
       end.
  all: try match goal with
       | H : succeeds_at (quiz_attempt _ _) _ _ |- _ =>
           destruct (succeeds_not_all_fail _ _ _ H Hquiz)
       end.
  all: wnorm; repeat split.
Qed.

(** The stored entry can mix two files.  When a file is processed while
    an entry is stored for another one and its description step succeeds
    but its quiz step gives up, line 421 has replaced the stored
    description while the stored quiz and hash are still the other
    file's; a later submission of that other file is then a cache hit
    that shows the new file's description next to the old quiz. *)
Theorem stale_description_is_served_with_the_old_quiz
    (E2 E3 : env) (inp2 inp3 : inputs) (f2 f3 : UploadedFile.t)
    (b : browser) (q h p a2 : string) (k : nat) :
  reachable b ->
  quiz_results (session (start b)) = Some q -> truthy q = true ->
  processed_file_hash (session (start b)) = Some h ->
  submits inp2 f2 -> analyze_clicked inp2 = true ->
  cache_hit E2 f2 (session (start b)) = false ->
  reaches_analysis E2 f2 p ->
  succeeds_at (analysis_attempt E2) k a2 ->
  st_calls E2 UiAfterAnalysis = Returns tt ->
  (forall i, (i < max_retries)%nat -> fails (quiz_attempt E2 a2 i)) ->
  submits inp3 f3 ->
  get_file_hash E3 (UploadedFile.getvalue f3) = h ->
  reprocess_clicked inp3 = false ->
  analysis_results (session (start (step E2 inp2 b))) = Some a2 /\
  quiz_results (session (start (step E2 inp2 b))) = Some q /\
  processed_file_hash (session (start (step E2 inp2 b))) = Some h /\
  fst (run_script E3 inp3 (step E2 inp2 b)) = Raise stop /\
  trace (snd (run_script E3 inp3 (step E2 inp2 b)))
  = [ShowCached (Some a2) (Some q)].
Proof.
  intros Hb Hq Htq Hh Hs2 Hclick Hmiss Hreach Hk Hafter Hquiz Hs3 Hh3 Hre.
  destruct (reachable_settled b Hb) as [Hidle _].
  pose proof (wp_elim _ _ _
    (page_processes E2 inp2 f2 (start b) _ Hs2 Hmiss Hclick Hidle
       (processing_with_failed_quiz E2 f2 _ _ p k a2
          Hreach Hk Hafter Hquiz))) as (Hr & _ & Ha' & Hq' & Hh').
  cbn [session with_session quiz_results processed_file_hash
       set_api_keys_validated] in Hq', Hh'.
  rewrite <- (run_script_without_rerun _ _ _ (or_intror Hr)) in Ha', Hq', Hh'.
  rewrite <- session_after_step in Ha', Hq', Hh'.
  rewrite Hq in Hq'. rewrite Hh in Hh'.
  split; [exact Ha'|]. split; [exact Hq'|]. split; [exact Hh'|].
  assert (Hta : truthy a2 = true).
  { destruct Hk as (_ & Hk & _). now apply analysis_attempt_returns in Hk. }
  assert (Hhit : cache_hit E3 f3 (session (start (step E2 inp2 b))) = true).
  { unfold cache_hit. rewrite Ha', Hq', Hh', Hh3.
    cbn [hash_is opt_truthy]. now rewrite String.eqb_refl, Hta, Htq. }
  rewrite (run_on_cached_file E3 inp3 f3 _ Hs3 Hhit Hre).
  cbn [fst snd trace session with_event with_session
       analysis_results quiz_results set_api_keys_validated].
  rewrite Ha', Hq'. split; reflexivity.
Qed.

Lemma seminar_is_submitted : submits upload_seminar seminar.
Proof.
  split; [|split; [reflexivity | vm_compute; reflexivity]].
  split; [eexists; vm_compute; reflexivity|].
  split; vm_compute; reflexivity.
Defined.

Lemma stale_description_is_served_with_the_old_quiz_witness :
  trace (snd (run_script calm upload_again
                (step seminar_quiz_down upload_seminar
                   (step calm upload_and_analyze new_session))))
  = [ShowCached (Some seminar_description) (Some quiz)].
Proof.
  refine (proj2 (proj2 (proj2 (proj2
    (stale_description_is_served_with_the_old_quiz
       seminar_quiz_down calm upload_seminar upload_again seminar lecture
       (step calm upload_and_analyze new_session)
       quiz (get_file_hash calm (UploadedFile.getvalue lecture))
       "/tmp/tmpk3.mkv" seminar_description 0
       (reachable_step _ _ _ (reachable_start ∅))
       _ _ _ seminar_is_submitted eq_refl _ _ _ eq_refl _
       (lecture_is_submitted upload_again eq_refl eq_refl eq_refl)
       eq_refl eq_refl)))));
    try (vm_compute; reflexivity).
  - repeat split. discriminate.
  - split; [unfold max_retries; lia|].
    split; [vm_compute; reflexivity | intros i Hi; lia].
  - intros i _. eexists. reflexivity.
Defined.

End CacheFacts.

(* ===================================================================== *)
(** * Interpolation errors *)
(* ===================================================================== *)

Module InterpolationFacts.
Import Py PyFacts ConfigParser ConfigSpec SettingsSpec InterpolationSpec.
Import ConfigFacts SettingsFacts.

(** Whatever interpolation raises is one of the three interpolation
    errors. *)
Lemma interpolate_some_raises depth : forall opt d rest e,
  interpolate_some depth opt d rest = Raise e ->
  interpolation_error (exn_class e) = true.
Proof.
  induction depth as [|depth IH]; intros opt d rest e.
  - cbn [interpolate_some]. now intros [= <-].
  - cbn [interpolate_some].
    lazymatch goal with
    | |- context [?F (String.length rest)] => set (loop := F)
    end.
    assert (Hloop : forall rounds rest0 e0,
               loop rounds rest0 = Raise e0 ->
               interpolation_error (exn_class e0) = true).
    { induction rounds as [|rounds IHr]; intros rest0 e0.
      - unfold loop. cbn beta iota fix match. discriminate.
      - unfold loop. cbn beta iota fix match.
        destruct (break_percent rest0) as [before [after|]];
          [|discriminate].
        destruct after as [|c rest']; [now intros [= <-]|].
        destruct c as [[] [] [] [] [] [] [] []]; cbn beta iota match.
        all: try (now intros [= <-]).
        + change (obind (loop rounds rest')
                    (fun tail => Return (before ++ "%" ++ tail)) = Raise e0 ->
                  interpolation_error (exn_class e0) = true).
          destruct (loop rounds rest') as [tail|e'|] eqn:Hm;
            cbn [obind]; try discriminate.
          intros [= <-]. exact (IHr _ _ Hm).
        + destruct (match_key rest') as [[name rest'']|];
            [|now intros [= <-]].
          destruct (d !! optionxform name) as [v|]; [|now intros [= <-]].
          change (obind (if has_char "%" v
                         then interpolate_some depth opt d v else Return v)
                    (fun expansion =>
                     obind (loop rounds rest'') (fun tail =>
                     Return (before ++ expansion ++ tail))) = Raise e0 ->
                  interpolation_error (exn_class e0) = true).
          destruct (loop rounds rest'') as [tail|e'|] eqn:Hm;
            destruct (has_char "%" v);
            try destruct (interpolate_some depth opt d v)
              as [x|e''|] eqn:Hi;
            cbn [obind]; try discriminate;
            intros [= <-];
            first [exact (IHr _ _ Hm) | exact (IH _ _ _ _ Hi)]. }
    intros H. exact (Hloop (S (String.length rest)) rest e H).
Qed.

Lemma before_get_raises opt v d e :
  before_get opt v d = Raise e -> interpolation_error (exn_class e) = true.
Proof. apply interpolate_some_raises. Qed.

Lemma interpolation_error_is_not_caught c :
  interpolation_error c = true ->
  one_of [NoSectionError; NoOptionError] c = false /\
  one_of [NoSectionError; NoOptionError; ValueError] c = false.
Proof. destruct c; try discriminate; intros _; split; reflexivity. Qed.

Lemma get_unset_interpolation_fails cp section key e :
  interpolation_fails cp section key e ->
  ConfigParser.get (F := Empty_set) cp section key None = Raise e.
Proof.
  intros (d & raw & Hu & Hd & Hv). unfold ConfigParser.get.
  rewrite Hu, Hd, Hv. reflexivity.
Qed.

Lemma get_interpolation_fails {F} cp section key (fb : F) e :
  interpolation_fails cp section key e ->
  ConfigParser.get cp section key (Some fb) = Raise e.
Proof.
  intros (d & raw & Hu & Hd & Hv). unfold ConfigParser.get.
  rewrite Hu, Hd, Hv. reflexivity.
Qed.

(** C5, where the code departs from it.  The getters catch NoSectionError
    and NoOptionError ([get_int] and [get_bool] also ValueError) and
    nothing else.  When the section and the key are there and the stored
    text makes the parser's interpolation raise, the exception is one of
    the interpolation errors and each of [get], [get_int], [get_bool] and
    [get_list] raises it, whatever fallback it was given: the fallback is
    not returned. *)
Theorem getters_let_interpolation_errors_through (self : AppConfig.t)
    (section key : string) (e : exn) :
  interpolation_fails (AppConfig.config self) section key e ->
  interpolation_error (exn_class e) = true /\
  (forall F (fb : F),
     AppConfig.get self section key fb = Raise e /\
     AppConfig.get_int self section key fb = Raise e /\
     AppConfig.get_bool self section key fb = Raise e) /\
  (forall fb, AppConfig.get_list self section key fb = Raise e).
Proof.
  intros Hf.
  assert (He : interpolation_error (exn_class e) = true).
  { destruct Hf as (d & raw & _ & _ & Hv). exact (before_get_raises _ _ _ _ Hv). }
  destruct (interpolation_error_is_not_caught _ He) as [H2 H3].
  split; [exact He|]. split.
  - intros F fb. repeat split.
    + unfold AppConfig.get. rewrite (get_interpolation_fails _ _ _ fb _ Hf).
      cbn [catch]. now rewrite H2.
    + unfold AppConfig.get_int, getint, get_conv.
      rewrite (get_unset_interpolation_fails _ _ _ _ Hf).
      cbn [obind catch]. rewrite H2. cbn [catch]. now rewrite H3.
    + unfold AppConfig.get_bool, getboolean, get_conv.
      rewrite (get_unset_interpolation_fails _ _ _ _ Hf).
      cbn [obind catch]. rewrite H2. cbn [catch]. now rewrite H3.
  - intros fb. unfold AppConfig.get_list.
    rewrite (get_unset_interpolation_fails _ _ _ _ Hf).
    cbn [obind catch]. now rewrite H2.
Qed.

Lemma getters_let_interpolation_errors_through_witness :
  AppConfig.get_int percent_config "app" "max_file_size_mb" 500%Z
    = Raise (mk_exn InterpolationSyntaxError
               "'%' must be followed by '%' or '('") /\
  AppConfig.get_bool percent_config "app" "max_file_size_mb" false
    = Raise (mk_exn InterpolationSyntaxError
               "'%' must be followed by '%' or '('") /\
  AppConfig.get_list percent_config "app" "max_file_size_mb" (Some ["mp4"])
    = Raise (mk_exn InterpolationSyntaxError
               "'%' must be followed by '%' or '('").
Proof.
  assert (Hf : interpolation_fails (AppConfig.config percent_config)
                 "app" "max_file_size_mb"
                 (mk_exn InterpolationSyntaxError
                    "'%' must be followed by '%' or '('")).
  { exists {[ "max_file_size_mb" := "50%" ]}, "50%".
    repeat split; vm_compute; reflexivity. }
  destruct (getters_let_interpolation_errors_through percent_config
              "app" "max_file_size_mb" _ Hf) as (_ & Hg & Hl).
  split; [exact (proj1 (proj2 (Hg Z 500%Z)))|].
  split; [exact (proj2 (proj2 (Hg bool false)))|].
  exact (Hl (Some ["mp4"])).
Defined.

End InterpolationFacts.

(* ===================================================================== *)
(** * Facts about Version 1.py *)
(* ===================================================================== *)

Module Script1Facts.
Import Py Batch BatchSpec ScriptSpec Script1Spec Logic LogicFacts.
Import BatchFacts ScriptFacts.
Local Open Scope py_scope.

Lemma imported_other names : forall s name,
  ~ In name names -> globals (imported names s) !! name = globals s !! name.
Proof.
  induction names as [|n names IH]; intros s name Hn; [reflexivity|].
  cbn [imported]. rewrite IH by (intros H; apply Hn; now right).
  cbn [globals]. apply lookup_insert_ne. intros ->. apply Hn. now left.
Qed.

Lemma imported_lookup names : forall s name,
  In name names -> globals (imported names s) !! name = Some (VObject name).
Proof.
  induction names as [|n names IH]; intros s name Hin; [destruct Hin|].
  cbn [imported].
  destruct (in_dec string_dec name names) as [Hr | Hr]; [now apply IH|].
  destruct Hin as [-> | Hin]; [|contradiction].
  rewrite (imported_other _ _ _ Hr). cbn [globals]. apply lookup_insert_eq.
Qed.

Lemma ask_for_path_cases E fuel : forall s v,
  globals s !! "Path" = Some v ->
  (fst (ask_for_path E fuel s) = Diverge /\
   exists j, out (snd (ask_for_path E fuel s))
             = (out s ++ repeat (Print "Error: File not found") j)%list) \/
  (exists k, first_file_at E (lines_read s) k /\
             ask_for_path E fuel s = (Return tt, asked E k s)).
Proof.
  induction fuel as [|fuel IH]; intros s v Hpath.
  - left. split; [reflexivity|]. exists 0%nat. cbn. now rewrite app_nil_r.
  - rewrite (ask_for_path_round E fuel s v Hpath).
    destruct (is_file E (stdin E (lines_read s))) eqn:Hfile.
    + right. exists 0%nat. split; [|reflexivity].
      split; [intros i Hi; lia | now rewrite Nat.add_0_r].
    + destruct (IH _ v (path_stays_bound (stdin E (lines_read s))
                          "Error: File not found" s v Hpath))
        as [(Hd & j & Hj) | (k & Hk & Heq)].
      * left. split; [exact Hd|]. exists (S j). rewrite Hj.
        cbn [printed answer_line out repeat]. now rewrite <- app_assoc.
      * right. exists (S k). split; [|now rewrite Heq].
        cbn [printed answer_line lines_read] in Hk.
        destruct Hk as [Hno Hyes]. split.
        -- intros [|i] Hi; [now rewrite Nat.add_0_r|].
           replace (lines_read s + S i)%nat with (S (lines_read s) + i)%nat
             by lia.
           apply Hno. lia.
        -- now replace (lines_read s + S k)%nat
             with (S (lines_read s) + k)%nat by lia.
Qed.

Lemma wp_diverge_bind {S A B} (m : M S A) (k : A -> M S B)
    (Q : outcome B -> S -> Prop) s :
  fst (m s) = Diverge -> Q Diverge (snd (m s)) -> wp (bind m k) Q s.
Proof.
  intros Hd HQ. constructor. unfold bind.
  destruct (m s) as [[a|e|] s']; cbn [fst snd] in *; try discriminate.
  exact HQ.
Qed.

Lemma no_request_in_errors j :
  existsb is_quiz_request (repeat (Print "Error: File not found") j) = false.
Proof. induction j as [|j IH]; [reflexivity | exact IH]. Qed.

Lemma no_loading_in_errors j :
  ~ In loading (repeat (Print "Error: File not found") j).
Proof. intros H. apply repeat_spec in H. discriminate H. Qed.

Ltac in_out H :=
  repeat match type of H with
  | In _ (_ ++ _)%list => apply in_app_or in H; destruct H as [H | H]
  | In _ (_ :: _) => destruct H as [H | H]
  | In _ [] => destruct H
  end.

Ltac ends_tac Hq Hl :=
  unfold ends_in_order; cbn [out globals];
  rewrite ?existsb_app, ?Hq; cbn [existsb is_quiz_request orb];
  split; [split; intros xH; first [discriminate xH | reflexivity] |];
  split; [first [discriminate | idtac] |];
  [ .. |
    split;
    [ intros xe xH;
      first [discriminate xH | injection xH as <-; discriminate]
    | intros xm xHload xHin; in_out xHin;
      first [ contradiction
            | discriminate
            | congruence
            | split; [reflexivity|]; unfold not_loaded;
              rewrite ?in_app_iff; cbn [In]; tauto
            | idtac ] ] ].

Lemma wp_load_known {B} name v (k : value -> M state B)
    (Q : outcome B -> state -> Prop) s :
  globals s !! name = Some v -> wp (k v) Q s ->
  wp (bind (load_name name) k) Q s.
Proof.
  intros Hv Hk. apply wp_load_bind; [|congruence].
  intros v' Hv'. now replace v' with v by congruence.
Qed.

Ltac known Hvp Himp :=
  cbn [globals];
  repeat first [ rewrite lookup_insert_eq; reflexivity
               | rewrite lookup_insert_ne by discriminate ];
  first [exact Hvp | apply Himp; cbn; tauto].

Ltac vstep Hvp Himp Hfile :=
  lazymatch goal with
  | |- wp (bind (load_name _) _) _ _ =>
      eapply wp_load_known; [known Hvp Himp|]; cbn beta
  | |- wp (bind (if negb (is_file _ _) then _ else _) _) _ _ =>
      cbn [as_path]; rewrite Hfile; cbn [negb]
  | _ => bstep
  end.

Lemma version_1_ends E fuel :
  wp (Batch1.version_1 E fuel) (ends_in_order E) initial.
Proof.
  unfold Batch1.version_1.
  apply wp_script_call_bind; [intros [] _ | intros msg _].
  2:{ assert (Hq : existsb is_quiz_request (out initial) = false)
        by reflexivity.
      assert (Hl : ~ In loading (out initial)) by (intros []).
      unfold initial in *. ends_tac Hq Hl. }
  eapply wp_eq_bind; [apply bind_imports_returns|].
  set (s1 := imported Batch1.imported_names initial).
  assert (Hpath : globals s1 !! "Path" = Some (VObject "Path"))
    by (apply imported_lookup; cbn; tauto).
  destruct (imported_keeps Batch1.imported_names initial) as [Hl1 Ho1].
  fold s1 in Hl1, Ho1. cbn [initial lines_read out] in Hl1, Ho1.
  destruct (ask_for_path_cases (Batch1.script E) fuel s1 _ Hpath)
    as [(Hd & j & Hj) | (k & Hk & Heq)].
  - apply wp_diverge_bind; [exact Hd|]. rewrite Ho1 in Hj. cbn [app] in Hj.
    pose proof (no_request_in_errors j) as Hq.
    pose proof (no_loading_in_errors j) as Hl.
    rewrite <- Hj in Hq, Hl.
    destruct (snd (ask_for_path (Batch1.script E) fuel s1)) as [g n o].
    cbn [out] in Hq, Hl. ends_tac Hq Hl.
  - eapply wp_eq_bind; [exact Heq|].
    destruct (asked_names (Batch1.script E) k s1) as (_ & Hvp & Hkeep).
    pose proof (asked_out (Batch1.script E) k s1) as Ho.
    rewrite Ho1 in Ho. cbn [app] in Ho.
    destruct Hk as [_ Hfile].
    assert (Himp : forall name, In name Batch1.imported_names ->
              globals (asked (Batch1.script E) k s1) !! name
              = Some (VObject name)).
    { intros name Hin. rewrite Hkeep.
      - now apply imported_lookup.
      - intros ->. cbn in Hin. intuition discriminate.
      - intros ->. cbn in Hin. intuition discriminate. }
    assert (Hq : existsb is_quiz_request
                   (out (asked (Batch1.script E) k s1)) = false).
    { rewrite Ho, existsb_app, no_request_in_errors. reflexivity. }
    assert (Hl : ~ In loading (out (asked (Batch1.script E) k s1))).
    { rewrite Ho. intros H. apply in_app_or in H as [H | [H | []]].
      - now apply no_loading_in_errors in H.
      - discriminate H. }
    clear Ho Hkeep Heq.
    destruct (asked (Batch1.script E) k s1) as [g n o].
    cbn [globals out] in Hvp, Himp, Hq, Hl.
    repeat vstep Hvp Himp Hfile.
    all: ends_tac Hq Hl.
    all: intros _;
      repeat match goal with u : unit |- _ => destruct u end;
      split; [assumption|];
      split; [unfold loaded; rewrite !in_app_iff; cbn [In]; tauto|];
      eexists; split; [eassumption|];
      repeat first [ rewrite lookup_insert_eq; reflexivity
                   | rewrite lookup_insert_ne by discriminate ].
Qed.

(** Version 1.py, unlike Version 2.py, binds every name before reading it
    (line 84 binds [convert_test]), so no run ends in a NameError.  A run
    ends normally exactly when the quiz was requested, which happens only
    after the knowledge base was loaded and with [convert_test] bound to
    the text of the response; and when the loading raises, a run that got
    that far prints the error and leaves through exit(). *)
Theorem version_1_requests_the_quiz_last (E : Batch1.env) (fuel : nat) :
  ends_in_order E (fst (Batch1.version_1 E fuel initial))
                  (snd (Batch1.version_1 E fuel initial)).
Proof. exact (wp_elim _ _ _ (version_1_ends E fuel)). Qed.

(** The script can end either way: with every service answering it
    requests the quiz, and with MongoDB down it ends through exit() before
    any quiz agent is built. *)
Lemma version_1_runs :
  fst (Batch1.version_1 all_fine 3 initial) = Return tt /\
  existsb is_quiz_request (out (snd (Batch1.version_1 all_fine 3 initial)))
  = true /\
  fst (Batch1.version_1 no_mongo 3 initial)
  = Raise (mk_exn SystemExit EmptyString) /\
  existsb is_quiz_request (out (snd (Batch1.version_1 no_mongo 3 initial)))
  = false.
Proof. repeat split; vm_compute; reflexivity. Qed.

End Script1Facts.
